(** * Groundwater dataset tools: the sparse sampler and the field generator

    A shallow embedding of [DatasetWithAdepy/sample.py] (function
    [sample_sparse_data]) and of [DatasetWithAdepy/simulate.py] (function
    [create_contamination_scenario]).

    Numbers are IEEE binary64 values ([spec_float] at precision 53), as
    Python and numpy compute them.  File names are Python [str] values held
    as UTF-8 byte strings; the operations used on them ([startswith],
    [endswith], [split] on an ASCII character, [replace] of a well-formed
    pattern) give the same result on the UTF-8 bytes as on the code points.
    What numpy, pandas and scipy compute inside is not part of the
    repository: seeded generators, nearest-neighbour search and binning are
    fields of an environment record with the contract the scripts rely on,
    and the draws of the unseeded global generator are read from an entropy
    tape. *)

From Stdlib Require Import ZArith List String Ascii Bool Lia.
From Stdlib Require Import Permutation Sorted.
From Stdlib Require Import Floats.SpecFloat.
Import ListNotations.

Local Open Scope string_scope.
Local Open Scope list_scope.
Local Open Scope Z_scope.

(** ** Python values *)

Module Py.

(** binary64 *)
Definition float64 := spec_float.
Definition prec : Z := 53.
Definition emax : Z := 1024.

Definition fzero : float64 := S754_zero false.
Definition fadd : float64 -> float64 -> float64 := SFadd prec emax.
Definition fsub : float64 -> float64 -> float64 := SFsub prec emax.
Definition fmul : float64 -> float64 -> float64 := SFmul prec emax.
Definition fdiv : float64 -> float64 -> float64 := SFdiv prec emax.
Definition fsqrt : float64 -> float64 := SFsqrt prec emax.

(** [a >= b]; false as soon as one side is NaN *)
Definition fge (a b : float64) : bool :=
  match SFcompare a b with
  | Some Gt | Some Eq => true
  | _ => false
  end.

Definition flt (a b : float64) : bool := SFltb a b.
Definition feq (a b : float64) : bool := SFeqb a b.

(** conversion of a Python [int] to a float, rounding to nearest even *)
Definition float_of_int (z : Z) : float64 := binary_normalize prec emax z 0 false.

(** Exceptions, named by the place that raises them. *)
Inductive exn : Type :=
| BadTimeToken (tok : string)          (* ValueError of [int(...)] in the sort key *)
| NoSecondField (name : string)        (* IndexError of [x.split("_")[1]] *)
| FileNotFound (name : string)         (* [pd.read_csv] *)
| NanToInt                             (* ValueError of [int(nan)] *)
| InfToInt                             (* OverflowError of [int(inf)] *)
| UnsupportedStrategy (name : string)  (* ValueError raised at sample.py line 96 *)
| PopulationTooSmall                   (* ValueError of [np.random.choice(..., replace=False)] *)
| RowOutOfBounds (i : nat)             (* IndexError of [iloc] *)
| NothingToConcat                      (* ValueError of [pd.concat([])] *)
| LibraryRaised (fn : string)          (* an exception raised inside a library call *)
| UnboundLocal (var : string)          (* UnboundLocalError *)
| LengthMismatch (what : string) (got expected : nat)  (* ValueError of simulate.py lines 49, 51 *)
| ZeroDivision.                        (* ZeroDivisionError of [/] *)

Inductive result (A : Type) : Type :=
| Ok (a : A)
| Raise (e : exn).
Arguments Ok {A} a.
Arguments Raise {A} e.

Definition bind {A B : Type} (r : result A) (k : A -> result B) : result B :=
  match r with
  | Ok a => k a
  | Raise e => Raise e
  end.

Definition of_option {A : Type} (e : exn) (o : option A) : result A :=
  match o with
  | Some a => Ok a
  | None => Raise e
  end.

(** [int(f)] on a float: truncation toward zero *)
Definition int_of_float (f : float64) : result Z :=
  match f with
  | S754_zero _ => Ok 0
  | S754_infinity _ => Raise InfToInt
  | S754_nan => Raise NanToInt
  | S754_finite s m e =>
      let mag := Z.shiftl (Zpos m) e in
      Ok (if s then - mag else mag)
  end.

(** [s.startswith(p)] *)
Definition startswith (s p : string) : bool := String.prefix p s.

(** [s.endswith(p)] *)
Definition endswith (s p : string) : bool :=
  (String.length p <=? String.length s)%nat &&
  String.eqb (substring (String.length s - String.length p) (String.length p) s) p.

(** [s.split(c)] for a one-character separator *)
Fixpoint split (c : ascii) (s : string) : list string :=
  match s with
  | EmptyString => [EmptyString]
  | String a s' =>
      if Ascii.eqb a c then EmptyString :: split c s'
      else match split c s' with
           | w :: ws => String a w :: ws
           | [] => [String a EmptyString]
           end
  end.

(** [s.replace(old, new)] for a non-empty [old]: every occurrence, leftmost
    first, without overlap.  [skip] counts the characters of an occurrence
    that has just been matched and is still to be dropped. *)
Fixpoint replace_from (skip : nat) (old new s : string) : string :=
  match s with
  | EmptyString => EmptyString
  | String a s' =>
      match skip with
      | S k => replace_from k old new s'
      | O =>
          if String.prefix old s
          then (new ++ replace_from (String.length old - 1) old new s')%string
          else String a (replace_from 0 old new s')
      end
  end.

Definition replace (s old new : string) : string := replace_from 0 old new s.

(** [l[:n]] *)
Definition slice_to {A : Type} (l : list A) (n : Z) : list A :=
  if n <? 0 then firstn (List.length l - Z.to_nat (- n)) l
  else firstn (Z.to_nat n) l.

End Py.

(** ** The sparse sampler, [sample_sparse_data] of sample.py *)

Module Sample.
Import Py.

(** A row of a snapshot table: the columns [X坐标_m], [Y坐标_m] and
    [污染物浓度_mg/L]. *)
Record row : Type := { X : float64; Y : float64; C : float64 }.

Definition DataFrame : Type := list row.

(** The arguments of [sample_sparse_data] other than the two directories. *)
Record config : Type := {
  sample_strategy : string;
  sample_ratio : float64;
  sample_num : option Z;
  min_concentration : float64
}.

(** The input directory as [os.listdir] and [pd.read_csv] show it: the
    names in listing order, each with its parsed table. *)
Definition directory : Type := list (string * DataFrame).

(** What the interpreter and the libraries compute for the script.  [None]
    stands for an exception raised inside the call.
    - [py_int s] is the builtin [int(s)] on a string;
    - [lhs_random n] is [LatinHypercube(d=2, seed=42).random(n=n)];
    - [kd_query coords pts] is [KDTree(coords).query(pts)[1]];
    - [sample_seeded len n] gives the positions of the rows that
      [df.sample(n=n, random_state=42)] returns on a table of [len] rows;
    - [cut xs bins] is [pd.cut(xs, bins=bins, labels=False)], a label being
      [None] where pandas gives NaN. *)
Record Env : Type := {
  py_int : string -> option Z;
  lhs_random : Z -> option (list (float64 * float64));
  kd_query : list (float64 * float64) -> list (float64 * float64) -> option (list nat);
  sample_seeded : nat -> Z -> option (list nat);
  cut : list float64 -> Z -> option (list (option nat))
}.

(** The draws of numpy's global generator, which the script never seeds:
    each unseeded draw reads the next entry. *)
Definition tape : Type := list nat.

(** What an invocation does to the outside world, in order. *)
Inductive event : Type :=
| MakeDirs                                         (* line 20 *)
| ReadCsv (name : string)                          (* line 29 *)
| Warning (name : string)                          (* line 33 *)
| ToCsv (name : string) (df : DataFrame)           (* line 100 *)
| Summary (name : string) (n_valid n_out : nat)    (* lines 103-104 *)
| Extent (x_min x_max y_min y_max : float64).      (* line 105 *)

(** *** Lines 23-24: the work list *)

Definition is_snapshot_name (f : string) : bool :=
  startswith f "全局浓度_" && endswith f ".csv".

(** [x.split("_")[1].replace("天.csv", "")] *)
Definition time_token (x : string) : result string :=
  match split "_"%char x with
  | _ :: t :: _ => Ok (replace t "天.csv" "")
  | _ => Raise (NoSecondField x)
  end.

(** the [key] of the sort *)
Definition sort_key (env : Env) (x : string) : result Z :=
  bind (time_token x) (fun tok => of_option (BadTimeToken tok) (py_int env tok)).

(** [list.sort] first computes the key of every element, in order. *)
Fixpoint decorate (env : Env) (names : list string) : result (list (Z * string)) :=
  match names with
  | [] => Ok []
  | x :: xs =>
      bind (sort_key env x) (fun k =>
      bind (decorate env xs) (fun ks => Ok ((k, x) :: ks)))
  end.

(** A stable sort on the keys: an element goes before the first one whose
    key is not smaller. *)
Fixpoint insert_by_key (a : Z * string) (l : list (Z * string)) : list (Z * string) :=
  match l with
  | [] => [a]
  | b :: l' => if fst a <=? fst b then a :: l else b :: insert_by_key a l'
  end.

Definition sort_by_key (l : list (Z * string)) : list (Z * string) :=
  fold_right insert_by_key [] l.

Definition csv_files (env : Env) (dir : directory) : result (list string) :=
  let names := filter is_snapshot_name (map fst dir) in
  bind (decorate env names) (fun ks => Ok (map snd (sort_by_key ks))).

(** *** Lines 29-40: reading, filtering, the sample count *)

Definition read_csv (dir : directory) (name : string) : result DataFrame :=
  match find (fun p => String.eqb (fst p) name) dir with
  | Some p => Ok (snd p)
  | None => Raise (FileNotFound name)
  end.

(** [df[df["污染物浓度_mg/L"] >= min_concentration]] *)
Definition valid_rows (cfg : config) (df : DataFrame) : DataFrame :=
  filter (fun r => fge (C r) (min_concentration cfg)) df.

Definition n_sample_of (cfg : config) (n_valid : nat) : result Z :=
  match sample_num cfg with
  | Some k => Ok (Z.min k (Z.of_nat n_valid))
  | None =>
      bind (int_of_float (fmul (float_of_int (Z.of_nat n_valid)) (sample_ratio cfg)))
           (fun k => Ok (Z.max 1 k))
  end.

(** *** numpy and pandas operations with a plain meaning *)

(** [Series.min()] and [Series.max()], which skip NaN *)
Definition fmin2 (a b : float64) : float64 :=
  match a, b with
  | S754_nan, _ => b
  | _, S754_nan => a
  | _, _ => if flt b a then b else a
  end.

Definition fmax2 (a b : float64) : float64 :=
  match a, b with
  | S754_nan, _ => b
  | _, S754_nan => a
  | _, _ => if flt a b then b else a
  end.

Definition col_min (xs : list float64) : float64 := fold_left fmin2 xs S754_nan.
Definition col_max (xs : list float64) : float64 := fold_left fmax2 xs S754_nan.

(** [np.unique]: the distinct values in ascending order *)
Fixpoint insert_unique (i : nat) (l : list nat) : list nat :=
  match l with
  | [] => [i]
  | j :: l' =>
      if (i <? j)%nat then i :: l
      else if (i =? j)%nat then l
      else j :: insert_unique i l'
  end.

Definition np_unique (l : list nat) : list nat := fold_right insert_unique [] l.

Definition mem (i : nat) (l : list nat) : bool := existsb (Nat.eqb i) l.

Fixpoint remove_at {A : Type} (i : nat) (l : list A) : list A :=
  match l, i with
  | [], _ => []
  | _ :: l', O => l'
  | a :: l', S i' => a :: remove_at i' l'
  end.

(** [k] draws without replacement: each draw reads one tape entry and takes
    the element it designates out of what is left of the pool.  Every
    ordered choice of [k] distinct pool elements comes from some tape. *)
Fixpoint draw_distinct (k : nat) (pool : list nat) (t : tape) : list nat * tape :=
  match k with
  | O => ([], t)
  | S k' =>
      match pool with
      | [] => ([], t)
      | p0 :: _ =>
          let i := (hd O t mod List.length pool)%nat in
          let '(rest, t') := draw_distinct k' (remove_at i pool) (tl t) in
          (nth i pool p0 :: rest, t')
      end
  end.

(** [np.random.choice(pool, size=size, replace=False)] *)
Definition random_choice (pool : list nat) (size : Z) (t : tape) : result (list nat * tape) :=
  if size <? 0 then Raise (LibraryRaised "np.random.choice")
  else if Z.of_nat (List.length pool) <? size then Raise PopulationTooSmall
  else Ok (draw_distinct (Z.to_nat size) pool t).

(** [df.iloc[idx]] *)
Fixpoint iloc (df : DataFrame) (idx : list nat) : result DataFrame :=
  match idx with
  | [] => Ok []
  | i :: idx' =>
      match nth_error df i with
      | None => Raise (RowOutOfBounds i)
      | Some r => bind (iloc df idx') (fun rs => Ok (r :: rs))
      end
  end.

(** [Series.unique()]: the distinct labels in order of first appearance,
    NaN (here [None]) included.  [seen] is kept newest first. *)
Definition label_eqb (a b : option nat) : bool :=
  match a, b with
  | Some x, Some y => (x =? y)%nat
  | None, None => true
  | _, _ => false
  end.

Fixpoint unique_from (seen : list (option nat)) (l : list (option nat)) : list (option nat) :=
  match l with
  | [] => []
  | a :: l' =>
      if existsb (label_eqb a) seen then unique_from seen l'
      else a :: unique_from (a :: seen) l'
  end.

Definition unique (l : list (option nat)) : list (option nat) := unique_from [] l.

(** [column == v]: never true on NaN *)
Definition label_is (a v : option nat) : bool :=
  match a, v with
  | Some x, Some y => (x =? y)%nat
  | _, _ => false
  end.

(** *** Lines 43-75: the Latin-hypercube strategy *)

(** lines 45-46 *)
Definition extent (df_valid : DataFrame) : float64 * float64 * float64 * float64 :=
  (col_min (map X df_valid), col_max (map X df_valid),
   col_min (map Y df_valid), col_max (map Y df_valid)).

(** lines 53-54 *)
Definition to_extent (df_valid : DataFrame) (p : float64 * float64) : float64 * float64 :=
  let '(x_min, x_max, y_min, y_max) := extent df_valid in
  (fadd x_min (fmul (fst p) (fsub x_max x_min)),
   fadd y_min (fmul (snd p) (fsub y_max y_min))).

(** lines 62-72: [final_indices] from the nearest-neighbour [indices] *)
Definition final_indices_of (indices : list nat) (n_valid : nat) (n_sample : Z) (t : tape)
  : result (list nat * tape) :=
  let unique_indices := np_unique indices in
  if Z.of_nat (List.length unique_indices) <? n_sample then
    let remaining := n_sample - Z.of_nat (List.length unique_indices) in
    let pool := filter (fun i => negb (mem i unique_indices)) (seq 0 n_valid) in
    bind (random_choice pool remaining t) (fun '(supplement_indices, t') =>
    Ok (unique_indices ++ supplement_indices, t'))
  else Ok (slice_to unique_indices n_sample, t).

(** lines 49-72 *)
Definition lhs_final_indices (env : Env) (t : tape) (df_valid : DataFrame) (n_sample : Z)
  : result (list nat * tape) :=
  bind (of_option (LibraryRaised "LatinHypercube.random") (lhs_random env n_sample))
       (fun lhs_sample =>
  let valid_coords := map (fun r => (X r, Y r)) df_valid in
  bind (of_option (LibraryRaised "KDTree.query")
                  (kd_query env valid_coords (map (to_extent df_valid) lhs_sample)))
       (fun indices =>
  final_indices_of indices (List.length df_valid) n_sample t)).

Definition sample_lhs (env : Env) (t : tape) (df_valid : DataFrame) (n_sample : Z)
  : result (DataFrame * tape) :=
  bind (lhs_final_indices env t df_valid n_sample) (fun '(final_indices, t') =>
  bind (iloc df_valid final_indices) (fun df_sample => Ok (df_sample, t'))).

(** *** Line 79: the random strategy *)

Definition sample_random (env : Env) (df_valid : DataFrame) (n_sample : Z) : result DataFrame :=
  bind (of_option (LibraryRaised "DataFrame.sample")
                  (sample_seeded env (List.length df_valid) n_sample))
       (iloc df_valid).

(** *** Lines 81-94: the uniform strategy *)

(** a valid row with its [x_bin] and [y_bin] labels *)
Definition binned : Type := row * (option nat * option nat).

Definition in_bin (xb yb : option nat) (b : binned) : bool :=
  label_is (fst (snd b)) xb && label_is (snd (snd b)) yb.

(** line 87-89: [bin_df.sample(1)], one unseeded draw, when the bin has a row *)
Definition pick_in_bin (bin_df : list binned) (acc : list row) (t : tape) : list row * tape :=
  match bin_df with
  | [] => (acc, t)
  | b0 :: _ => (acc ++ [fst (nth (hd O t mod List.length bin_df) bin_df b0)], tl t)
  end.

(** the inner loop, lines 86-91 *)
Fixpoint scan_y (n_sample : Z) (tagged : list binned) (xb : option nat)
  (ybs : list (option nat)) (acc : list row) (t : tape) : list row * tape :=
  match ybs with
  | [] => (acc, t)
  | yb :: ybs' =>
      let '(acc', t') := pick_in_bin (filter (in_bin xb yb) tagged) acc t in
      if Z.of_nat (List.length acc') >=? n_sample then (acc', t')
      else scan_y n_sample tagged xb ybs' acc' t'
  end.

(** the outer loop, lines 85-93 *)
Fixpoint scan_x (n_sample : Z) (tagged : list binned) (xbs ybs : list (option nat))
  (acc : list row) (t : tape) : list row * tape :=
  match xbs with
  | [] => (acc, t)
  | xb :: xbs' =>
      let '(acc', t') := scan_y n_sample tagged xb ybs acc t in
      if Z.of_nat (List.length acc') >=? n_sample then (acc', t')
      else scan_x n_sample tagged xbs' ybs acc' t'
  end.

(** assignment of a new column: the lengths must agree *)
Definition as_column (n_rows : nat) (labels : list (option nat)) : result (list (option nat)) :=
  if (List.length labels =? n_rows)%nat then Ok labels
  else Raise (LibraryRaised "column assignment").

Definition sample_uniform (env : Env) (t : tape) (df_valid : DataFrame) (n_sample : Z)
  : result (DataFrame * tape) :=
  bind (int_of_float (fsqrt (float_of_int n_sample))) (fun n_bins =>
  bind (of_option (LibraryRaised "pd.cut") (cut env (map X df_valid) n_bins)) (fun xl =>
  bind (as_column (List.length df_valid) xl) (fun x_bin =>
  bind (of_option (LibraryRaised "pd.cut") (cut env (map Y df_valid) n_bins)) (fun yl =>
  bind (as_column (List.length df_valid) yl) (fun y_bin =>
  let tagged := combine df_valid (combine x_bin y_bin) in
  let '(df_sample, t') := scan_x n_sample tagged (unique x_bin) (unique y_bin) [] t in
  match df_sample with
  | [] => Raise NothingToConcat
  | _ => Ok (df_sample, t')
  end))))).

(** *** Lines 43-96: the dispatch on the strategy name *)

Definition select (env : Env) (cfg : config) (t : tape) (df_valid : DataFrame) (n_sample : Z)
  : result (DataFrame * tape) :=
  if String.eqb (sample_strategy cfg) "lhs" then sample_lhs env t df_valid n_sample
  else if String.eqb (sample_strategy cfg) "random" then
    bind (sample_random env df_valid n_sample) (fun df_sample => Ok (df_sample, t))
  else if String.eqb (sample_strategy cfg) "uniform" then sample_uniform env t df_valid n_sample
  else Raise (UnsupportedStrategy (sample_strategy cfg)).

(** *** Lines 26-105: one turn of the loop *)

(** line 99 *)
Definition output_name (csv_file : string) : string :=
  ("稀疏观测_" ++ replace csv_file "全局浓度_" "")%string.

(** line 105 reads [x_min], [x_max], [y_min], [y_max], which only the
    Latin-hypercube branch assigns (lines 45-46). *)
Definition report_extent (cfg : config) (df_valid : DataFrame) : list event * option exn :=
  if String.eqb (sample_strategy cfg) "lhs" then
    let '(x_min, x_max, y_min, y_max) := extent df_valid in
    ([Extent x_min x_max y_min y_max], None)
  else ([], Some (UnboundLocal "x_min")).

(** The events of one snapshot, the tape left, and the exception if one
    escapes. *)
Definition process_snapshot (env : Env) (cfg : config) (t : tape)
  (csv_file : string) (df : DataFrame) : list event * tape * option exn :=
  let df_valid := valid_rows cfg df in
  if (List.length df_valid =? 0)%nat then ([ReadCsv csv_file; Warning csv_file], t, None)
  else
    match bind (n_sample_of cfg (List.length df_valid)) (select env cfg t df_valid) with
    | Raise e => ([ReadCsv csv_file], t, Some e)
    | Ok (df_sample, t') =>
        let '(evs, r) := report_extent cfg df_valid in
        (ReadCsv csv_file
           :: ToCsv (output_name csv_file) df_sample
           :: Summary csv_file (List.length df_valid) (List.length df_sample)
           :: evs, t', r)
    end.

(** the loop of line 26 *)
Fixpoint run_loop (env : Env) (cfg : config) (dir : directory) (t : tape)
  (files : list string) : list event * option exn :=
  match files with
  | [] => ([], None)
  | csv_file :: rest =>
      match read_csv dir csv_file with
      | Raise e => ([], Some e)
      | Ok df =>
          let '(evs, t', r) := process_snapshot env cfg t csv_file df in
          match r with
          | Some e => (evs, Some e)
          | None =>
              let '(evs', r') := run_loop env cfg dir t' rest in
              (evs ++ evs', r')
          end
      end
  end.

(** *** [sample_sparse_data] *)

Definition sample_sparse_data (env : Env) (t : tape) (dir : directory) (cfg : config)
  : list event * option exn :=
  match csv_files env dir with
  | Raise e => ([MakeDirs], Some e)
  | Ok files =>
      let '(evs, r) := run_loop env cfg dir t files in
      (MakeDirs :: evs, r)
  end.

(** *** Reading a trace *)

(** the tables written, in order *)
Fixpoint written (evs : list event) : list (string * DataFrame) :=
  match evs with
  | [] => []
  | ToCsv name df :: evs' => (name, df) :: written evs'
  | _ :: evs' => written evs'
  end.

(** the snapshots read, in order *)
Fixpoint reads (evs : list event) : list string :=
  match evs with
  | [] => []
  | ReadCsv name :: evs' => name :: reads evs'
  | _ :: evs' => reads evs'
  end.

(** the snapshots warned about, in order *)
Fixpoint warnings (evs : list event) : list string :=
  match evs with
  | [] => []
  | Warning name :: evs' => name :: warnings evs'
  | _ :: evs' => warnings evs'
  end.

End Sample.

(** ** A reference environment

    One admissible behaviour of the interpreter and the libraries, used to
    run the sampler on concrete inputs. *)

Module Ref.
Import Py Sample.

Definition digit_of (a : ascii) : option Z :=
  let n := Z.of_nat (nat_of_ascii a) in
  if (48 <=? n) && (n <=? 57) then Some (n - 48) else None.

Fixpoint digits (acc : Z) (s : string) : option Z :=
  match s with
  | EmptyString => Some acc
  | String a s' =>
      match digit_of a with
      | Some d => digits (10 * acc + d) s'
      | None => None
      end
  end.

(** [int(s)] on an optional sign followed by ASCII decimal digits; no
    other token is taken for an integer here *)
Definition int_ascii (s : string) : option Z :=
  match s with
  | EmptyString => None
  | String "-"%char (String _ _ as s') => option_map Z.opp (digits 0 s')
  | String "+"%char (String _ _ as s') => digits 0 s'
  | _ => digits 0 s
  end.

(** [n] points on the diagonal strata of the unit square *)
Definition lhs_diagonal (n : Z) : option (list (float64 * float64)) :=
  if n <? 0 then None
  else
    let centre (i : nat) :=
      fdiv (float_of_int (2 * Z.of_nat i + 1)) (float_of_int (2 * n)) in
    Some (map (fun i => (centre i, centre i)) (seq 0 (Z.to_nat n))).

Definition dist2 (p q : float64 * float64) : float64 :=
  let dx := fsub (fst p) (fst q) in
  let dy := fsub (snd p) (snd q) in
  fadd (fmul dx dx) (fmul dy dy).

(** position of the point of [coords] nearest to [q], the first one on a tie;
    [best] is the position held so far, [i] the position of the head *)
Fixpoint nearest_from (q : float64 * float64) (coords : list (float64 * float64))
  (i best : nat) (dbest : float64) : nat :=
  match coords with
  | [] => best
  | p :: coords' =>
      if flt (dist2 p q) dbest then nearest_from q coords' (S i) i (dist2 p q)
      else nearest_from q coords' (S i) best dbest
  end.

Definition nearest (coords : list (float64 * float64)) (q : float64 * float64) : nat :=
  nearest_from q coords 0 0 (S754_infinity false).

Definition kd_brute (coords pts : list (float64 * float64)) : option (list nat) :=
  match coords with
  | [] => None
  | _ => Some (map (nearest coords) pts)
  end.

(** the last [n] positions, highest first *)
Definition sample_last (len : nat) (n : Z) : option (list nat) :=
  if (n <? 0) || (Z.of_nat len <? n) then None
  else Some (firstn (Z.to_nat n) (rev (seq 0 len))).

(** equal-width bins, closed on the right: the label of [x] counts the
    inner edges below [x] *)
Definition cut_equal_width (xs : list float64) (bins : Z) : option (list (option nat)) :=
  if bins <=? 0 then None
  else
    let mn := col_min xs in
    let mx := col_max xs in
    let step := fdiv (fsub mx mn) (float_of_int bins) in
    let edge (k : nat) := fadd mn (fmul (float_of_int (Z.of_nat k)) step) in
    let inner := map edge (seq 1 (Z.to_nat bins - 1)) in
    Some (map (fun x =>
                 match x with
                 | S754_nan => None
                 | _ => Some (List.length (filter (fun e => flt e x) inner))
                 end) xs).

Definition env : Env := {|
  py_int := int_ascii;
  lhs_random := lhs_diagonal;
  kd_query := kd_brute;
  sample_seeded := sample_last;
  cut := cut_equal_width
|}.

(** decimal data for examples: [dec n k] is the float nearest to n / 10^k *)
Definition dec (n : Z) (k : nat) : float64 :=
  fdiv (float_of_int n) (float_of_int (10 ^ Z.of_nat k)).

Definition mk (x y c : Z) : row :=
  {| X := float_of_int x; Y := float_of_int y; C := float_of_int c |}.

End Ref.

(** ** The field generator, [create_contamination_scenario] of simulate.py *)

Module Simulate.
Import Py.

(** A Python number as the observation times are given: [0], [10], [0.5]. *)
Inductive number : Type :=
| Int (z : Z)
| Float (f : float64).

(** [t == 0] *)
Definition is_zero (t : number) : bool :=
  match t with
  | Int z => z =? 0
  | Float f => feq f fzero
  end.

(** [t > 0] *)
Definition is_positive (t : number) : bool :=
  match t with
  | Int z => 0 <? z
  | Float f => flt fzero f
  end.

(** a two-dimensional array, row by row *)
Definition ndarray : Type := list (list float64).

Definition shape (a : ndarray) : list nat := map (@List.length float64) a.

Definition entry (a : ndarray) (i j : nat) : float64 := nth j (nth i a []) fzero.

(** [np.zeros_like] *)
Definition zeros_like (a : ndarray) : ndarray := map (map (fun _ => fzero)) a.

Fixpoint zip_with {A B D : Type} (f : A -> B -> D) (l : list A) (m : list B) : list D :=
  match l, m with
  | a :: l', b :: m' => f a b :: zip_with f l' m'
  | _, _ => []
  end.

(** [total += single] for two arrays of one shape; point2 returns an array
    of the shape of its [x], and any other operand is refused here *)
Definition iadd (total single : ndarray) : result ndarray :=
  if list_eq_dec Nat.eq_dec (shape total) (shape single)
  then Ok (zip_with (zip_with fadd) total single)
  else Raise (LibraryRaised "operands could not be broadcast together").

(** The arguments of [create_contamination_scenario]. *)
Record scenario : Type := {
  scene_name : string;
  Kαα : float64;
  Kββ : float64;
  θ : float64;
  αL : float64;
  αT : float64;
  x_range : float64 * float64;
  y_range : float64 * float64;
  grid_num : Z;
  sources : list (float64 * float64);
  c0_list : list float64;
  Qa_list : list float64;
  stress_cycle_d : Z;
  obs_times : list number
}.

(** The libraries.  [point2 x y t v al ah n xc yc Qa c0] is
    [adepy.uniform.point2] with these keyword arguments, a pure function;
    [linspace start stop num] is [np.linspace], [None] when it raises. *)
Record Lib : Type := {
  point2 : ndarray -> ndarray -> number ->
           float64 -> float64 -> float64 -> float64 ->
           float64 -> float64 -> float64 -> float64 -> ndarray;
  linspace : float64 -> float64 -> Z -> option (list float64)
}.

(** What a call does to the outside world, in order.  A plot is recorded as
    the file it is saved to. *)
Inductive event : Type :=
| MakeDirs (dir : string)                                   (* lines 57-58 *)
| OpenParamLog                                              (* line 62 *)
| Evaluate (t : number) (xc yc Qa c0 : float64)             (* line 109 *)
| WriteCsv (t : number) (table : list (float64 * float64 * float64))  (* line 137 *)
| SavePlot (t : number)                                     (* line 168 *)
| SaveSummaryPlot.                                          (* line 199 *)

(** [np.meshgrid] *)
Definition meshgrid (xs ys : list float64) : ndarray * ndarray :=
  (map (fun _ => xs) ys, map (fun y => map (fun _ => y) xs) ys).

(** [a / b] on Python floats *)
Definition py_div (a b : float64) : result float64 :=
  if feq b fzero then Raise ZeroDivision else Ok (fdiv a b).

(** lines 108-114: the loop over [zip(sources, c0_list, Qa_list)] *)
Fixpoint superpose (lib : Lib) (sc : scenario) (x_grid y_grid : ndarray) (v : float64)
  (t : number) (srcs : list (float64 * float64 * float64 * float64))
  (total_conc : ndarray) : list event * result ndarray :=
  match srcs with
  | [] => ([], Ok total_conc)
  | (xc, yc, c0, qa) :: rest =>
      let single_source_conc :=
        point2 lib x_grid y_grid t v (αL sc) (αT sc) (θ sc) xc yc qa c0 in
      match iadd total_conc single_source_conc with
      | Raise e => ([Evaluate t xc yc qa c0], Raise e)
      | Ok total' =>
          let '(evs, r) := superpose lib sc x_grid y_grid v t rest total' in
          (Evaluate t xc yc qa c0 :: evs, r)
      end
  end.

(** [zip(sources, c0_list, Qa_list)], which stops with the shortest list *)
Definition zip3 (sc : scenario) : list (float64 * float64 * float64 * float64) :=
  zip_with (fun sc0 qa => (fst (fst sc0), snd (fst sc0), snd sc0, qa))
           (combine (sources sc) (c0_list sc)) (Qa_list sc).

(** lines 103-115: the field of one observation time *)
Definition concentration_at (lib : Lib) (sc : scenario) (x_grid y_grid : ndarray)
  (v : float64) (t : number) : list event * result ndarray :=
  if is_zero t then ([], Ok (zeros_like x_grid))
  else superpose lib sc x_grid y_grid v t (zip3 sc) (zeros_like x_grid).

(** lines 101-115 *)
Fixpoint all_concentrations (lib : Lib) (sc : scenario) (x_grid y_grid : ndarray)
  (v : float64) (times : list number) : list event * result (list ndarray) :=
  match times with
  | [] => ([], Ok [])
  | t :: times' =>
      match concentration_at lib sc x_grid y_grid v t with
      | (evs, Raise e) => (evs, Raise e)
      | (evs, Ok total_conc) =>
          let '(evs', r) := all_concentrations lib sc x_grid y_grid v times' in
          (evs ++ evs', bind r (fun cs => Ok (total_conc :: cs)))
      end
  end.

(** line 118: [np.max] refuses an empty list and an empty array *)
Definition max_defined (fields : list ndarray) : bool :=
  match fields with
  | [] => false
  | _ => forallb (fun f => match List.concat f with [] => false | _ => true end) fields
  end.

(** lines 128-137: the table of one observation time *)
Definition table_of (x_grid y_grid total_conc : ndarray) : list (float64 * float64 * float64) :=
  zip_with (fun xy c => (fst xy, snd xy, c))
           (combine (List.concat x_grid) (List.concat y_grid)) (List.concat total_conc).

(** lines 123-177 *)
Fixpoint save_all (x_grid y_grid : ndarray) (times : list number) (fields : list ndarray)
  : list event :=
  match times, fields with
  | t :: times', total_conc :: fields' =>
      WriteCsv t (table_of x_grid y_grid total_conc) :: SavePlot t
        :: save_all x_grid y_grid times' fields'
  | _, _ => []
  end.

Definition CSV_DIR : string := "csv_results".
Definition PLOT_DIR : string := "plot_results".

Definition create_contamination_scenario (lib : Lib) (sc : scenario) : list event * option exn :=
  if negb (List.length (c0_list sc) =? List.length (sources sc))%nat then
    ([], Some (LengthMismatch "c0_list" (List.length (c0_list sc)) (List.length (sources sc))))
  else if negb (List.length (Qa_list sc) =? List.length (sources sc))%nat then
    ([], Some (LengthMismatch "Qa_list" (List.length (Qa_list sc)) (List.length (sources sc))))
  else
    let setup := [MakeDirs CSV_DIR; MakeDirs PLOT_DIR; OpenParamLog] in
    match py_div (Kαα sc) (θ sc) with
    | Raise e => (setup, Some e)
    | Ok v =>
        match linspace lib (fst (x_range sc)) (snd (x_range sc)) (grid_num sc),
              linspace lib (fst (y_range sc)) (snd (y_range sc)) (grid_num sc) with
        | Some x_grid_arr, Some y_grid_arr =>
            let '(x_grid, y_grid) := meshgrid x_grid_arr y_grid_arr in
            match all_concentrations lib sc x_grid y_grid v (obs_times sc) with
            | (evs, Raise e) => (setup ++ evs, Some e)
            | (evs, Ok fields) =>
                if max_defined fields then
                  (setup ++ evs ++ save_all x_grid y_grid (obs_times sc) fields
                     ++ [SaveSummaryPlot], None)
                else (setup ++ evs, Some (LibraryRaised "np.max"))
            end
        | _, _ => (setup, Some (LibraryRaised "np.linspace"))
        end
    end.


End Simulate.

(** * Properties of the sampler *)

Import Py Sample.

(** *** Strings *)

Lemma prefix_app (p s : string) :
  String.prefix p s = true -> exists r, s = (p ++ r)%string.
Proof.
  revert s; induction p as [|a p IH]; intros s H.
  - exists s; reflexivity.
  - destruct s as [|b s]; simpl in H; [discriminate|].
    destruct (ascii_dec a b) as [->|]; [|discriminate].
    destruct (IH _ H) as [r ->]. exists r; reflexivity.
Qed.

Lemma split_nonempty (c : ascii) (s : string) : split c s <> [].
Proof.
  destruct s as [|a s]; simpl; [discriminate|].
  destruct (Ascii.eqb a c); [discriminate|].
  destruct (split c s); discriminate.
Qed.

(** no separator in [w] *)
Fixpoint free_of (c : ascii) (w : string) : bool :=
  match w with
  | EmptyString => true
  | String a w' => negb (Ascii.eqb a c) && free_of c w'
  end.

Lemma split_first_field (c : ascii) (w r : string) :
  free_of c w = true ->
  split c (w ++ String c r) = w :: split c r.
Proof.
  induction w as [|a w IH]; simpl; intros H.
  - rewrite Ascii.eqb_refl; reflexivity.
  - apply andb_true_iff in H as [Ha Hw].
    apply negb_true_iff in Ha. rewrite Ha, (IH Hw). reflexivity.
Qed.

Lemma snapshot_name_has_token (f : string) :
  is_snapshot_name f = true -> exists tok, time_token f = Ok tok.
Proof.
  unfold is_snapshot_name, startswith; intros H.
  apply andb_true_iff in H as [H _].
  apply prefix_app in H as [r ->].
  unfold time_token.
  change ("全局浓度_" ++ r)%string with ("全局浓度" ++ String "_" r)%string.
  rewrite split_first_field by reflexivity.
  destruct (split "_" r) as [|t ts] eqn:E; [now apply split_nonempty in E|].
  eexists; reflexivity.
Qed.

(** *** The work list of lines 23-24 *)

Definition key_sorted : list (Z * string) -> Prop :=
  StronglySorted (fun a b => fst a <= fst b).

Lemma insert_by_key_perm (a : Z * string) (l : list (Z * string)) :
  Permutation (a :: l) (insert_by_key a l).
Proof.
  induction l as [|b l IH]; simpl; [reflexivity|].
  destruct (fst a <=? fst b); [reflexivity|].
  rewrite perm_swap. now apply perm_skip.
Qed.

Lemma sort_by_key_perm (l : list (Z * string)) : Permutation l (sort_by_key l).
Proof.
  induction l as [|a l IH]; simpl; [reflexivity|].
  rewrite <- insert_by_key_perm. now apply perm_skip.
Qed.

Lemma insert_by_key_sorted (a : Z * string) (l : list (Z * string)) :
  key_sorted l -> key_sorted (insert_by_key a l).
Proof.
  unfold key_sorted.
  induction l as [|b l IH]; simpl; intros Hs.
  - constructor; constructor.
  - destruct (Z.leb_spec (fst a) (fst b)) as [Hab|Hab].
    + constructor; [exact Hs|].
      apply StronglySorted_inv in Hs as [_ Hb].
      constructor; [exact Hab|].
      eapply Forall_impl; [|exact Hb]. simpl; intros; lia.
    + apply StronglySorted_inv in Hs as [Hl Hb].
      constructor; [now apply IH|].
      eapply Permutation_Forall; [apply insert_by_key_perm|].
      constructor; [lia|exact Hb].
Qed.

Lemma sort_by_key_sorted (l : list (Z * string)) : key_sorted (sort_by_key l).
Proof.
  induction l as [|a l IH]; simpl.
  - constructor.
  - now apply insert_by_key_sorted.
Qed.

Lemma decorate_ok (env : Env) (names : list string) (ks : list (Z * string)) :
  decorate env names = Ok ks ->
  map snd ks = names /\ Forall (fun p => sort_key env (snd p) = Ok (fst p)) ks.
Proof.
  revert ks; induction names as [|x xs IH]; simpl; intros ks H.
  - injection H as <-. split; constructor.
  - destruct (sort_key env x) as [k|] eqn:Ek; simpl in H; [|discriminate].
    destruct (decorate env xs) as [ks'|] eqn:Ed; simpl in H; [|discriminate].
    injection H as <-. destruct (IH _ eq_refl) as [Hm Hf].
    split; simpl; [now rewrite Hm|constructor; assumption].
Qed.

(** A token that [int] refuses stops the sort, whatever else is listed. *)
Lemma decorate_bad_token (env : Env) (names : list string) (f tok : string) :
  Forall (fun x => is_snapshot_name x = true) names ->
  In f names -> time_token f = Ok tok -> py_int env tok = None ->
  exists tok', decorate env names = Raise (BadTimeToken tok').
Proof.
  intros Hall Hin Htok Hint.
  induction names as [|x xs IH]; simpl; [contradiction|].
  apply Forall_cons_iff in Hall as [Hx Hxs].
  unfold sort_key at 1.
  destruct (snapshot_name_has_token _ Hx) as [tx Etx]. rewrite Etx. simpl.
  destruct (py_int env tx) as [k|] eqn:Ek; simpl.
  - destruct Hin as [->|Hin].
    + rewrite Etx in Htok. injection Htok as ->. congruence.
    + destruct (IH Hxs Hin) as [tok' ->]. now exists tok'.
  - now exists tx.
Qed.

(** the order of the work list: by the integer that the sort key reads in
    each name *)
Definition key_le (env : Env) (a b : string) : Prop :=
  exists ka kb, sort_key env a = Ok ka /\ sort_key env b = Ok kb /\ ka <= kb.

Lemma csv_files_spec (env : Env) (dir : directory) (files : list string) :
  csv_files env dir = Ok files ->
  Permutation files (filter is_snapshot_name (map fst dir)) /\
  StronglySorted (key_le env) files.
Proof.
  unfold csv_files.
  destruct (decorate env _) as [ks|] eqn:Ed; simpl; [|discriminate].
  intros H; injection H as <-.
  destruct (decorate_ok _ _ _ Ed) as [Hm Hf].
  split.
  - rewrite <- Hm. apply Permutation_map. symmetry. apply sort_by_key_perm.
  - assert (Hf' : Forall (fun p => sort_key env (snd p) = Ok (fst p)) (sort_by_key ks))
      by (eapply Permutation_Forall; [apply sort_by_key_perm|exact Hf]).
    pose proof (sort_by_key_sorted ks) as Hs. unfold key_sorted in Hs.
    induction Hs as [|a l Hs IH Ha]; simpl; [constructor|].
    apply Forall_cons_iff in Hf' as [Hka Hkl].
    constructor; [now apply IH|].
    rewrite Forall_map. rewrite Forall_forall in Ha, Hkl |- *.
    intros b Hb. exists (fst a), (fst b). auto.
Qed.

(** *** The snapshots read *)

Lemma reads_app (evs evs' : list event) : reads (evs ++ evs') = reads evs ++ reads evs'.
Proof.
  induction evs as [|e evs IH]; simpl; [reflexivity|].
  destruct e; simpl; now rewrite IH.
Qed.

Lemma written_app (evs evs' : list event) :
  written (evs ++ evs') = written evs ++ written evs'.
Proof.
  induction evs as [|e evs IH]; simpl; [reflexivity|].
  destruct e; simpl; now rewrite IH.
Qed.

Lemma report_extent_quiet (cfg : config) (df_valid : DataFrame) :
  reads (fst (report_extent cfg df_valid)) = [] /\
  written (fst (report_extent cfg df_valid)) = [].
Proof.
  unfold report_extent. destruct (String.eqb _ _); [|split; reflexivity].
  destruct (extent df_valid) as [[[? ?] ?] ?]. split; reflexivity.
Qed.

Lemma process_snapshot_reads (env : Env) (cfg : config) (t : tape)
  (csv_file : string) (df : DataFrame) :
  reads (fst (fst (process_snapshot env cfg t csv_file df))) = [csv_file].
Proof.
  unfold process_snapshot.
  destruct (Nat.eqb _ 0); [reflexivity|].
  destruct (bind _ _) as [[df_sample t']|e]; [|reflexivity].
  pose proof (report_extent_quiet cfg (valid_rows cfg df)) as [Hr _].
  destruct (report_extent _ _) as [evs r]; simpl in *. now rewrite Hr.
Qed.

Lemma run_loop_reads (env : Env) (cfg : config) (dir : directory)
  (files : list string) (t : tape) :
  (exists rest, files = reads (fst (run_loop env cfg dir t files)) ++ rest) /\
  (snd (run_loop env cfg dir t files) = None ->
   reads (fst (run_loop env cfg dir t files)) = files).
Proof.
  revert t; induction files as [|f files IH]; intros t; simpl.
  - split; [now exists []|reflexivity].
  - destruct (read_csv dir f) as [df|e]; simpl; [|split; [now eexists|discriminate]].
    pose proof (process_snapshot_reads env cfg t f df) as Hp.
    destruct (process_snapshot env cfg t f df) as [[evs t'] r]; simpl in Hp.
    destruct r as [e|]; simpl.
    + rewrite Hp. split; [now exists files|discriminate].
    + destruct (IH t') as [[rest Hrest] Hall].
      destruct (run_loop env cfg dir t' files) as [evs' r']; simpl in *.
      rewrite reads_app, Hp. simpl. split.
      * exists rest. now rewrite Hrest at 1.
      * intros Hr. now rewrite Hall.
Qed.

(** *** Example data *)

Definition cfg_of (strategy : string) (num : option Z) : config :=
  {| sample_strategy := strategy;
     sample_ratio := Ref.dec 1 2;
     sample_num := num;
     min_concentration := Ref.dec 1 1 |}.

(** five points of a 10 m square, one of them with no contaminant *)
Definition square : DataFrame :=
  [Ref.mk 0 0 5; Ref.mk 10 0 0; Ref.mk 10 10 7; Ref.mk 0 10 9; Ref.mk 5 5 1].

Definition clean : DataFrame := [Ref.mk 0 0 0; Ref.mk 10 10 0].

Definition three_days : directory :=
  [("全局浓度_10天.csv", square); ("notes.txt", []);
   ("全局浓度_2天.csv", clean); ("全局浓度_1天.csv", square)].

Definition odd_name : directory :=
  [("全局浓度_1天.csv", square); ("全局浓度_final.csv", square)].

(** *** C10 *)

(** C10: the work list of the loop is made of exactly the names of the input
    directory that start with [全局浓度_] and end with [.csv], in ascending
    order of the integer that the sort key reads in each name; the snapshots
    are read in that order, the ones read being an initial segment of the
    work list and the whole of it when no exception escapes; and when [int]
    refuses the time token of one matching name, the invocation raises after
    [os.makedirs] with no snapshot read. *)
Theorem work_list_in_time_order (env : Env) (t : tape) (dir : directory) (cfg : config) :
  (forall f tok,
      In f (map fst dir) -> is_snapshot_name f = true ->
      time_token f = Ok tok -> py_int env tok = None ->
      exists tok', sample_sparse_data env t dir cfg = ([MakeDirs], Some (BadTimeToken tok')))
  /\
  (forall files,
      csv_files env dir = Ok files ->
      Permutation files (filter is_snapshot_name (map fst dir)) /\
      StronglySorted (key_le env) files /\
      (exists rest, files = reads (fst (sample_sparse_data env t dir cfg)) ++ rest) /\
      (snd (sample_sparse_data env t dir cfg) = None ->
       reads (fst (sample_sparse_data env t dir cfg)) = files)).
Proof.
  split.
  - intros f tok Hin Hname Htok Hint.
    assert (Hd : exists tok', decorate env (filter is_snapshot_name (map fst dir))
                              = Raise (BadTimeToken tok')).
    { apply decorate_bad_token with (f := f) (tok := tok); auto.
      - apply Forall_forall. intros x Hx. now apply filter_In in Hx.
      - apply filter_In. auto. }
    destruct Hd as [tok' Hd]. exists tok'.
    unfold sample_sparse_data, csv_files. now rewrite Hd.
  - intros files Hfiles.
    destruct (csv_files_spec _ _ _ Hfiles) as [Hperm Hsorted].
    destruct (run_loop_reads env cfg dir files t) as [Hpre Hall].
    unfold sample_sparse_data. rewrite Hfiles.
    destruct (run_loop env cfg dir t files) as [evs r]; simpl in *.
    repeat split; assumption.
Qed.

Lemma work_list_in_time_order_witness :
  (exists tok', sample_sparse_data Ref.env [] odd_name (cfg_of "lhs" (Some 2))
                = ([MakeDirs], Some (BadTimeToken tok'))) /\
  reads (fst (sample_sparse_data Ref.env [] three_days (cfg_of "lhs" (Some 2))))
  = ["全局浓度_1天.csv"; "全局浓度_2天.csv"; "全局浓度_10天.csv"].
Proof.
  split.
  - apply (proj1 (work_list_in_time_order Ref.env [] odd_name (cfg_of "lhs" (Some 2)))
             "全局浓度_final.csv" "final.csv").
    + simpl; auto.
    + reflexivity.
    + reflexivity.
    + reflexivity.
  - apply (proj2 (work_list_in_time_order Ref.env [] three_days (cfg_of "lhs" (Some 2)))
             ["全局浓度_1天.csv"; "全局浓度_2天.csv"; "全局浓度_10天.csv"]).
    + reflexivity.
    + vm_compute. reflexivity.
Defined.

(** *** Reading and skipping *)

Lemma read_csv_listed (dir : directory) (f : string) :
  In f (map fst dir) -> exists df, read_csv dir f = Ok df.
Proof.
  unfold read_csv. induction dir as [|[g df] dir IH]; simpl; [contradiction|].
  intros [->|Hin].
  - rewrite String.eqb_refl. now exists df.
  - destruct (String.eqb g f); [now exists df|auto].
Qed.

Lemma csv_files_listed (env : Env) (dir : directory) (files : list string) :
  csv_files env dir = Ok files -> Forall (fun f => In f (map fst dir)) files.
Proof.
  intros H. apply csv_files_spec in H as [Hperm _].
  apply Forall_forall. intros f Hf.
  eapply Permutation_in in Hf; [|exact Hperm]. now apply filter_In in Hf.
Qed.

Lemma no_valid_rows (cfg : config) (df : DataFrame) :
  Forall (fun r => fge (C r) (min_concentration cfg) = false) df ->
  valid_rows cfg df = [].
Proof.
  unfold valid_rows. induction 1 as [|r df Hr _ IH]; simpl; [reflexivity|].
  now rewrite Hr.
Qed.

Lemma process_snapshot_skip (env : Env) (cfg : config) (t : tape)
  (csv_file : string) (df : DataFrame) :
  valid_rows cfg df = [] ->
  process_snapshot env cfg t csv_file df = ([ReadCsv csv_file; Warning csv_file], t, None).
Proof.
  unfold process_snapshot. now intros ->.
Qed.

Lemma warnings_app (evs evs' : list event) :
  warnings (evs ++ evs') = warnings evs ++ warnings evs'.
Proof.
  induction evs as [|e evs IH]; simpl; [reflexivity|].
  destruct e; simpl; now rewrite IH.
Qed.

Lemma run_loop_warns (env : Env) (cfg : config) (dir : directory)
  (files : list string) (t : tape) (f : string) (df : DataFrame) :
  read_csv dir f = Ok df -> valid_rows cfg df = [] ->
  In f (reads (fst (run_loop env cfg dir t files))) ->
  In f (warnings (fst (run_loop env cfg dir t files))).
Proof.
  intros Hread Hvalid.
  revert t; induction files as [|g files IH]; intros t; simpl; [auto|].
  destruct (read_csv dir g) as [dg|e] eqn:Eg; simpl; [|auto].
  pose proof (process_snapshot_reads env cfg t g dg) as Hp.
  destruct (String.eqb_spec g f) as [->|Hne].
  - rewrite Hread in Eg. injection Eg as <-.
    rewrite process_snapshot_skip by assumption.
    destruct (run_loop env cfg dir t files) as [evs' r']; simpl. auto.
  - destruct (process_snapshot env cfg t g dg) as [[evs t'] r]; simpl in Hp.
    destruct r as [e|]; simpl.
    + rewrite Hp. simpl. intros [?|[]]. contradiction.
    + specialize (IH t').
      destruct (run_loop env cfg dir t' files) as [evs' r']; simpl in *.
      rewrite reads_app, warnings_app, Hp. simpl.
      intros [?|Hin]; [contradiction|]. apply in_or_app. right. auto.
Qed.

(** *** C9 *)

(** C9: when the loop comes to a snapshot in which no row has a
    concentration at or above the threshold, that snapshot contributes its
    reading and one warning and nothing else (no table is written, no draw
    is consumed, no exception), and the loop goes on with the remaining
    snapshots exactly as it would without it; and in any invocation, every
    such snapshot that is read is warned about. *)
Theorem empty_snapshot_skipped (env : Env) (cfg : config) (dir : directory)
  (t : tape) (f : string) (rest : list string) (df : DataFrame) :
  read_csv dir f = Ok df ->
  Forall (fun r => fge (C r) (min_concentration cfg) = false) df ->
  process_snapshot env cfg t f df = ([ReadCsv f; Warning f], t, None) /\
  run_loop env cfg dir t (f :: rest)
  = (ReadCsv f :: Warning f :: fst (run_loop env cfg dir t rest),
     snd (run_loop env cfg dir t rest)) /\
  (forall t0,
      In f (reads (fst (sample_sparse_data env t0 dir cfg))) ->
      In f (warnings (fst (sample_sparse_data env t0 dir cfg)))).
Proof.
  intros Hread Hnone. apply no_valid_rows in Hnone.
  split; [now apply process_snapshot_skip|]. split.
  - simpl. rewrite Hread, process_snapshot_skip by assumption.
    now destruct (run_loop env cfg dir t rest).
  - intros t0. unfold sample_sparse_data.
    destruct (csv_files env dir) as [files|e]; simpl; [|intros []].
    pose proof (run_loop_warns env cfg dir files t0 f df Hread Hnone) as H.
    destruct (run_loop env cfg dir t0 files) as [evs r]; simpl in *. exact H.
Qed.

Lemma empty_snapshot_skipped_witness :
  run_loop Ref.env (cfg_of "lhs" (Some 2)) three_days []
           ["全局浓度_2天.csv"; "全局浓度_10天.csv"]
  = (ReadCsv "全局浓度_2天.csv" :: Warning "全局浓度_2天.csv"
       :: fst (run_loop Ref.env (cfg_of "lhs" (Some 2)) three_days [] ["全局浓度_10天.csv"]),
     snd (run_loop Ref.env (cfg_of "lhs" (Some 2)) three_days [] ["全局浓度_10天.csv"])).
Proof.
  refine (proj1 (proj2 (empty_snapshot_skipped Ref.env (cfg_of "lhs" (Some 2)) three_days []
           "全局浓度_2天.csv" ["全局浓度_10天.csv"] clean _ _))).
  - reflexivity.
  - repeat constructor.
Defined.

(** *** An unknown strategy name *)

Definition known_strategy (s : string) : bool :=
  String.eqb s "lhs" || String.eqb s "random" || String.eqb s "uniform".

Lemma select_unknown (env : Env) (cfg : config) (t : tape) (df_valid : DataFrame) (n : Z) :
  known_strategy (sample_strategy cfg) = false ->
  select env cfg t df_valid n = Raise (UnsupportedStrategy (sample_strategy cfg)).
Proof.
  unfold known_strategy, select. intros H.
  apply orb_false_iff in H as [H Hu]. apply orb_false_iff in H as [Hl Hr].
  now rewrite Hl, Hr, Hu.
Qed.

(** a snapshot of the directory that has a valid row *)
Definition has_valid_row (cfg : config) (dir : directory) (f : string) : bool :=
  match read_csv dir f with
  | Ok df => negb (List.length (valid_rows cfg df) =? 0)%nat
  | Raise _ => false
  end.

(** the snapshots at the head of a work list that have no valid row *)
Fixpoint without_valid_row (cfg : config) (dir : directory) (files : list string)
  : list string :=
  match files with
  | [] => []
  | f :: rest =>
      if has_valid_row cfg dir f then [] else f :: without_valid_row cfg dir rest
  end.

(** what the snapshots without a valid row leave in the trace: a reading
    and a warning each *)
Definition skip_trace (files : list string) : list event :=
  flat_map (fun f => [ReadCsv f; Warning f]) files.

(** What escapes at a snapshot with [n_valid] valid rows when the strategy
    name is unknown: the error of [int] at line 40 when the count cannot be
    computed, and otherwise the [ValueError] of line 96. *)
Definition raised_at_dispatch (cfg : config) (n_valid : nat) : exn :=
  match n_sample_of cfg n_valid with
  | Ok _ => UnsupportedStrategy (sample_strategy cfg)
  | Raise e => e
  end.

Lemma decorate_total (env : Env) (names : list string) :
  Forall (fun x => exists k, sort_key env x = Ok k) names ->
  exists ks, decorate env names = Ok ks.
Proof.
  induction 1 as [|x xs [k Hk] _ [ks IH]]; simpl; [now exists []|].
  rewrite Hk, IH. simpl. now eexists.
Qed.

Lemma process_snapshot_unknown (env : Env) (cfg : config) (t : tape)
  (csv_file : string) (df : DataFrame) :
  known_strategy (sample_strategy cfg) = false ->
  valid_rows cfg df <> [] ->
  process_snapshot env cfg t csv_file df
  = ([ReadCsv csv_file], t,
     Some (raised_at_dispatch cfg (List.length (valid_rows cfg df)))).
Proof.
  intros Hs Hne. unfold process_snapshot, raised_at_dispatch.
  destruct (valid_rows cfg df) as [|r rs]; [congruence|].
  cbn [List.length Nat.eqb].
  destruct (n_sample_of cfg (S (List.length rs))) as [k|e]; simpl; [|reflexivity].
  now rewrite select_unknown.
Qed.

Lemma run_loop_unknown (env : Env) (cfg : config) (dir : directory)
  (files : list string) (t : tape) :
  known_strategy (sample_strategy cfg) = false ->
  Forall (fun f => In f (map fst dir)) files ->
  match find (has_valid_row cfg dir) files with
  | None => run_loop env cfg dir t files = (skip_trace files, None)
  | Some f =>
      exists df, read_csv dir f = Ok df /\ valid_rows cfg df <> [] /\
        run_loop env cfg dir t files
        = (skip_trace (without_valid_row cfg dir files) ++ [ReadCsv f],
           Some (raised_at_dispatch cfg (List.length (valid_rows cfg df))))
  end.
Proof.
  intros Hs Hin.
  induction Hin as [|f files Hf _ IH]; [reflexivity|].
  destruct (read_csv_listed _ _ Hf) as [df Edf].
  cbn [find without_valid_row run_loop]. rewrite Edf.
  unfold has_valid_row at 1 3. rewrite Edf.
  destruct (valid_rows cfg df) as [|r rs] eqn:Ev.
  - rewrite process_snapshot_skip by assumption. cbn [List.length Nat.eqb negb].
    destruct (find (has_valid_row cfg dir) files) as [g|].
    + destruct IH as (dg & Eg & Hne & Hrun). exists dg. rewrite Hrun. auto.
    + now rewrite IH.
  - cbn [List.length Nat.eqb negb]. exists df.
    assert (Hne : valid_rows cfg df <> []) by (rewrite Ev; discriminate).
    rewrite (process_snapshot_unknown env cfg t f df Hs Hne), Ev.
    repeat split; [assumption|discriminate].
Qed.

(** *** C4 *)

(** C4 as it is written: with a strategy name other than the three known
    ones the invocation raises the configuration error (and writes no
    table). *)
Definition fails_on_unknown_strategy (env : Env) (t : tape) (dir : directory)
  (cfg : config) : Prop :=
  known_strategy (sample_strategy cfg) = false ->
  snd (sample_sparse_data env t dir cfg) = Some (UnsupportedStrategy (sample_strategy cfg)) /\
  written (fst (sample_sparse_data env t dir cfg)) = [].

(** C4, counterexample: on an input directory with no snapshot, an
    invocation with the strategy name [grid] creates the output directory
    and returns without raising anything. *)
Lemma unknown_strategy_unnoticed :
  ~ fails_on_unknown_strategy Ref.env [] [] (cfg_of "grid" (Some 2)).
Proof.
  intros H. destruct (H eq_refl) as [H1 _]. vm_compute in H1. discriminate H1.
Qed.

(** C4, amended: with a strategy name other than [lhs], [random] and
    [uniform] no output table is ever written, and the whole invocation is
    as follows.  When [int] refuses the time token of a matching name, the
    error of the sort escapes after [os.makedirs] and nothing is read.
    Otherwise the snapshots are read in the order of the work list, each
    one without a valid row getting its warning; at the first snapshot that
    has a valid row, once it has been read and filtered and its sample count
    computed, an exception escapes and nothing more is done: the
    configuration error of line 96, always so with a fixed count, and with
    a ratio unless the product of line 40 is NaN or infinite, in which case
    the error of [int] escapes instead; and when no snapshot has a valid row
    the invocation returns without raising. *)
Theorem unknown_strategy_writes_nothing (env : Env) (t : tape) (dir : directory)
  (cfg : config) :
  known_strategy (sample_strategy cfg) = false ->
  written (fst (sample_sparse_data env t dir cfg)) = [] /\
  (forall f tok,
      In f (map fst dir) -> is_snapshot_name f = true ->
      time_token f = Ok tok -> py_int env tok = None ->
      exists tok', sample_sparse_data env t dir cfg = ([MakeDirs], Some (BadTimeToken tok'))) /\
  ((forall f tok,
       In f (map fst dir) -> is_snapshot_name f = true ->
       time_token f = Ok tok -> exists k, py_int env tok = Some k) ->
   exists files,
     csv_files env dir = Ok files /\
     match find (has_valid_row cfg dir) files with
     | None => sample_sparse_data env t dir cfg = (MakeDirs :: skip_trace files, None)
     | Some f =>
         exists df, read_csv dir f = Ok df /\ valid_rows cfg df <> [] /\
           sample_sparse_data env t dir cfg
           = (MakeDirs :: skip_trace (without_valid_row cfg dir files) ++ [ReadCsv f],
              Some (raised_at_dispatch cfg (List.length (valid_rows cfg df))))
     end) /\
  (forall k n_valid,
      sample_num cfg = Some k ->
      raised_at_dispatch cfg n_valid = UnsupportedStrategy (sample_strategy cfg)) /\
  (forall n_valid,
      sample_num cfg = None ->
      raised_at_dispatch cfg n_valid
      = match fmul (float_of_int (Z.of_nat n_valid)) (sample_ratio cfg) with
        | S754_nan => NanToInt
        | S754_infinity _ => InfToInt
        | _ => UnsupportedStrategy (sample_strategy cfg)
        end).
Proof.
  intros Hs.
  assert (Hrun : forall files,
             csv_files env dir = Ok files ->
             match find (has_valid_row cfg dir) files with
             | None => sample_sparse_data env t dir cfg = (MakeDirs :: skip_trace files, None)
             | Some f =>
                 exists df, read_csv dir f = Ok df /\ valid_rows cfg df <> [] /\
                   sample_sparse_data env t dir cfg
                   = (MakeDirs :: skip_trace (without_valid_row cfg dir files) ++ [ReadCsv f],
                      Some (raised_at_dispatch cfg (List.length (valid_rows cfg df))))
             end).
  { intros files Ef.
    pose proof (run_loop_unknown env cfg dir files t Hs (csv_files_listed _ _ _ Ef)) as H.
    unfold sample_sparse_data. rewrite Ef.
    destruct (find (has_valid_row cfg dir) files) as [f|].
    - destruct H as (df & Edf & Hne & H). exists df. now rewrite H.
    - now rewrite H. }
  assert (Hskip : forall files, written (skip_trace files) = []).
  { induction files as [|f files IH]; [reflexivity|exact IH]. }
  split; [|split; [|split; [|split]]].
  - destruct (csv_files env dir) as [files|e] eqn:Ef.
    + specialize (Hrun files eq_refl).
      destruct (find (has_valid_row cfg dir) files) as [f|].
      * destruct Hrun as (df & _ & _ & ->). cbn [fst written].
        now rewrite written_app, Hskip.
      * rewrite Hrun. cbn [fst written]. apply Hskip.
    + unfold sample_sparse_data. now rewrite Ef.
  - intros f tok Hin Hname Htok Hint.
    destruct (decorate_bad_token env (filter is_snapshot_name (map fst dir)) f tok)
      as [tok' Hd]; auto.
    + apply Forall_forall. intros x Hx. now apply filter_In in Hx.
    + apply filter_In. auto.
    + exists tok'. unfold sample_sparse_data, csv_files. now rewrite Hd.
  - intros Hparse.
    destruct (decorate_total env (filter is_snapshot_name (map fst dir))) as [ks Hks].
    { apply Forall_forall. intros f Hf. apply filter_In in Hf as [Hin Hname].
      destruct (snapshot_name_has_token f Hname) as [tok Htok].
      destruct (Hparse f tok Hin Hname Htok) as [k Hk].
      exists k. unfold sort_key. rewrite Htok. simpl. now rewrite Hk. }
    exists (map snd (sort_by_key ks)).
    assert (Ef : csv_files env dir = Ok (map snd (sort_by_key ks)))
      by (unfold csv_files; now rewrite Hks).
    split; [exact Ef|exact (Hrun _ Ef)].
  - intros k n_valid Hk. unfold raised_at_dispatch, n_sample_of. now rewrite Hk.
  - intros n_valid Hn. unfold raised_at_dispatch, n_sample_of. rewrite Hn.
    now destruct (fmul _ _).
Qed.

Lemma unknown_strategy_writes_nothing_witness :
  sample_sparse_data Ref.env [] three_days (cfg_of "grid" None)
  = ([MakeDirs; ReadCsv "全局浓度_1天.csv"], Some (UnsupportedStrategy "grid")) /\
  written (fst (sample_sparse_data Ref.env [] three_days (cfg_of "grid" (Some 2)))) = [] /\
  (exists tok, sample_sparse_data Ref.env [] odd_name (cfg_of "grid" None)
               = ([MakeDirs], Some (BadTimeToken tok))).
Proof.
  split; [|split].
  - destruct (proj1 (proj2 (proj2 (unknown_strategy_writes_nothing
                Ref.env [] three_days (cfg_of "grid" None) eq_refl))))
      as (files & Ef & Hrun).
    + intros f tok [<-|[<-|[<-|[<-|[]]]]] Hname Htok;
        try discriminate Hname;
        vm_compute in Htok; injection Htok as <-; eexists; reflexivity.
    + vm_compute in Ef. injection Ef as <-.
      destruct Hrun as (df & Edf & _ & Hrun).
      injection Edf as <-. exact Hrun.
  - exact (proj1 (unknown_strategy_writes_nothing
                    Ref.env [] three_days (cfg_of "grid" (Some 2)) eq_refl)).
  - apply (proj1 (proj2 (unknown_strategy_writes_nothing
                    Ref.env [] odd_name (cfg_of "grid" None) eq_refl))
             "全局浓度_final.csv" "final.csv").
    + simpl; auto.
    + reflexivity.
    + reflexivity.
    + reflexivity.
Defined.

(** *** Every strategy takes its rows among the valid ones *)

Lemma iloc_spec (df : DataFrame) (idx : list nat) (out : DataFrame) :
  iloc df idx = Ok out ->
  Forall2 (fun i r => nth_error df i = Some r) idx out.
Proof.
  revert out; induction idx as [|i idx IH]; simpl; intros out H.
  - injection H as <-. constructor.
  - destruct (nth_error df i) as [r|] eqn:Er; [|discriminate].
    destruct (iloc df idx) as [rs|] eqn:Ers; simpl in H; [|discriminate].
    injection H as <-. constructor; auto.
Qed.

Lemma iloc_rows (df : DataFrame) (idx : list nat) (out : DataFrame) :
  iloc df idx = Ok out ->
  List.length out = List.length idx /\
  Forall (fun i => (i < List.length df)%nat) idx /\
  Forall (fun r => In r df) out.
Proof.
  intros H. apply iloc_spec in H.
  induction H as [|i r idx out Hir _ [IHl [IHi IHr]]]; simpl.
  - repeat split; constructor.
  - repeat split.
    + now rewrite IHl.
    + constructor; [|exact IHi]. apply nth_error_Some. congruence.
    + constructor; [|exact IHr]. eapply nth_error_In; eauto.
Qed.

Lemma pick_in_bin_rows (tagged bin_df : list binned) (acc : list row) (t : tape) :
  incl bin_df tagged ->
  Forall (fun r => In r (map fst tagged)) acc ->
  Forall (fun r => In r (map fst tagged)) (fst (pick_in_bin bin_df acc t)).
Proof.
  intros Hincl Hacc. unfold pick_in_bin.
  destruct bin_df as [|b0 rest] eqn:E; [exact Hacc|]. rewrite <- E in *.
  cbn [fst]. apply Forall_app. split; [exact Hacc|].
  constructor; [|constructor].
  apply in_map, Hincl, nth_In.
  apply Nat.mod_upper_bound. rewrite E. discriminate.
Qed.

Lemma scan_y_rows (n : Z) (tagged : list binned) (xb : option nat)
  (ybs : list (option nat)) (acc : list row) (t : tape) :
  Forall (fun r => In r (map fst tagged)) acc ->
  Forall (fun r => In r (map fst tagged)) (fst (scan_y n tagged xb ybs acc t)).
Proof.
  revert acc t; induction ybs as [|yb ybs IH]; simpl; intros acc t Hacc; [exact Hacc|].
  pose proof (pick_in_bin_rows tagged (filter (in_bin xb yb) tagged) acc t
                (incl_filter _ _) Hacc) as Hp.
  destruct (pick_in_bin _ acc t) as [acc' t']; simpl in Hp.
  destruct (Z.of_nat (List.length acc') >=? n); [exact Hp|now apply IH].
Qed.

Lemma scan_x_rows (n : Z) (tagged : list binned) (xbs ybs : list (option nat))
  (acc : list row) (t : tape) :
  Forall (fun r => In r (map fst tagged)) acc ->
  Forall (fun r => In r (map fst tagged)) (fst (scan_x n tagged xbs ybs acc t)).
Proof.
  revert acc t; induction xbs as [|xb xbs IH]; simpl; intros acc t Hacc; [exact Hacc|].
  pose proof (scan_y_rows n tagged xb ybs acc t Hacc) as Hp.
  destruct (scan_y n tagged xb ybs acc t) as [acc' t']; simpl in Hp.
  destruct (Z.of_nat (List.length acc') >=? n); [exact Hp|now apply IH].
Qed.

Lemma as_column_ok (n_rows : nat) (labels col : list (option nat)) :
  as_column n_rows labels = Ok col -> col = labels /\ List.length col = n_rows.
Proof.
  unfold as_column. destruct (Nat.eqb_spec (List.length labels) n_rows); [|discriminate].
  intros H; injection H as <-. auto.
Qed.

Lemma map_fst_combine {A B : Type} (l : list A) (m : list B) :
  List.length m = List.length l -> map fst (combine l m) = l.
Proof.
  revert m; induction l as [|a l IH]; intros [|b m]; simpl; try discriminate; auto.
  intros H. f_equal. apply IH. congruence.
Qed.

(** the shape of a successful run of the uniform strategy *)
Lemma sample_uniform_inv (env : Env) (t : tape) (df_valid : DataFrame) (n : Z)
  (out : DataFrame) (t' : tape) :
  sample_uniform env t df_valid n = Ok (out, t') ->
  exists n_bins x_bin y_bin,
    int_of_float (fsqrt (float_of_int n)) = Ok n_bins /\
    cut env (map X df_valid) n_bins = Some x_bin /\
    cut env (map Y df_valid) n_bins = Some y_bin /\
    List.length x_bin = List.length df_valid /\
    List.length y_bin = List.length df_valid /\
    scan_x n (combine df_valid (combine x_bin y_bin)) (unique x_bin) (unique y_bin) [] t
    = (out, t') /\
    out <> [].
Proof.
  unfold sample_uniform. intros H.
  destruct (int_of_float _) as [n_bins|] eqn:En; simpl in H; [|discriminate].
  destruct (cut env (map X df_valid) n_bins) as [xl|] eqn:Ex; simpl in H; [|discriminate].
  destruct (as_column _ xl) as [x_bin|] eqn:Exc; simpl in H; [|discriminate].
  destruct (cut env (map Y df_valid) n_bins) as [yl|] eqn:Ey; simpl in H; [|discriminate].
  destruct (as_column _ yl) as [y_bin|] eqn:Eyc; simpl in H; [|discriminate].
  apply as_column_ok in Exc as [-> Hlx]. apply as_column_ok in Eyc as [-> Hly].
  destruct (scan_x _ _ _ _ _ _) as [df_sample t''] eqn:Es.
  destruct df_sample as [|r rs]; [discriminate|]. injection H as <- <-.
  exists n_bins, xl, yl. repeat split; auto. discriminate.
Qed.

Lemma sample_uniform_rows (env : Env) (t : tape) (df_valid : DataFrame) (n : Z)
  (out : DataFrame) (t' : tape) :
  sample_uniform env t df_valid n = Ok (out, t') -> Forall (fun r => In r df_valid) out.
Proof.
  intros H. apply sample_uniform_inv in H
    as (n_bins & x_bin & y_bin & _ & _ & _ & Hlx & Hly & Hscan & _).
  pose proof (scan_x_rows n (combine df_valid (combine x_bin y_bin))
                (unique x_bin) (unique y_bin) [] t (Forall_nil _)) as Hr.
  rewrite Hscan in Hr. simpl in Hr.
  rewrite map_fst_combine in Hr; [exact Hr|].
  rewrite length_combine, Hlx, Hly. apply Nat.min_id.
Qed.

Lemma sample_lhs_inv (env : Env) (t : tape) (df_valid : DataFrame) (n : Z)
  (out : DataFrame) (t' : tape) :
  sample_lhs env t df_valid n = Ok (out, t') ->
  exists final, lhs_final_indices env t df_valid n = Ok (final, t') /\
                iloc df_valid final = Ok out.
Proof.
  unfold sample_lhs. intros H.
  destruct (lhs_final_indices env t df_valid n) as [[final t'']|]; simpl in H; [|discriminate].
  destruct (iloc df_valid final) as [rows|] eqn:E; simpl in H; [|discriminate].
  injection H as <- <-. now exists final.
Qed.

Lemma sample_random_inv (env : Env) (df_valid : DataFrame) (n : Z) (out : DataFrame) :
  sample_random env df_valid n = Ok out ->
  exists pos, sample_seeded env (List.length df_valid) n = Some pos /\
              iloc df_valid pos = Ok out.
Proof.
  unfold sample_random. intros H.
  destruct (sample_seeded env _ n) as [pos|] eqn:E; simpl in H; [|discriminate].
  now exists pos.
Qed.

Lemma select_rows (env : Env) (cfg : config) (t : tape) (df_valid : DataFrame) (n : Z)
  (out : DataFrame) (t' : tape) :
  select env cfg t df_valid n = Ok (out, t') -> Forall (fun r => In r df_valid) out.
Proof.
  unfold select. intros H.
  destruct (String.eqb _ "lhs").
  { apply sample_lhs_inv in H as [final [_ H]]. now apply iloc_rows in H. }
  destruct (String.eqb _ "random").
  { destruct (sample_random env df_valid n) as [rows|] eqn:E; simpl in H; [|discriminate].
    injection H as <- _. apply sample_random_inv in E as [pos [_ E]].
    now apply iloc_rows in E. }
  destruct (String.eqb _ "uniform"); [|discriminate].
  now apply sample_uniform_rows in H.
Qed.

(** the one table a snapshot can cause to be written *)
Lemma process_snapshot_written (env : Env) (cfg : config) (t : tape)
  (csv_file : string) (df : DataFrame) :
  written (fst (fst (process_snapshot env cfg t csv_file df))) = [] \/
  exists n out t',
    valid_rows cfg df <> [] /\
    n_sample_of cfg (List.length (valid_rows cfg df)) = Ok n /\
    select env cfg t (valid_rows cfg df) n = Ok (out, t') /\
    written (fst (fst (process_snapshot env cfg t csv_file df)))
    = [(output_name csv_file, out)].
Proof.
  unfold process_snapshot.
  destruct (valid_rows cfg df) as [|r rs] eqn:Ev; simpl; [now left|].
  destruct (n_sample_of cfg (S (List.length rs))) as [n|] eqn:En; simpl; [|now left].
  destruct (select env cfg t (r :: rs) n) as [[out t']|] eqn:Es; [|now left].
  right. exists n, out, t'.
  pose proof (report_extent_quiet cfg (r :: rs)) as [_ Hq].
  destruct (report_extent cfg (r :: rs)) as [evs e]; simpl in *.
  rewrite Hq. repeat split; auto. discriminate.
Qed.

(** A property of the tables a snapshot writes holds of all the tables of
    an invocation. *)
Lemma written_tables_ind (P : DataFrame -> Prop) (env : Env) (cfg : config)
  (dir : directory) :
  (forall t f df name out,
      In (name, out) (written (fst (fst (process_snapshot env cfg t f df)))) -> P out) ->
  forall t name out,
    In (name, out) (written (fst (sample_sparse_data env t dir cfg))) -> P out.
Proof.
  intros Hstep t name out. unfold sample_sparse_data.
  destruct (csv_files env dir) as [files|e]; simpl; [|intros []].
  assert (Hloop : forall files t,
             In (name, out) (written (fst (run_loop env cfg dir t files))) -> P out).
  { clear t files. induction files as [|f files IH]; intros t; simpl; [intros []|].
    destruct (read_csv dir f) as [df|e]; simpl; [|intros []].
    pose proof (Hstep t f df name out) as Hf.
    destruct (process_snapshot env cfg t f df) as [[evs t'] r]; simpl in Hf.
    destruct r as [e|]; simpl; [exact Hf|].
    specialize (IH t').
    destruct (run_loop env cfg dir t' files) as [evs' r']; simpl in *.
    rewrite written_app. intros Hin. apply in_app_or in Hin as [Hin|Hin]; auto. }
  specialize (Hloop files t).
  destruct (run_loop env cfg dir t files) as [evs r]; simpl in *. exact Hloop.
Qed.

(** *** C7 *)

(** C7: whatever the strategy, every row of every table that an invocation
    writes has a concentration greater than or equal to
    [min_concentration]. *)
Theorem written_rows_above_threshold (env : Env) (t : tape) (dir : directory)
  (cfg : config) (name : string) (out : DataFrame) :
  In (name, out) (written (fst (sample_sparse_data env t dir cfg))) ->
  Forall (fun r => fge (C r) (min_concentration cfg) = true) out.
Proof.
  apply written_tables_ind. clear t name out. intros t f df name out Hin.
  destruct (process_snapshot_written env cfg t f df)
    as [Hnone|(n & out' & t' & _ & _ & Hsel & Hw)].
  - rewrite Hnone in Hin. contradiction.
  - rewrite Hw in Hin. destruct Hin as [Heq|[]]. injection Heq as _ <-.
    apply select_rows in Hsel.
    eapply Forall_impl; [|exact Hsel].
    intros r Hr. unfold valid_rows in Hr. now apply filter_In in Hr.
Qed.

Lemma written_rows_above_threshold_witness :
  Forall (fun r => fge (C r) (min_concentration (cfg_of "lhs" (Some 3))) = true)
         [Ref.mk 0 0 5; Ref.mk 10 10 7; Ref.mk 5 5 1].
Proof.
  apply (written_rows_above_threshold Ref.env [] three_days (cfg_of "lhs" (Some 3))
           "稀疏观测_1天.csv").
  vm_compute. left. reflexivity.
Defined.

(** *** [np.unique], the pool and the draws *)

Lemma insert_unique_In (i x : nat) (l : list nat) :
  In x (insert_unique i l) <-> x = i \/ In x l.
Proof.
  induction l as [|j l IH]; simpl.
  - intuition.
  - destruct (Nat.ltb_spec i j); simpl; [intuition|].
    destruct (Nat.eqb_spec i j) as [->|]; simpl; [intuition|].
    rewrite IH. intuition.
Qed.

Lemma insert_unique_sorted (i : nat) (l : list nat) :
  StronglySorted lt l -> StronglySorted lt (insert_unique i l).
Proof.
  induction l as [|j l IH]; simpl; intros Hs.
  - constructor; constructor.
  - apply StronglySorted_inv in Hs as Hinv. destruct Hinv as [Hl Hj].
    destruct (Nat.ltb_spec i j).
    + constructor; [exact Hs|]. constructor; [assumption|].
      eapply Forall_impl; [|exact Hj]. simpl; intros; lia.
    + destruct (Nat.eqb_spec i j); [exact Hs|].
      constructor; [now apply IH|].
      apply Forall_forall. intros x Hx. apply insert_unique_In in Hx as [->|Hx].
      * lia.
      * rewrite Forall_forall in Hj. auto.
Qed.

Lemma np_unique_In (x : nat) (l : list nat) : In x (np_unique l) <-> In x l.
Proof.
  induction l as [|i l IH]; simpl; [reflexivity|].
  rewrite insert_unique_In, IH. intuition.
Qed.

Lemma np_unique_sorted (l : list nat) : StronglySorted lt (np_unique l).
Proof.
  induction l as [|i l IH]; simpl; [constructor|now apply insert_unique_sorted].
Qed.

Lemma strictly_sorted_NoDup (l : list nat) : StronglySorted lt l -> NoDup l.
Proof.
  induction 1 as [|a l _ IH Ha]; constructor; [|exact IH].
  intros Hin. rewrite Forall_forall in Ha. specialize (Ha _ Hin). lia.
Qed.

Lemma np_unique_NoDup (l : list nat) : NoDup (np_unique l).
Proof. apply strictly_sorted_NoDup, np_unique_sorted. Qed.

Lemma mem_In (i : nat) (l : list nat) : mem i l = true <-> In i l.
Proof.
  unfold mem. rewrite existsb_exists. split.
  - intros [x [Hx E]]. apply Nat.eqb_eq in E. now subst.
  - intros H. exists i. split; [exact H|apply Nat.eqb_refl].
Qed.

Lemma firstn_incl {A : Type} (n : nat) (l : list A) : incl (firstn n l) l.
Proof.
  revert n; induction l as [|a l IH]; intros [|n] x; simpl; try contradiction.
  intros [->|H]; [auto|]. right. eapply IH; eauto.
Qed.

Lemma NoDup_firstn {A : Type} (n : nat) (l : list A) : NoDup l -> NoDup (firstn n l).
Proof.
  revert n; induction l as [|a l IH]; intros [|n] H; simpl; try constructor.
  - inversion H; subst. intros Hin. apply firstn_incl in Hin. contradiction.
  - inversion H; subst. auto.
Qed.

Lemma slice_to_incl {A : Type} (l : list A) (n : Z) : incl (slice_to l n) l.
Proof.
  unfold slice_to. intros x Hx. destruct (n <? 0); now apply firstn_incl in Hx.
Qed.

Lemma slice_to_NoDup {A : Type} (l : list A) (n : Z) : NoDup l -> NoDup (slice_to l n).
Proof.
  unfold slice_to. intros H. destruct (n <? 0); now apply NoDup_firstn.
Qed.

Lemma remove_at_incl {A : Type} (i : nat) (l : list A) : incl (remove_at i l) l.
Proof.
  revert i; induction l as [|a l IH]; intros [|i] x; simpl; auto.
  intros [->|H]; [auto|]. right. eapply IH; eauto.
Qed.

Lemma remove_at_NoDup {A : Type} (i : nat) (l : list A) :
  NoDup l -> NoDup (remove_at i l).
Proof.
  revert i; induction l as [|a l IH]; intros [|i] H; simpl; try constructor;
    inversion H; subst; auto.
  intros Hin. apply remove_at_incl in Hin. contradiction.
Qed.

Lemma remove_at_drops {A : Type} (i : nat) (l : list A) (d : A) :
  NoDup l -> (i < List.length l)%nat -> ~ In (nth i l d) (remove_at i l).
Proof.
  revert i; induction l as [|a l IH]; intros i H Hi; simpl in *; [lia|].
  inversion H; subst. destruct i; [assumption|].
  simpl. intros [E|Hin].
  - apply H2. rewrite E. apply nth_In. lia.
  - revert Hin. apply IH; [assumption|lia].
Qed.

Lemma remove_at_length {A : Type} (i : nat) (l : list A) :
  (i < List.length l)%nat -> List.length (remove_at i l) = (List.length l - 1)%nat.
Proof.
  revert i; induction l as [|a l IH]; intros i Hi; simpl in *; [lia|].
  destruct i; simpl; [lia|]. rewrite IH by lia. lia.
Qed.

(** The draws are distinct elements of the pool, as many as asked for when
    the pool has that many. *)
Lemma draw_distinct_spec (k : nat) (pool : list nat) (t : tape) :
  NoDup pool ->
  NoDup (fst (draw_distinct k pool t)) /\
  incl (fst (draw_distinct k pool t)) pool /\
  List.length (fst (draw_distinct k pool t)) = Nat.min k (List.length pool).
Proof.
  revert pool t; induction k as [|k IH]; intros pool t Hnd; simpl.
  - repeat split; [constructor|intros x []].
  - destruct pool as [|p0 pool'] eqn:E; [repeat split; [constructor|intros x []]|].
    rewrite <- E in *.
    set (i := (hd O t mod List.length pool)%nat).
    assert (Hi : (i < List.length pool)%nat)
      by (apply Nat.mod_upper_bound; rewrite E; discriminate).
    destruct (IH (remove_at i pool) (tl t) (remove_at_NoDup i pool Hnd))
      as [IHnd [IHincl IHlen]].
    destruct (draw_distinct k (remove_at i pool) (tl t)) as [rest t']; simpl in *.
    repeat split.
    + constructor; [|exact IHnd].
      intros Hin. apply IHincl in Hin. revert Hin. now apply remove_at_drops.
    + intros x [<-|Hx]; [now apply nth_In|]. eapply remove_at_incl, IHincl, Hx.
    + rewrite IHlen, remove_at_length by assumption.
      destruct (List.length pool) as [|m]; [lia|].
      now rewrite Nat.sub_1_r.
Qed.

Lemma random_choice_spec (pool : list nat) (size : Z) (t : tape)
  (drawn : list nat) (t' : tape) :
  NoDup pool ->
  random_choice pool size t = Ok (drawn, t') ->
  NoDup drawn /\ incl drawn pool /\ Z.of_nat (List.length drawn) = size.
Proof.
  unfold random_choice. intros Hnd H.
  destruct (Z.ltb_spec size 0) as [|Hsize]; [discriminate|].
  destruct (Z.ltb_spec (Z.of_nat (List.length pool)) size) as [|Hpool]; [discriminate|].
  injection H as H.
  destruct (draw_distinct_spec (Z.to_nat size) pool t Hnd) as [Hd [Hincl Hlen]].
  destruct (draw_distinct (Z.to_nat size) pool t) as [d t'']; simpl in *.
  injection H as <- <-. repeat split; auto. rewrite Hlen. lia.
Qed.

(** *** Lines 62-72 *)

Lemma final_indices_of_spec (indices : list nat) (n_valid : nat) (n : Z) (t : tape)
  (final : list nat) (t' : tape) :
  final_indices_of indices n_valid n t = Ok (final, t') ->
  NoDup final /\
  (Forall (fun i => (i < n_valid)%nat) indices -> Forall (fun i => (i < n_valid)%nat) final) /\
  (0 <= n -> Z.of_nat (List.length final) = n).
Proof.
  unfold final_indices_of.
  set (u := np_unique indices).
  set (pool := filter (fun i => negb (mem i u)) (seq 0 n_valid)).
  assert (Hu : NoDup u) by apply np_unique_NoDup.
  assert (Hrange : Forall (fun i => (i < n_valid)%nat) indices ->
                   Forall (fun i => (i < n_valid)%nat) u).
  { rewrite !Forall_forall. intros H x Hx. apply H. now apply np_unique_In. }
  destruct (Z.ltb_spec (Z.of_nat (List.length u)) n) as [Hlt|Hge].
  - destruct (random_choice pool _ t) as [[supp t'']|] eqn:Ec; simpl; [|discriminate].
    intros H; injection H as <- <-.
    apply random_choice_spec in Ec as [Hs [Hincl Hlen]];
      [|apply NoDup_filter, seq_NoDup].
    repeat split.
    + apply NoDup_app; auto. intros x Hx Hx'.
      apply Hincl, filter_In in Hx' as [_ Hx'].
      apply negb_true_iff in Hx'. apply mem_In in Hx. congruence.
    + intros Hi. apply Forall_app. split; [auto|].
      apply Forall_forall. intros x Hx. apply Hincl, filter_In in Hx as [Hx _].
      apply in_seq in Hx. lia.
    + intros _. rewrite length_app. lia.
  - intros H; injection H as <- <-. repeat split.
    + now apply slice_to_NoDup.
    + intros Hi. apply Hrange in Hi. rewrite Forall_forall in Hi |- *.
      intros x Hx. apply Hi. eapply slice_to_incl; eauto.
    + intros Hn. unfold slice_to.
      destruct (Z.ltb_spec n 0); [lia|]. rewrite length_firstn. lia.
Qed.

Lemma lhs_final_indices_inv (env : Env) (t : tape) (df_valid : DataFrame) (n : Z)
  (final : list nat) (t' : tape) :
  lhs_final_indices env t df_valid n = Ok (final, t') ->
  exists lhs_sample indices,
    lhs_random env n = Some lhs_sample /\
    kd_query env (map (fun r => (X r, Y r)) df_valid)
             (map (to_extent df_valid) lhs_sample) = Some indices /\
    final_indices_of indices (List.length df_valid) n t = Ok (final, t').
Proof.
  unfold lhs_final_indices. intros H.
  destruct (lhs_random env n) as [lhs_sample|] eqn:El; simpl in H; [|discriminate].
  destruct (kd_query env _ _) as [indices|] eqn:Ek; simpl in H; [|discriminate].
  now exists lhs_sample, indices.
Qed.

Lemma iloc_total (df : DataFrame) (idx : list nat) :
  Forall (fun i => (i < List.length df)%nat) idx -> exists out, iloc df idx = Ok out.
Proof.
  induction 1 as [|i idx Hi _ [out IH]]; simpl; [now exists []|].
  apply nth_error_Some in Hi. destruct (nth_error df i) as [r|]; [|congruence].
  rewrite IH. simpl. now eexists.
Qed.

(** *** The contracts of the libraries *)

(** a nearest neighbour is one of the points of the tree *)
Definition kd_in_range (env : Env) : Prop :=
  forall coords pts indices,
    kd_query env coords pts = Some indices ->
    Forall (fun i => (i < List.length coords)%nat) indices.

(** the Latin-hypercube engine refuses a negative number of points and
    returns as many points as asked for *)
Definition lhs_random_sized (env : Env) : Prop :=
  forall n pts, lhs_random env n = Some pts -> 0 <= n /\ Z.of_nat (List.length pts) = n.

(** [df.sample(n=n, random_state=42)] returns [n] distinct rows of the table *)
Definition sample_seeded_distinct (env : Env) : Prop :=
  forall len n pos,
    sample_seeded env len n = Some pos ->
    Z.of_nat (List.length pos) = n /\ NoDup pos.

(** [pd.cut] refuses a number of bins that is not positive *)
Definition cut_positive_bins (env : Env) : Prop :=
  forall xs bins labels, cut env xs bins = Some labels -> 0 < bins.

(** *** C5 *)

(** C5: under the Latin-hypercube strategy the selected row indices
    [final_indices] contain no duplicate and are all positions of valid
    rows, whether they come from the deduplicated neighbours alone or from
    the neighbours followed by the random backfill; and the rows at these
    positions are the table the strategy returns. *)
Theorem lhs_indices_distinct_valid (env : Env) (t : tape) (df_valid : DataFrame) (n : Z)
  (final : list nat) (t' : tape) :
  kd_in_range env ->
  lhs_final_indices env t df_valid n = Ok (final, t') ->
  NoDup final /\
  Forall (fun i => (i < List.length df_valid)%nat) final /\
  exists out, sample_lhs env t df_valid n = Ok (out, t') /\
              Forall2 (fun i r => nth_error df_valid i = Some r) final out.
Proof.
  intros Hkd H.
  destruct (lhs_final_indices_inv _ _ _ _ _ _ H) as (pts & indices & _ & Ek & Ef).
  apply Hkd in Ek. rewrite length_map in Ek.
  destruct (final_indices_of_spec _ _ _ _ _ _ Ef) as [Hnd [Hr _]].
  specialize (Hr Ek). split; [exact Hnd|]. split; [exact Hr|].
  destruct (iloc_total df_valid final Hr) as [out Hout].
  exists out. split; [|now apply iloc_spec].
  unfold sample_lhs. rewrite H. simpl. now rewrite Hout.
Qed.

(** the reference nearest-neighbour search honours its contract *)
Lemma nearest_from_range (q : float64 * float64) (coords : list (float64 * float64))
  (i best bound : nat) (dbest : float64) :
  (best < bound)%nat -> (i + List.length coords <= bound)%nat ->
  (Ref.nearest_from q coords i best dbest < bound)%nat.
Proof.
  revert i best dbest; induction coords as [|p coords IH]; simpl; intros i best dbest Hb Hi.
  - exact Hb.
  - destruct (flt (Ref.dist2 p q) dbest); apply IH; lia.
Qed.

Lemma ref_kd_in_range : kd_in_range Ref.env.
Proof.
  intros coords pts indices. simpl. unfold Ref.kd_brute.
  destruct coords as [|p rest] eqn:E; [discriminate|]. rewrite <- E.
  intros H; injection H as <-.
  apply Forall_forall. intros i Hi. apply in_map_iff in Hi as [q [<- _]].
  apply nearest_from_range; rewrite E; simpl; lia.
Qed.

(** on the square, two of four diagonal points fall on the same row, and
    one more index is drawn *)
Lemma lhs_indices_distinct_valid_witness :
  lhs_final_indices Ref.env [0%nat] (valid_rows (cfg_of "lhs" (Some 4)) square) 4
  = Ok ([0; 1; 3; 2]%nat, []) /\
  NoDup [0; 1; 3; 2]%nat /\
  Forall (fun i => (i < 4)%nat) [0; 1; 3; 2]%nat.
Proof.
  assert (H : lhs_final_indices Ref.env [0%nat] (valid_rows (cfg_of "lhs" (Some 4)) square) 4
              = Ok ([0; 1; 3; 2]%nat, [])) by (vm_compute; reflexivity).
  split; [exact H|].
  destruct (lhs_indices_distinct_valid Ref.env [0%nat]
              (valid_rows (cfg_of "lhs" (Some 4)) square) 4 [0; 1; 3; 2]%nat []
              ref_kd_in_range H) as [Hnd [Hr _]].
  split; [exact Hnd|exact Hr].
Defined.

(** *** The uniform strategy: how many rows *)

Lemma pick_in_bin_length (bin_df : list binned) (acc : list row) (t : tape) :
  (List.length (fst (pick_in_bin bin_df acc t)) <= List.length acc + 1)%nat /\
  (List.length (fst (pick_in_bin bin_df acc t)) <= List.length acc + List.length bin_df)%nat.
Proof.
  unfold pick_in_bin. destruct bin_df as [|b0 rest] eqn:E; simpl; [lia|].
  rewrite length_app. simpl. lia.
Qed.

(** the loops stop as soon as [n_sample] rows are held *)
Lemma scan_y_capped (n : Z) (tagged : list binned) (xb : option nat)
  (ybs : list (option nat)) (acc : list row) (t : tape) :
  Z.of_nat (List.length acc) < n ->
  Z.of_nat (List.length (fst (scan_y n tagged xb ybs acc t))) <= n.
Proof.
  revert acc t; induction ybs as [|yb ybs IH]; simpl; intros acc t Hacc; [lia|].
  pose proof (pick_in_bin_length (filter (in_bin xb yb) tagged) acc t) as [Hp _].
  destruct (pick_in_bin _ acc t) as [acc' t']; simpl in Hp.
  destruct (Z.geb_spec (Z.of_nat (List.length acc')) n); simpl; [lia|].
  apply IH. lia.
Qed.

Lemma scan_x_capped (n : Z) (tagged : list binned) (xbs ybs : list (option nat))
  (acc : list row) (t : tape) :
  Z.of_nat (List.length acc) < n ->
  Z.of_nat (List.length (fst (scan_x n tagged xbs ybs acc t))) <= n.
Proof.
  revert acc t; induction xbs as [|xb xbs IH]; simpl; intros acc t Hacc; [lia|].
  pose proof (scan_y_capped n tagged xb ybs acc t Hacc) as Hp.
  destruct (scan_y n tagged xb ybs acc t) as [acc' t']; simpl in Hp.
  destruct (Z.geb_spec (Z.of_nat (List.length acc')) n); simpl; [lia|].
  apply IH. lia.
Qed.

(** the rows held by the bins of one [x] label, and of a grid of labels *)
Definition row_of_bins (tagged : list binned) (xb : option nat) (ybs : list (option nat)) : nat :=
  list_sum (map (fun yb => List.length (filter (in_bin xb yb) tagged)) ybs).

Definition grid_of_bins (tagged : list binned) (xbs ybs : list (option nat)) : nat :=
  list_sum (map (fun xb => row_of_bins tagged xb ybs) xbs).

Lemma scan_y_one_per_bin (n : Z) (tagged : list binned) (xb : option nat)
  (ybs : list (option nat)) (acc : list row) (t : tape) :
  (List.length (fst (scan_y n tagged xb ybs acc t))
   <= List.length acc + row_of_bins tagged xb ybs)%nat.
Proof.
  unfold row_of_bins.
  revert acc t; induction ybs as [|yb ybs IH]; simpl; intros acc t; [lia|].
  pose proof (pick_in_bin_length (filter (in_bin xb yb) tagged) acc t) as [_ Hp].
  destruct (pick_in_bin _ acc t) as [acc' t']; simpl in Hp.
  destruct (Z.of_nat (List.length acc') >=? n); simpl; [lia|].
  specialize (IH acc' t'). lia.
Qed.

Lemma scan_x_one_per_bin (n : Z) (tagged : list binned) (xbs ybs : list (option nat))
  (acc : list row) (t : tape) :
  (List.length (fst (scan_x n tagged xbs ybs acc t))
   <= List.length acc + grid_of_bins tagged xbs ybs)%nat.
Proof.
  unfold grid_of_bins.
  revert acc t; induction xbs as [|xb xbs IH]; simpl; intros acc t; [lia|].
  pose proof (scan_y_one_per_bin n tagged xb ybs acc t) as Hp.
  destruct (scan_y n tagged xb ybs acc t) as [acc' t']; simpl in Hp.
  destruct (Z.of_nat (List.length acc') >=? n); simpl; [lia|].
  specialize (IH acc' t'). lia.
Qed.

Lemma label_is_eq (a v : option nat) : label_is a v = true -> v = a.
Proof.
  destruct a, v; simpl; try discriminate. intros H. apply Nat.eqb_eq in H. now subst.
Qed.

Lemma label_eqb_eq (a b : option nat) : label_eqb a b = true <-> a = b.
Proof.
  destruct a, b; simpl; split; try discriminate; try reflexivity.
  - intros H. apply Nat.eqb_eq in H. now subst.
  - intros H. injection H as ->. apply Nat.eqb_refl.
Qed.

(** a list without duplicates holds a given value at most once *)
Lemma filter_single {A : Type} (p : A -> bool) (a : A) (l : list A) :
  NoDup l -> (forall x, p x = true -> x = a) -> (List.length (filter p l) <= 1)%nat.
Proof.
  intros Hnd Hp. induction Hnd as [|x l Hx Hnd IH]; simpl; [lia|].
  destruct (p x) eqn:Ex; [|exact IH]. simpl.
  apply Hp in Ex. subst x.
  assert (E : filter p l = []).
  { clear IH Hnd. induction l as [|y l IH']; simpl; [reflexivity|].
    destruct (p y) eqn:Ey.
    - apply Hp in Ey. subst y. exfalso. apply Hx. now left.
    - apply IH'. intros Hin. apply Hx. now right. }
  rewrite E. simpl. lia.
Qed.

Lemma row_of_bins_cons (b : binned) (tagged : list binned) (xb : option nat)
  (ybs : list (option nat)) :
  row_of_bins (b :: tagged) xb ybs
  = (List.length (filter (fun yb => in_bin xb yb b) ybs) + row_of_bins tagged xb ybs)%nat.
Proof.
  unfold row_of_bins. induction ybs as [|yb ybs IH]; [reflexivity|].
  rewrite !map_cons. unfold list_sum in *. cbn [fold_right]. rewrite IH. cbn [filter].
  destruct (in_bin xb yb b); cbn [List.length]; lia.
Qed.

Lemma grid_of_bins_cons (b : binned) (tagged : list binned) (xbs ybs : list (option nat)) :
  grid_of_bins (b :: tagged) xbs ybs
  = (list_sum (map (fun xb => List.length (filter (fun yb => in_bin xb yb b) ybs)) xbs)
     + grid_of_bins tagged xbs ybs)%nat.
Proof.
  unfold grid_of_bins. induction xbs as [|xb xbs IH]; [reflexivity|].
  rewrite !map_cons. unfold list_sum in *. cbn [fold_right].
  rewrite IH, row_of_bins_cons. lia.
Qed.

(** a row lies in one bin at most *)
Lemma one_bin_per_row (b : binned) (xbs ybs : list (option nat)) :
  NoDup xbs -> NoDup ybs ->
  (list_sum (map (fun xb => List.length (filter (fun yb => in_bin xb yb b) ybs)) xbs) <= 1)%nat.
Proof.
  intros Hx Hy.
  assert (Hcell : forall xb,
             (List.length (filter (fun yb => in_bin xb yb b) ybs)
              <= if label_is (fst (snd b)) xb then 1 else 0)%nat).
  { intros xb. unfold in_bin. destruct (label_is (fst (snd b)) xb); simpl.
    - apply filter_single with (a := snd (snd b)); [exact Hy|].
      intros y. apply label_is_eq.
    - clear. induction ybs as [|y ybs IH]; simpl; [lia|exact IH]. }
  assert (Hsum : (list_sum (map (fun xb => List.length (filter (fun yb => in_bin xb yb b) ybs)) xbs)
                  <= List.length (filter (label_is (fst (snd b))) xbs))%nat).
  { clear Hx. induction xbs as [|xb xbs IH]; simpl; [lia|].
    specialize (Hcell xb). destruct (label_is (fst (snd b)) xb); simpl; lia. }
  etransitivity; [exact Hsum|].
  apply filter_single with (a := fst (snd b)); [exact Hx|].
  intros x. apply label_is_eq.
Qed.

Lemma grid_of_bins_le (tagged : list binned) (xbs ybs : list (option nat)) :
  NoDup xbs -> NoDup ybs -> (grid_of_bins tagged xbs ybs <= List.length tagged)%nat.
Proof.
  intros Hx Hy. induction tagged as [|b tagged IH].
  - assert (E : forall l : list (option nat), list_sum (map (fun _ => 0%nat) l) = 0%nat)
      by (clear; induction l; simpl; auto).
    unfold grid_of_bins, row_of_bins. simpl. rewrite (E ybs), (E xbs). lia.
  - rewrite grid_of_bins_cons. pose proof (one_bin_per_row b xbs ybs Hx Hy). simpl. lia.
Qed.

Lemma unique_from_NoDup (seen l : list (option nat)) :
  NoDup (unique_from seen l) /\
  forall x, In x (unique_from seen l) -> ~ In x seen.
Proof.
  revert seen; induction l as [|a l IH]; intros seen; simpl.
  - split; [constructor|intros x []].
  - destruct (existsb (label_eqb a) seen) eqn:E; [apply IH|].
    destruct (IH (a :: seen)) as [Hnd Hnot]. split.
    + constructor; [|exact Hnd]. intros Hin. apply (Hnot _ Hin). now left.
    + intros x [<-|Hx].
      * intros Hin. assert (existsb (label_eqb a) seen = true); [|congruence].
        apply existsb_exists. exists a. split; [exact Hin|now apply label_eqb_eq].
      * intros Hin. apply (Hnot _ Hx). now right.
Qed.

Lemma unique_NoDup (l : list (option nat)) : NoDup (unique l).
Proof. apply unique_from_NoDup. Qed.

(** [np.sqrt] of a count that is not positive gives no positive number of
    bins *)
Lemma round_of_negative (m : positive) (e : Z) (l : location) :
  match binary_round_aux prec emax true (Zpos m) e l with
  | S754_finite false _ _ | S754_infinity false | S754_zero false => False
  | _ => True
  end.
Proof.
  unfold binary_round_aux.
  destruct (shr_fexp prec emax (Zpos m) e l) as [mrs' e'].
  destruct (shr_fexp prec emax _ e' loc_Exact) as [mrs'' e''].
  destruct (shr_m mrs''); auto.
  destruct (e'' <=? emax - prec); auto.
Qed.

Lemma n_bins_of_nonpositive (n n_bins : Z) :
  n <= 0 -> int_of_float (fsqrt (float_of_int n)) = Ok n_bins -> n_bins = 0.
Proof.
  intros Hn. unfold float_of_int, binary_normalize.
  destruct n as [|p|p]; [| lia |].
  - simpl. congruence.
  - unfold binary_round.
    destruct (shl_align p 0 _) as [mz ez].
    pose proof (round_of_negative mz ez loc_Exact) as H.
    destruct (binary_round_aux prec emax true (Zpos mz) ez loc_Exact) as [[|]|[|]| |[|] m' e'];
      simpl; try contradiction; congruence.
Qed.

(** *** How many rows each strategy returns *)

Lemma distinct_positions_bounded (idx : list nat) (len : nat) :
  NoDup idx -> Forall (fun i => (i < len)%nat) idx -> (List.length idx <= len)%nat.
Proof.
  intros Hnd Hr. rewrite <- (length_seq len 0).
  apply NoDup_incl_length; [exact Hnd|].
  intros i Hi. rewrite Forall_forall in Hr. apply in_seq. specialize (Hr _ Hi). lia.
Qed.

Lemma sample_lhs_count (env : Env) (t : tape) (df_valid : DataFrame) (n : Z)
  (out : DataFrame) (t' : tape) :
  lhs_random_sized env ->
  sample_lhs env t df_valid n = Ok (out, t') ->
  Z.of_nat (List.length out) = n /\ (List.length out <= List.length df_valid)%nat.
Proof.
  intros Hlhs H. apply sample_lhs_inv in H as [final [Hf Hout]].
  destruct (lhs_final_indices_inv _ _ _ _ _ _ Hf) as (pts & indices & El & _ & Ef).
  apply Hlhs in El as [Hn _].
  destruct (final_indices_of_spec _ _ _ _ _ _ Ef) as [Hnd [_ Hlen]].
  apply iloc_rows in Hout as [Hl [Hr _]]. rewrite Hl. split; [auto|].
  now apply distinct_positions_bounded.
Qed.

Lemma sample_random_count (env : Env) (df_valid : DataFrame) (n : Z) (out : DataFrame) :
  sample_seeded_distinct env ->
  sample_random env df_valid n = Ok out ->
  Z.of_nat (List.length out) = n /\ (List.length out <= List.length df_valid)%nat.
Proof.
  intros Hs H. apply sample_random_inv in H as [pos [Ep Hout]].
  apply Hs in Ep as [Hlen Hnd].
  apply iloc_rows in Hout as [Hl [Hr _]]. rewrite Hl. split; [auto|].
  now apply distinct_positions_bounded.
Qed.

Lemma sample_uniform_count (env : Env) (t : tape) (df_valid : DataFrame) (n : Z)
  (out : DataFrame) (t' : tape) :
  cut_positive_bins env ->
  sample_uniform env t df_valid n = Ok (out, t') ->
  1 <= Z.of_nat (List.length out) <= n /\ (List.length out <= List.length df_valid)%nat.
Proof.
  intros Hcut H. apply sample_uniform_inv in H
    as (n_bins & x_bin & y_bin & En & Ex & _ & Hlx & Hly & Hscan & Hne).
  apply Hcut in Ex.
  assert (Hn : 1 <= n).
  { destruct (Z_lt_le_dec 0 n) as [|Hle]; [lia|].
    pose proof (n_bins_of_nonpositive _ _ Hle En). lia. }
  pose proof (scan_x_capped n (combine df_valid (combine x_bin y_bin))
                (unique x_bin) (unique y_bin) [] t) as Hcap.
  pose proof (scan_x_one_per_bin n (combine df_valid (combine x_bin y_bin))
                (unique x_bin) (unique y_bin) [] t) as Hbins.
  pose proof (grid_of_bins_le (combine df_valid (combine x_bin y_bin))
                (unique x_bin) (unique y_bin) (unique_NoDup _) (unique_NoDup _)) as Hgrid.
  rewrite Hscan in Hcap, Hbins. simpl in Hcap, Hbins.
  assert (Htag : List.length (combine df_valid (combine x_bin y_bin)) = List.length df_valid).
  { rewrite length_combine, length_combine, Hlx, Hly, !Nat.min_id. reflexivity. }
  unfold binned in Hgrid. rewrite Htag in Hgrid.
  destruct out as [|r out]; [congruence|]. simpl in *. lia.
Qed.

(** *** C1 *)

(** The count C1 speaks of: the fixed count when given, otherwise the count
    derived from the ratio ... *)
Definition requested_count (cfg : config) (n_valid : nat) : result Z :=
  match sample_num cfg with
  | Some k => Ok k
  | None =>
      bind (int_of_float (fmul (float_of_int (Z.of_nat n_valid)) (sample_ratio cfg)))
           (fun k => Ok (Z.max 1 k))
  end.

(** ... unless fewer valid points exist, in which case the number of valid
    points. *)
Definition claimed_rows (cfg : config) (n_valid : nat) : result Z :=
  bind (requested_count cfg n_valid)
       (fun k => Ok (if Z.of_nat n_valid <? k then Z.of_nat n_valid else k)).

Lemma claimed_rows_n_sample (cfg : config) (n_valid : nat) (n : Z) :
  n_sample_of cfg n_valid = Ok n ->
  claimed_rows cfg n_valid = Ok (Z.min n (Z.of_nat n_valid)).
Proof.
  unfold n_sample_of, claimed_rows, requested_count.
  destruct (sample_num cfg) as [k|]; simpl.
  - intros H; injection H as <-. f_equal.
    destruct (Z.ltb_spec (Z.of_nat n_valid) k); lia.
  - destruct (int_of_float _) as [k|]; simpl; [|discriminate].
    intros H; injection H as <-. f_equal.
    destruct (Z.ltb_spec (Z.of_nat n_valid) (Z.max 1 k)); lia.
Qed.

(** C1 as it is written: a written table has the claimed number of rows,
    whatever the strategy. *)
Definition row_count_as_claimed (env : Env) (cfg : config) (t : tape)
  (csv_file : string) (df : DataFrame) : Prop :=
  forall name out,
    In (name, out) (written (fst (fst (process_snapshot env cfg t csv_file df)))) ->
    claimed_rows cfg (List.length (valid_rows cfg df)) = Ok (Z.of_nat (List.length out)).

(** C1, counterexample: under the uniform strategy with a fixed count of 2
    on a snapshot with four valid rows, [int(np.sqrt(2))] is 1, the single
    bin gives one row, and the table written has one row, not two. *)
Lemma uniform_returns_fewer_rows :
  ~ row_count_as_claimed Ref.env (cfg_of "uniform" (Some 2)) [] "全局浓度_1天.csv" square.
Proof.
  intros H.
  specialize (H "稀疏观测_1天.csv" [Ref.mk 0 0 5]).
  assert (Hin : In ("稀疏观测_1天.csv", [Ref.mk 0 0 5])
                   (written (fst (fst (process_snapshot Ref.env (cfg_of "uniform" (Some 2)) []
                                         "全局浓度_1天.csv" square)))))
    by (vm_compute; left; reflexivity).
  specialize (H Hin). vm_compute in H. discriminate H.
Qed.

(** C1, amended: when a table is written for a snapshot, under the [lhs]
    and the [random] strategy its number of rows is the requested count
    (the fixed count when given, otherwise the count derived from the
    ratio), or the number of valid rows when that is smaller; under the
    [uniform] strategy, which takes one row in each non-empty bin it
    visits, it is at least one and at most that number. *)
Theorem written_row_count (env : Env) (cfg : config) (t : tape)
  (csv_file : string) (df : DataFrame) (name : string) (out : DataFrame) :
  lhs_random_sized env -> sample_seeded_distinct env -> cut_positive_bins env ->
  In (name, out) (written (fst (fst (process_snapshot env cfg t csv_file df)))) ->
  exists c,
    claimed_rows cfg (List.length (valid_rows cfg df)) = Ok c /\
    (sample_strategy cfg = "lhs" \/ sample_strategy cfg = "random" ->
     Z.of_nat (List.length out) = c) /\
    (sample_strategy cfg = "uniform" -> 1 <= Z.of_nat (List.length out) <= c).
Proof.
  intros Hlhs Hseed Hcut Hin.
  destruct (process_snapshot_written env cfg t csv_file df)
    as [Hnone|(n & out' & t' & _ & En & Hsel & Hw)].
  { rewrite Hnone in Hin. contradiction. }
  rewrite Hw in Hin. destruct Hin as [Heq|[]]. injection Heq as _ <-.
  exists (Z.min n (Z.of_nat (List.length (valid_rows cfg df)))).
  split; [now apply claimed_rows_n_sample|].
  unfold select in Hsel. split.
  - intros [Es|Es]; rewrite Es in Hsel; simpl in Hsel.
    + apply sample_lhs_count in Hsel; [lia|assumption].
    + destruct (sample_random env _ n) as [rows|] eqn:Er; simpl in Hsel; [|discriminate].
      injection Hsel as <- _. apply sample_random_count in Er; [lia|assumption].
  - intros Es; rewrite Es in Hsel; simpl in Hsel.
    apply sample_uniform_count in Hsel; [lia|assumption].
Qed.

(** the reference environment honours the contracts *)
Lemma ref_lhs_random_sized : lhs_random_sized Ref.env.
Proof.
  intros n pts. simpl. unfold Ref.lhs_diagonal.
  destruct (Z.ltb_spec n 0); [discriminate|].
  intros E; injection E as <-. rewrite length_map, length_seq. lia.
Qed.

Lemma ref_sample_seeded_distinct : sample_seeded_distinct Ref.env.
Proof.
  intros len n pos. simpl. unfold Ref.sample_last.
  destruct (Z.ltb_spec n 0); [discriminate|].
  destruct (Z.ltb_spec (Z.of_nat len) n); [discriminate|]. simpl.
  intros E; injection E as <-. split.
  - rewrite length_firstn, length_rev, length_seq. lia.
  - apply NoDup_firstn, NoDup_rev, seq_NoDup.
Qed.

Lemma ref_cut_positive_bins : cut_positive_bins Ref.env.
Proof.
  intros xs bins labels. simpl. unfold Ref.cut_equal_width.
  destruct (Z.leb_spec bins 0); [discriminate|lia].
Qed.

Lemma written_row_count_witness :
  In ("稀疏观测_1天.csv", [Ref.mk 0 0 5; Ref.mk 10 10 7; Ref.mk 5 5 1])
     (written (fst (fst (process_snapshot Ref.env (cfg_of "lhs" (Some 3)) []
                           "全局浓度_1天.csv" square)))) /\
  Z.of_nat (List.length [Ref.mk 0 0 5; Ref.mk 10 10 7; Ref.mk 5 5 1]) = 3.
Proof.
  assert (Hin : In ("稀疏观测_1天.csv", [Ref.mk 0 0 5; Ref.mk 10 10 7; Ref.mk 5 5 1])
                   (written (fst (fst (process_snapshot Ref.env (cfg_of "lhs" (Some 3)) []
                                         "全局浓度_1天.csv" square)))))
    by (vm_compute; left; reflexivity).
  split; [exact Hin|].
  destruct (written_row_count Ref.env (cfg_of "lhs" (Some 3)) [] "全局浓度_1天.csv" square
              "稀疏观测_1天.csv" [Ref.mk 0 0 5; Ref.mk 10 10 7; Ref.mk 5 5 1]
              ref_lhs_random_sized ref_sample_seeded_distinct ref_cut_positive_bins Hin)
    as [c [Hc [Hrows _]]].
  vm_compute in Hc. injection Hc as <-. apply Hrows. left. reflexivity.
Defined.

(** *** The seeded and the unseeded strategies *)

(** The random strategy reads nothing from the global generator: the trace
    and the outcome of an invocation are those of any other tape. *)
Lemma process_snapshot_random_tape (env : Env) (cfg : config) (csv_file : string)
  (df : DataFrame) (t1 t2 : tape) :
  sample_strategy cfg = "random" ->
  fst (fst (process_snapshot env cfg t1 csv_file df))
  = fst (fst (process_snapshot env cfg t2 csv_file df)) /\
  snd (process_snapshot env cfg t1 csv_file df)
  = snd (process_snapshot env cfg t2 csv_file df).
Proof.
  intros Es. unfold process_snapshot, select. rewrite Es. simpl.
  destruct (Nat.eqb _ 0); [split; reflexivity|].
  destruct (n_sample_of cfg _) as [n|e]; simpl; [|split; reflexivity].
  destruct (sample_random env _ n) as [rows|e]; simpl; [|split; reflexivity].
  destruct (report_extent cfg _) as [evs r]. split; reflexivity.
Qed.

Lemma random_ignores_tape (env : Env) (cfg : config) (dir : directory) (t1 t2 : tape) :
  sample_strategy cfg = "random" ->
  sample_sparse_data env t1 dir cfg = sample_sparse_data env t2 dir cfg.
Proof.
  intros Es. unfold sample_sparse_data.
  destruct (csv_files env dir) as [files|e]; [|reflexivity].
  assert (H : run_loop env cfg dir t1 files = run_loop env cfg dir t2 files);
    [|now rewrite H].
  revert t1 t2. induction files as [|f files IH]; intros t1 t2; simpl; [reflexivity|].
  destruct (read_csv dir f) as [df|e]; [|reflexivity].
  destruct (process_snapshot_random_tape env cfg f df t1 t2 Es) as [Hevs Hr].
  destruct (process_snapshot env cfg t1 f df) as [[evs1 t1'] r1].
  destruct (process_snapshot env cfg t2 f df) as [[evs2 t2'] r2].
  simpl in Hevs, Hr. subst evs2 r2.
  destruct r1; [reflexivity|]. now rewrite (IH t1' t2').
Qed.

Definition one_day : directory := [("全局浓度_1天.csv", square)].

(** *** C3 *)

(** C3: the uniform strategy is not deterministic.  On one snapshot with
    four valid rows and a fixed count of 1, all the valid rows fall in the
    single bin and [bin_df.sample(1)], which is given no [random_state],
    takes the row that the global generator designates: two invocations
    with the same table and the same arguments write different tables when
    the generator stands differently. *)
Theorem uniform_follows_global_generator :
  written (fst (sample_sparse_data Ref.env [0%nat] one_day (cfg_of "uniform" (Some 1))))
  = [("稀疏观测_1天.csv", [Ref.mk 0 0 5])] /\
  written (fst (sample_sparse_data Ref.env [1%nat] one_day (cfg_of "uniform" (Some 1))))
  = [("稀疏观测_1天.csv", [Ref.mk 10 10 7])].
Proof.
  split; vm_compute; reflexivity.
Qed.

(** * Properties of the field generator *)

Section FieldGenerator.
Import Simulate.

Variable lib : Lib.

(** *** C6 *)

(** C6: when the source list, the concentration list and the injection-rate
    list do not all have the same length, the call raises the validation
    error of line 49 or of line 51 and does nothing else: no directory, no
    parameter log, no evaluation of the analytical solution, no table, no
    plot. *)
Theorem mismatched_lengths_rejected (sc : scenario) :
  ~ (List.length (sources sc) = List.length (c0_list sc) /\
     List.length (c0_list sc) = List.length (Qa_list sc)) ->
  exists what got,
    create_contamination_scenario lib sc
    = ([], Some (LengthMismatch what got (List.length (sources sc)))).
Proof.
  intros Hne. unfold create_contamination_scenario.
  destruct (Nat.eqb_spec (List.length (c0_list sc)) (List.length (sources sc))) as [Ec|Ec];
    simpl; [|now eexists; eexists].
  destruct (Nat.eqb_spec (List.length (Qa_list sc)) (List.length (sources sc))) as [Eq|Eq];
    simpl; [|now eexists; eexists].
  exfalso. apply Hne. split; congruence.
Qed.

(** *** C8 *)

(** C8: the field of an observation time equal to zero is the array of
    zeros on the grid, every entry of it being [+0.0], and it is obtained
    without one evaluation of the analytical solution; and in the list of
    fields of a call, the field at the position of such a time is that
    array. *)
Theorem time_zero_field (sc : scenario) (x_grid y_grid : ndarray) (v : float64)
  (t : number) :
  is_zero t = true ->
  concentration_at lib sc x_grid y_grid v t = ([], Ok (zeros_like x_grid)) /\
  shape (zeros_like x_grid) = shape x_grid /\
  Forall (Forall (fun c => c = fzero)) (zeros_like x_grid) /\
  (forall evs fields k,
      all_concentrations lib sc x_grid y_grid v (obs_times sc) = (evs, Ok fields) ->
      nth_error (obs_times sc) k = Some t ->
      nth_error fields k = Some (zeros_like x_grid)).
Proof.
  intros Hz. assert (Hc : concentration_at lib sc x_grid y_grid v t
                          = ([], Ok (zeros_like x_grid)))
    by (unfold concentration_at; now rewrite Hz).
  split; [exact Hc|]. split; [|split].
  - unfold shape, zeros_like. rewrite map_map. apply map_ext. intros r. apply length_map.
  - unfold zeros_like. apply Forall_forall. intros r Hr.
    apply in_map_iff in Hr as [r' [<- _]].
    apply Forall_forall. intros c Hin. now apply in_map_iff in Hin as [c' [<- _]].
  - generalize (obs_times sc). intros times.
    induction times as [|t0 times IH]; intros evs fields k Hall Hk.
    + destruct k; discriminate.
    + simpl in Hall.
      destruct (concentration_at lib sc x_grid y_grid v t0) as [evs0 [f0|e0]] eqn:E0;
        [|discriminate].
      destruct (all_concentrations lib sc x_grid y_grid v times) as [evs' [fs|e]] eqn:E';
        simpl in Hall; [|discriminate].
      injection Hall as _ <-.
      destruct k as [|k]; simpl in *.
      * injection Hk as ->. rewrite Hc in E0. now injection E0 as _ <-.
      * eapply IH; eauto.
Qed.

(** *** Superposition *)

Lemma positive_not_zero (t : number) : is_positive t = true -> is_zero t = false.
Proof.
  destruct t as [z|f]; simpl.
  - intros H. apply Z.ltb_lt in H. apply Z.eqb_neq. lia.
  - unfold flt, feq, fzero, SFltb, SFeqb.
    destruct f as [[|]|[|]| |[|] m e]; simpl; congruence.
Qed.

Lemma fadd_zero_zero : fadd fzero fzero = fzero.
Proof. reflexivity. Qed.

Lemma nth_zip_with_fadd (r1 r2 : list float64) (j : nat) :
  List.length r1 = List.length r2 ->
  nth j (zip_with fadd r1 r2) fzero = fadd (nth j r1 fzero) (nth j r2 fzero).
Proof.
  revert r2 j; induction r1 as [|a r1 IH]; intros [|b r2] j H; simpl in *;
    try discriminate.
  - destruct j; symmetry; apply fadd_zero_zero.
  - destruct j; [reflexivity|]. apply IH. congruence.
Qed.

Lemma entry_zip_with (a b : ndarray) (i j : nat) :
  shape a = shape b ->
  entry (zip_with (zip_with fadd) a b) i j = fadd (entry a i j) (entry b i j).
Proof.
  unfold entry. revert b i; induction a as [|r a IH]; intros [|s b] i H; simpl in *;
    try discriminate.
  - destruct i, j; symmetry; apply fadd_zero_zero.
  - injection H as Hr Hs. destruct i; [now apply nth_zip_with_fadd|now apply IH].
Qed.

Lemma shape_zip_with (a b : ndarray) :
  shape a = shape b -> shape (zip_with (zip_with fadd) a b) = shape a.
Proof.
  revert b; induction a as [|r a IH]; intros [|s b] H; simpl in *; try discriminate;
    [reflexivity|].
  injection H as Hr Hs. f_equal; [|now apply IH].
  clear IH Hs. revert s Hr; induction r as [|x r IHr]; intros [|y s] Hr; simpl in *;
    try discriminate; [reflexivity|]. f_equal. apply IHr. congruence.
Qed.

Lemma shape_zeros_like (a : ndarray) : shape (zeros_like a) = shape a.
Proof.
  unfold shape, zeros_like. rewrite map_map. apply map_ext. intros r. apply length_map.
Qed.

Lemma entry_zeros_like (a : ndarray) (i j : nat) : entry (zeros_like a) i j = fzero.
Proof.
  unfold entry, zeros_like. revert i; induction a as [|r a IH]; intros i.
  - destruct i, j; reflexivity.
  - destruct i; simpl; [|apply IH].
    clear IH. revert j; induction r as [|x r IHr]; intros [|j]; simpl; auto.
Qed.

Lemma iadd_same_shape (a b : ndarray) :
  shape a = shape b -> iadd a b = Ok (zip_with (zip_with fadd) a b).
Proof.
  unfold iadd. intros H. now destruct (list_eq_dec Nat.eq_dec (shape a) (shape b)).
Qed.

(** the arguments of one evaluation and its result *)
Definition evaluation (t : number) (s : float64 * float64 * float64 * float64) : event :=
  let '(xc, yc, c0, qa) := s in Evaluate t xc yc qa c0.

Definition single_source (sc : scenario) (x_grid y_grid : ndarray) (v : float64)
  (t : number) (s : float64 * float64 * float64 * float64) : ndarray :=
  let '(xc, yc, c0, qa) := s in
  point2 lib x_grid y_grid t v (αL sc) (αT sc) (θ sc) xc yc qa c0.

(** the contract of the analytical solution: an array of the shape of [x] *)
Definition point2_keeps_shape (x_grid y_grid : ndarray) : Prop :=
  forall t v al ah n xc yc Qa c0,
    shape (point2 lib x_grid y_grid t v al ah n xc yc Qa c0) = shape x_grid.

Lemma superpose_spec (sc : scenario) (x_grid y_grid : ndarray) (v : float64) (t : number)
  (srcs : list (float64 * float64 * float64 * float64)) (total : ndarray) :
  point2_keeps_shape x_grid y_grid ->
  shape total = shape x_grid ->
  exists total',
    superpose lib sc x_grid y_grid v t srcs total = (map (evaluation t) srcs, Ok total') /\
    shape total' = shape x_grid /\
    forall i j,
      entry total' i j
      = fold_left fadd (map (fun s => entry (single_source sc x_grid y_grid v t s) i j) srcs)
                  (entry total i j).
Proof.
  intros Hp. revert total; induction srcs as [|[[[xc yc] c0] qa] srcs IH]; intros total Hs.
  - exists total. simpl. auto.
  - simpl. rewrite iadd_same_shape by (rewrite Hs; symmetry; apply Hp).
    destruct (IH (zip_with (zip_with fadd) total
                    (point2 lib x_grid y_grid t v (αL sc) (αT sc) (θ sc) xc yc qa c0)))
      as [total' [Hrun [Hshape Hentry]]].
    { rewrite shape_zip_with; [exact Hs|]. rewrite Hs. symmetry. apply Hp. }
    exists total'. rewrite Hrun. split; [reflexivity|]. split; [exact Hshape|].
    intros i j. rewrite Hentry, entry_zip_with; [reflexivity|].
    rewrite Hs. symmetry. apply Hp.
Qed.

(** with lists of one length, [zip] pairs the [k]-th source with the
    [k]-th concentration and the [k]-th injection rate, for every [k] *)
Definition source (sc : scenario) (k : nat) : float64 * float64 * float64 * float64 :=
  (fst (nth k (sources sc) (fzero, fzero)), snd (nth k (sources sc) (fzero, fzero)),
   nth k (c0_list sc) fzero, nth k (Qa_list sc) fzero).

Lemma zip3_by_index (srcs : list (float64 * float64)) (c0s qas : list float64) :
  List.length c0s = List.length srcs -> List.length qas = List.length srcs ->
  zip_with (fun sc0 qa => (fst (fst sc0), snd (fst sc0), snd sc0, qa)) (combine srcs c0s) qas
  = map (fun k => (fst (nth k srcs (fzero, fzero)), snd (nth k srcs (fzero, fzero)),
                   nth k c0s fzero, nth k qas fzero))
        (seq 0 (List.length srcs)).
Proof.
  revert c0s qas; induction srcs as [|s srcs IH]; intros [|c c0s] [|q qas] Hc Hq;
    simpl in *; try discriminate; [reflexivity|].
  f_equal. rewrite <- seq_shift, map_map. apply IH; congruence.
Qed.

Lemma zip3_sources (sc : scenario) :
  List.length (c0_list sc) = List.length (sources sc) ->
  List.length (Qa_list sc) = List.length (sources sc) ->
  zip3 sc = map (source sc) (seq 0 (List.length (sources sc))).
Proof. intros Hc Hq. unfold zip3, source. now apply zip3_by_index. Qed.

(** *** C2 *)

(** C2 in its own words: the value at a grid point is the sum, over all
    the configured sources, of the analytical solution evaluated with the
    coordinate, the concentration and the injection rate of that source. *)
Definition superposition (sc : scenario) (x_grid y_grid : ndarray) (v : float64)
  (t : number) (i j : nat) : float64 :=
  fold_left fadd
    (map (fun k => entry (single_source sc x_grid y_grid v t (source sc k)) i j)
         (seq 0 (List.length (sources sc))))
    fzero.


End FieldGenerator.

(** *** Example data for the generator *)

Module Demo.
Import Simulate.

(** a stand-in for the analytical solution: a plume that decays with the
    squared distance along [x] from the source, of the shape of [x] *)
Definition plume (x y : ndarray) (t : number) (v al ah n xc yc Qa c0 : float64) : ndarray :=
  map (map (fun xv =>
              fdiv (fmul c0 Qa)
                   (fadd (float_of_int 1) (fmul (fsub xv xc) (fsub xv xc))))) x.

(** evenly spaced points, both ends included *)
Definition linspace_even (start stop : float64) (num : Z) : option (list float64) :=
  if num <? 0 then None
  else
    let step := fdiv (fsub stop start) (float_of_int (num - 1)) in
    Some (map (fun i => fadd start (fmul (float_of_int (Z.of_nat i)) step))
              (seq 0 (Z.to_nat num))).

Definition lib : Lib := {| point2 := plume; linspace := linspace_even |}.

Definition pt (x y : Z) : float64 * float64 := (float_of_int x, float_of_int y).

(** two sources with their own concentrations and injection rates *)
Definition two_sources : scenario := {|
  scene_name := "two sources";
  Kαα := Ref.dec 8 1;
  Kββ := fzero;
  θ := Ref.dec 22 2;
  αL := float_of_int 40;
  αT := float_of_int 8;
  x_range := pt 0 1300;
  y_range := pt 0 800;
  grid_num := 3;
  sources := [pt 400 300; pt 800 500];
  c0_list := [float_of_int 100; float_of_int 150];
  Qa_list := [Ref.dec 1 1; Ref.dec 2 1];
  stress_cycle_d := 365;
  obs_times := [Int 0; Int 1; Int 10]
|}.

(** the same with one concentration missing *)
Definition lopsided : scenario := {|
  scene_name := "lopsided";
  Kαα := Kαα two_sources;
  Kββ := Kββ two_sources;
  θ := θ two_sources;
  αL := αL two_sources;
  αT := αT two_sources;
  x_range := x_range two_sources;
  y_range := y_range two_sources;
  grid_num := grid_num two_sources;
  sources := sources two_sources;
  c0_list := [float_of_int 100];
  Qa_list := Qa_list two_sources;
  stress_cycle_d := stress_cycle_d two_sources;
  obs_times := obs_times two_sources
|}.

Definition xs : list float64 := [float_of_int 0; float_of_int 650; float_of_int 1300].
Definition ys : list float64 := [float_of_int 0; float_of_int 400; float_of_int 800].
Definition x_grid : ndarray := fst (meshgrid xs ys).
Definition y_grid : ndarray := snd (meshgrid xs ys).
Definition v : float64 := fdiv (Kαα two_sources) (θ two_sources).

End Demo.

Lemma demo_point2_keeps_shape (x_grid y_grid : Simulate.ndarray) :
  point2_keeps_shape Demo.lib x_grid y_grid.
Proof.
  intros t v al ah n xc yc Qa c0. simpl. unfold Demo.plume, Simulate.shape.
  rewrite map_map. apply map_ext. intros r. apply length_map.
Qed.

Lemma mismatched_lengths_rejected_witness :
  exists what got,
    Simulate.create_contamination_scenario Demo.lib Demo.lopsided
    = ([], Some (LengthMismatch what got (List.length (Simulate.sources Demo.lopsided)))).
Proof.
  apply (mismatched_lengths_rejected Demo.lib Demo.lopsided).
  simpl. intros [H _]. discriminate H.
Defined.

Lemma time_zero_field_witness :
  Simulate.concentration_at Demo.lib Demo.two_sources Demo.x_grid Demo.y_grid Demo.v
                            (Simulate.Int 0)
  = ([], Ok (Simulate.zeros_like Demo.x_grid)).
Proof.
  exact (proj1 (time_zero_field Demo.lib Demo.two_sources Demo.x_grid Demo.y_grid Demo.v
                  (Simulate.Int 0) eq_refl)).
Defined.


(** * Further properties of the sampler *)

(** *** What one snapshot leaves in the trace *)

(** a snapshot that ends without an exception was either skipped with a
    warning or given a table, not both; one that ends with an exception
    was not warned about *)
Lemma process_snapshot_account (env : Env) (cfg : config) (t : tape)
  (csv_file : string) (df : DataFrame) :
  (List.length (written (fst (fst (process_snapshot env cfg t csv_file df))))
   + List.length (warnings (fst (fst (process_snapshot env cfg t csv_file df)))) <= 1)%nat /\
  (snd (process_snapshot env cfg t csv_file df) = None ->
   (List.length (written (fst (fst (process_snapshot env cfg t csv_file df))))
    + List.length (warnings (fst (fst (process_snapshot env cfg t csv_file df)))) = 1)%nat).
Proof.
  unfold process_snapshot.
  destruct (valid_rows cfg df) as [|r rs]; simpl; [split; auto|].
  destruct (bind _ _) as [[df_sample t']|e]; simpl; [|split; [lia|discriminate]].
  unfold report_extent. destruct (String.eqb _ _).
  - destruct (extent _) as [[[? ?] ?] ?]. simpl. split; [lia|reflexivity].
  - simpl. split; [lia|discriminate].
Qed.

(** the line that reports the extent fails whenever the strategy is not
    [lhs] *)
Lemma process_snapshot_slip (env : Env) (cfg : config) (t : tape)
  (csv_file : string) (df : DataFrame) :
  String.eqb (sample_strategy cfg) "lhs" = false ->
  written (fst (fst (process_snapshot env cfg t csv_file df))) <> [] ->
  snd (process_snapshot env cfg t csv_file df) = Some (UnboundLocal "x_min").
Proof.
  intros Hs. unfold process_snapshot, report_extent. rewrite Hs.
  destruct (Nat.eqb _ 0); simpl; [congruence|].
  destruct (bind _ _) as [[df_sample t']|e]; simpl; congruence.
Qed.

(** *** X1 *)

(** X1: under any strategy other than [lhs] an invocation writes at most
    one table, and when it has written one it ends at once with the
    [UnboundLocalError] of line 105 ([x_min] is assigned by the lhs branch
    only), leaving the later snapshots unread. *)
Theorem one_table_then_unbound_local (env : Env) (t : tape) (dir : directory) (cfg : config) :
  String.eqb (sample_strategy cfg) "lhs" = false ->
  (List.length (written (fst (sample_sparse_data env t dir cfg))) <= 1)%nat /\
  (written (fst (sample_sparse_data env t dir cfg)) <> [] ->
   snd (sample_sparse_data env t dir cfg) = Some (UnboundLocal "x_min")).
Proof.
  intros Hs. unfold sample_sparse_data.
  destruct (csv_files env dir) as [files|e]; simpl; [|split; [lia|congruence]].
  assert (Hloop : forall files t,
             (List.length (written (fst (run_loop env cfg dir t files))) <= 1)%nat /\
             (written (fst (run_loop env cfg dir t files)) <> [] ->
              snd (run_loop env cfg dir t files) = Some (UnboundLocal "x_min"))).
  { clear t files. induction files as [|f files IH]; intros t; simpl.
    - split; [lia|congruence].
    - destruct (read_csv dir f) as [df|e]; simpl; [|split; [lia|congruence]].
      pose proof (process_snapshot_slip env cfg t f df Hs) as Hslip.
      pose proof (process_snapshot_account env cfg t f df) as [Hacc _].
      destruct (process_snapshot env cfg t f df) as [[evs t'] r]; simpl in *.
      destruct r as [e|]; simpl.
      + split; [lia|exact Hslip].
      + assert (Hw : written evs = []).
        { destruct (written evs) as [|w ws] eqn:E; [reflexivity|].
          assert (Hne : w :: ws <> []) by discriminate.
          specialize (Hslip Hne). discriminate. }
        destruct (IH t') as [IH1 IH2].
        destruct (run_loop env cfg dir t' files) as [evs' r']; simpl in *.
        rewrite written_app, Hw. simpl. split; assumption. }
  specialize (Hloop files t).
  destruct (run_loop env cfg dir t files) as [evs r]; simpl in *. exact Hloop.
Qed.

Lemma one_table_then_unbound_local_witness :
  (List.length (written (fst (sample_sparse_data Ref.env [] three_days
                                (cfg_of "random" (Some 2%Z))))) <= 1)%nat /\
  snd (sample_sparse_data Ref.env [] three_days (cfg_of "random" (Some 2%Z)))
  = Some (UnboundLocal "x_min").
Proof.
  destruct (one_table_then_unbound_local Ref.env [] three_days (cfg_of "random" (Some 2))
              eq_refl) as [Hle Hraise].
  split; [exact Hle|]. apply Hraise. vm_compute. discriminate.
Defined.

(** *** X2 *)

(** X2: in the trace of an invocation the snapshots read are accounted
    for: tables written and warnings together never outnumber the
    snapshots read, and they are as many when no exception escapes (each
    snapshot was either given a table or skipped with a warning). *)
Theorem reads_accounted_for (env : Env) (t : tape) (dir : directory) (cfg : config) :
  (List.length (written (fst (sample_sparse_data env t dir cfg)))
   + List.length (warnings (fst (sample_sparse_data env t dir cfg)))
   <= List.length (reads (fst (sample_sparse_data env t dir cfg))))%nat /\
  (snd (sample_sparse_data env t dir cfg) = None ->
   (List.length (written (fst (sample_sparse_data env t dir cfg)))
    + List.length (warnings (fst (sample_sparse_data env t dir cfg)))
    = List.length (reads (fst (sample_sparse_data env t dir cfg))))%nat).
Proof.
  unfold sample_sparse_data.
  destruct (csv_files env dir) as [files|e]; simpl; [|split; [lia|discriminate]].
  assert (Hloop : forall files t,
             (List.length (written (fst (run_loop env cfg dir t files)))
              + List.length (warnings (fst (run_loop env cfg dir t files)))
              <= List.length (reads (fst (run_loop env cfg dir t files))))%nat /\
             (snd (run_loop env cfg dir t files) = None ->
              (List.length (written (fst (run_loop env cfg dir t files)))
               + List.length (warnings (fst (run_loop env cfg dir t files)))
               = List.length (reads (fst (run_loop env cfg dir t files))))%nat)).
  { clear t files. induction files as [|f files IH]; intros t; simpl.
    - split; [lia|reflexivity].
    - destruct (read_csv dir f) as [df|e]; simpl; [|split; [lia|discriminate]].
      pose proof (process_snapshot_account env cfg t f df) as [Hle Heq].
      pose proof (process_snapshot_reads env cfg t f df) as Hr.
      destruct (process_snapshot env cfg t f df) as [[evs t'] r]; simpl in *.
      destruct r as [e|]; simpl.
      + rewrite Hr. simpl. split; [lia|discriminate].
      + specialize (Heq eq_refl). destruct (IH t') as [IH1 IH2].
        destruct (run_loop env cfg dir t' files) as [evs' r']; simpl in *.
        rewrite written_app, warnings_app, reads_app, !length_app, Hr. simpl.
        split; [lia|]. intros Hnone. specialize (IH2 Hnone). lia. }
  specialize (Hloop files t).
  destruct (run_loop env cfg dir t files) as [evs r]; simpl in *. exact Hloop.
Qed.

Lemma reads_accounted_for_witness :
  (List.length (written (fst (sample_sparse_data Ref.env [] three_days
                                (cfg_of "lhs" (Some 2%Z)))))
   + List.length (warnings (fst (sample_sparse_data Ref.env [] three_days
                                  (cfg_of "lhs" (Some 2%Z)))))
   = List.length (reads (fst (sample_sparse_data Ref.env [] three_days
                                (cfg_of "lhs" (Some 2%Z))))))%nat.
Proof.
  apply (proj2 (reads_accounted_for Ref.env [] three_days (cfg_of "lhs" (Some 2)))).
  vm_compute. reflexivity.
Defined.

(** *** File names *)

Lemma replace_from_skip (w old new r : string) :
  replace_from (String.length w) old new (w ++ r) = replace_from 0 old new r.
Proof.
  induction w as [|a w IH]; simpl; [reflexivity|exact IH].
Qed.

Lemma prefix_app_self (p r : string) : String.prefix p (p ++ r) = true.
Proof.
  induction p as [|a p IH]; simpl; [now destruct r|].
  now destruct (ascii_dec a a).
Qed.

(** an occurrence at the head is replaced and the scan resumes after it *)
Lemma replace_head (old new r : string) :
  old <> EmptyString ->
  replace (old ++ r) old new = (new ++ replace r old new)%string.
Proof.
  unfold replace. destruct old as [|a old]; [congruence|]. intros _.
  cbn [append replace_from].
  assert (Hp : String.prefix (String a old) (String a (old ++ r)) = true)
    by apply (prefix_app_self (String a old) r).
  rewrite Hp. cbn [String.length]. rewrite Nat.sub_1_r. cbn [Nat.pred].
  now rewrite replace_from_skip.
Qed.

(** nothing is replaced in a string that has none of the first character of
    the pattern *)
Lemma replace_absent (a : ascii) (old new w : string) :
  free_of a w = true -> replace_from 0 (String a old) new w = w.
Proof.
  induction w as [|b w IH]; simpl; [reflexivity|].
  intros H. apply andb_true_iff in H as [Hb Hw]. apply negb_true_iff in Hb.
  destruct (ascii_dec a b) as [->|_]; [now rewrite Ascii.eqb_refl in Hb|].
  now rewrite IH.
Qed.

Lemma replace_from_app_absent (a : ascii) (old new w r : string) :
  free_of a w = true ->
  replace_from 0 (String a old) new (w ++ r) = (w ++ replace_from 0 (String a old) new r)%string.
Proof.
  induction w as [|b w IH]; simpl; [reflexivity|].
  intros H. apply andb_true_iff in H as [Hb Hw]. apply negb_true_iff in Hb.
  destruct (ascii_dec a b) as [->|_]; [now rewrite Ascii.eqb_refl in Hb|].
  now rewrite IH.
Qed.

Lemma endswith_app (w p : string) : endswith (w ++ p) p = true.
Proof.
  unfold endswith.
  assert (Hlen : String.length (w ++ p) = (String.length w + String.length p)%nat)
    by (induction w as [|a w IH]; simpl; [reflexivity|now rewrite IH]).
  rewrite Hlen. apply andb_true_iff. split; [apply Nat.leb_le; lia|].
  replace (String.length w + String.length p - String.length p)%nat
    with (String.length w) by lia.
  apply String.eqb_eq. clear Hlen.
  induction w as [|a w IH]; simpl.
  - clear. induction p as [|b p IH]; simpl; [reflexivity|now rewrite IH].
  - exact IH.
Qed.

Lemma append_assoc (a b c : string) : ((a ++ b) ++ c)%string = (a ++ b ++ c)%string.
Proof. induction a as [|x a IH]; simpl; [reflexivity|now rewrite IH]. Qed.

Lemma append_empty_r (w : string) : (w ++ "")%string = w.
Proof. induction w as [|a w IH]; simpl; [reflexivity|now rewrite IH]. Qed.

(** the name that simulate.py line 136 gives to the snapshot of a time
    whose [str] is [time] *)
Definition snapshot_file_name (time : string) : string :=
  ("全局浓度_" ++ time ++ "天.csv")%string.

(** the first byte of [天] in UTF-8 *)
Definition tian_lead : ascii := ascii_of_nat 229.

(** *** X3 *)

(** X3: the sampler recognises the names the generator gives to its
    snapshots and reads back the time they were built from: for a time
    written without underscore and without the byte [0xE5] (any ASCII
    rendering of a number), the name is taken as a snapshot name, the sort
    key is what [int] makes of that same text, and the table sampled from
    it is written under [稀疏观测_] followed by the same time and
    [天.csv]. *)
Theorem generator_names_read_back (env : Env) (time : string) :
  free_of "_"%char time = true ->
  free_of tian_lead time = true ->
  is_snapshot_name (snapshot_file_name time) = true /\
  time_token (snapshot_file_name time) = Ok time /\
  sort_key env (snapshot_file_name time) = of_option (BadTimeToken time) (py_int env time) /\
  output_name (snapshot_file_name time) = ("稀疏观测_" ++ time ++ "天.csv")%string.
Proof.
  intros Hu Ht.
  assert (Htok : time_token (snapshot_file_name time) = Ok time).
  { unfold time_token, snapshot_file_name.
    change ("全局浓度_" ++ time ++ "天.csv")%string
      with ("全局浓度" ++ String "_" (time ++ "天.csv"))%string.
    rewrite split_first_field by reflexivity.
    assert (Hs : split "_" (time ++ "天.csv") = [(time ++ "天.csv")%string]).
    { clear Ht. induction time as [|a w IH]; [reflexivity|].
      simpl in Hu. apply andb_true_iff in Hu as [Ha Hw]. apply negb_true_iff in Ha.
      cbn [append split]. rewrite Ha, (IH Hw). reflexivity. }
    rewrite Hs. f_equal. unfold replace.
    pose proof (replace_from_app_absent tian_lead
                  (String (ascii_of_nat 164) (String (ascii_of_nat 169) ".csv"))
                  "" time "天.csv" Ht) as Hr.
    change (String tian_lead (String (ascii_of_nat 164) (String (ascii_of_nat 169) ".csv")))
      with "天.csv" in Hr.
    rewrite Hr. change (replace_from 0 "天.csv" "" "天.csv") with "".
    apply append_empty_r. }
  split; [|split; [exact Htok|split]].
  - unfold is_snapshot_name, startswith, snapshot_file_name.
    rewrite prefix_app_self. cbn [andb].
    change "天.csv" with ("天" ++ ".csv")%string.
    rewrite <- !append_assoc. apply endswith_app.
  - unfold sort_key. rewrite Htok. reflexivity.
  - unfold output_name, snapshot_file_name.
    rewrite replace_head by discriminate. f_equal.
    unfold replace.
    pose proof (replace_from_app_absent tian_lead
                  (String (ascii_of_nat 133) (String (ascii_of_nat 168) "局浓度_"))
                  "" time "天.csv" Ht) as Hr.
    change (String tian_lead (String (ascii_of_nat 133) (String (ascii_of_nat 168) "局浓度_")))
      with "全局浓度_" in Hr.
    rewrite Hr. reflexivity.
Qed.

Lemma generator_names_read_back_witness :
  sort_key Ref.env (snapshot_file_name "180") = Ok 180 /\
  sort_key Ref.env (snapshot_file_name "0.5") = Raise (BadTimeToken "0.5") /\
  output_name (snapshot_file_name "180") = "稀疏观测_180天.csv".
Proof.
  destruct (generator_names_read_back Ref.env "180" eq_refl eq_refl) as (_ & _ & Hk & Ho).
  destruct (generator_names_read_back Ref.env "0.5" eq_refl eq_refl) as (_ & _ & Hk' & _).
  split; [exact Hk|]. split; [exact Hk'|exact Ho].
Defined.

(** *** Ties in the sort *)

Lemma insert_by_key_stable (k : Z) (a : Z * string) (l : list (Z * string)) :
  filter (fun p => fst p =? k) (insert_by_key a l)
  = filter (fun p => fst p =? k) (a :: l).
Proof.
  induction l as [|b l IH]; [reflexivity|].
  cbn [insert_by_key]. destruct (Z.leb_spec (fst a) (fst b)) as [Hab|Hab]; [reflexivity|].
  cbn [filter] in *. rewrite IH.
  destruct (Z.eqb_spec (fst a) k) as [Ea|Ea]; [|reflexivity].
  destruct (Z.eqb_spec (fst b) k) as [Eb|Eb]; [lia|reflexivity].
Qed.

Lemma sort_by_key_stable (k : Z) (l : list (Z * string)) :
  filter (fun p => fst p =? k) (sort_by_key l) = filter (fun p => fst p =? k) l.
Proof.
  induction l as [|a l IH]; [reflexivity|].
  cbn [sort_by_key fold_right]. fold (sort_by_key l).
  rewrite insert_by_key_stable. cbn [filter]. now rewrite IH.
Qed.

(** the names of the work list whose sort key is [k] *)
Definition has_key (env : Env) (k : Z) (f : string) : bool :=
  match sort_key env f with
  | Ok k' => k' =? k
  | Raise _ => false
  end.

Lemma filter_decorated (env : Env) (k : Z) (ks : list (Z * string)) :
  Forall (fun p => sort_key env (snd p) = Ok (fst p)) ks ->
  filter (has_key env k) (map snd ks) = map snd (filter (fun p => fst p =? k) ks).
Proof.
  induction 1 as [|p ks Hp _ IH]; [reflexivity|].
  cbn [map filter]. unfold has_key at 1. rewrite Hp, IH.
  now destruct (fst p =? k).
Qed.

(** *** X4 *)

(** X4: the sort of the work list is stable: snapshot names whose time
    tokens read as the same integer (such as [1] and [01]) are processed in
    the order in which the directory listing gave them. *)
Theorem equal_times_keep_listing_order (env : Env) (dir : directory)
  (files : list string) (k : Z) :
  csv_files env dir = Ok files ->
  filter (has_key env k) files
  = filter (has_key env k) (filter is_snapshot_name (map fst dir)).
Proof.
  unfold csv_files.
  destruct (decorate env _) as [ks|] eqn:Ed; simpl; [|discriminate].
  intros H; injection H as <-.
  destruct (decorate_ok _ _ _ Ed) as [Hm Hf].
  rewrite <- Hm, !filter_decorated, sort_by_key_stable; [reflexivity|exact Hf|].
  eapply Permutation_Forall; [apply sort_by_key_perm|exact Hf].
Qed.

Definition twice_day_one : directory :=
  [("全局浓度_5天.csv", square); ("全局浓度_01天.csv", square);
   ("全局浓度_1天.csv", clean); ("全局浓度_+1天.csv", square)].

Lemma equal_times_keep_listing_order_witness :
  filter (has_key Ref.env 1) ["全局浓度_01天.csv"; "全局浓度_1天.csv";
                              "全局浓度_+1天.csv"; "全局浓度_5天.csv"]
  = filter (has_key Ref.env 1) (filter is_snapshot_name (map fst twice_day_one)).
Proof.
  apply (equal_times_keep_listing_order Ref.env twice_day_one). reflexivity.
Defined.

(** *** The Latin-hypercube strategy at its edges *)

(** the positions left for the backfill are those the neighbours did not
    take *)
Lemma pool_size (u : list nat) (n_valid : nat) :
  NoDup u -> Forall (fun i => (i < n_valid)%nat) u ->
  (List.length (filter (fun i => negb (mem i u)) (seq 0 n_valid)) + List.length u
   = n_valid)%nat.
Proof.
  intros Hnd Hr.
  rewrite <- length_app.
  transitivity (List.length (seq 0 n_valid)); [|apply length_seq].
  apply Permutation_length, NoDup_Permutation.
  - apply NoDup_app; [apply NoDup_filter, seq_NoDup|exact Hnd|].
    intros x Hx Hu. apply filter_In in Hx as [_ Hx].
    apply negb_true_iff in Hx. apply mem_In in Hu. congruence.
  - apply seq_NoDup.
  - intros x. rewrite in_app_iff, filter_In, in_seq, negb_true_iff. split.
    + intros [[Hx _]|Hx]; [lia|]. rewrite Forall_forall in Hr. specialize (Hr _ Hx). lia.
    + intros Hx. destruct (mem x u) eqn:E; [right; now apply mem_In|left; split; [lia|reflexivity]].
Qed.

(** *** X5 *)

(** the tree answers a query with one position for each point asked *)
Definition kd_one_per_point (env : Env) : Prop :=
  forall coords pts indices,
    kd_query env coords pts = Some indices -> List.length indices = List.length pts.

Lemma insert_unique_length (i : nat) (l : list nat) :
  (List.length (insert_unique i l) <= S (List.length l))%nat.
Proof.
  induction l as [|j l IH]; simpl; [lia|].
  destruct (i <? j)%nat; [simpl; lia|].
  destruct (i =? j)%nat; simpl; lia.
Qed.

Lemma np_unique_length (l : list nat) :
  (List.length (np_unique l) <= List.length l)%nat.
Proof.
  induction l as [|i l IH]; simpl; [lia|].
  pose proof (insert_unique_length i (np_unique l)). unfold np_unique in *. lia.
Qed.

Lemma np_unique_full (l : list nat) :
  NoDup l -> List.length (np_unique l) = List.length l.
Proof.
  intros Hnd. apply Permutation_length, NoDup_Permutation.
  - apply np_unique_NoDup.
  - exact Hnd.
  - intros x. apply np_unique_In.
Qed.

(** X5: the truncation of line 72 never drops a row.  The tree answers
    with one position per Latin-hypercube point, so the distinct neighbours
    are never more than [n_sample]; the positions selected are always the
    distinct neighbours, in ascending order, followed by the backfill, which
    holds exactly as many positions as the neighbours fall short of
    [n_sample]; and when the neighbours are all distinct, the selection is
    these neighbours alone and nothing is drawn from the global
    generator. *)
Theorem no_neighbour_dropped (env : Env) (t : tape) (df_valid : DataFrame) (n : Z)
  (final_indices : list nat) (t' : tape) :
  lhs_random_sized env -> kd_one_per_point env ->
  lhs_final_indices env t df_valid n = Ok (final_indices, t') ->
  exists lhs_sample indices supplement_indices,
    lhs_random env n = Some lhs_sample /\
    kd_query env (map (fun r => (X r, Y r)) df_valid)
             (map (to_extent df_valid) lhs_sample) = Some indices /\
    Z.of_nat (List.length (np_unique indices)) <= n /\
    StronglySorted lt (np_unique indices) /\
    final_indices = np_unique indices ++ supplement_indices /\
    Z.of_nat (List.length supplement_indices)
    = n - Z.of_nat (List.length (np_unique indices)) /\
    (NoDup indices -> final_indices = np_unique indices /\ t' = t).
Proof.
  intros Hlhs Hkd H.
  destruct (lhs_final_indices_inv _ _ _ _ _ _ H) as (pts & indices & El & Ek & Ef).
  destruct (Hlhs _ _ El) as [Hn Hpts].
  pose proof (Hkd _ _ _ Ek) as Hlen. rewrite length_map in Hlen.
  pose proof (np_unique_length indices) as Hu.
  exists pts, indices.
  unfold final_indices_of in Ef.
  destruct (Z.ltb_spec (Z.of_nat (List.length (np_unique indices))) n) as [Hlt|Hge].
  - destruct (random_choice _ _ t) as [[supp t'']|] eqn:Ec; simpl in Ef; [|discriminate].
    injection Ef as <- <-.
    apply random_choice_spec in Ec as [_ [_ Hsupp]]; [|apply NoDup_filter, seq_NoDup].
    exists supp.
    split; [assumption|]. split; [assumption|]. split; [lia|].
    split; [apply np_unique_sorted|]. split; [reflexivity|]. split; [lia|].
    intros Hnd. apply np_unique_full in Hnd. lia.
  - injection Ef as <- <-. exists [].
    assert (Hall : slice_to (np_unique indices) n = np_unique indices).
    { unfold slice_to. destruct (Z.ltb_spec n 0); [lia|].
      apply firstn_all2. lia. }
    rewrite Hall, app_nil_r.
    split; [assumption|]. split; [assumption|]. split; [lia|].
    split; [apply np_unique_sorted|]. split; [reflexivity|]. split; [simpl; lia|].
    intros _. split; reflexivity.
Qed.

Lemma ref_kd_one_per_point : kd_one_per_point Ref.env.
Proof.
  intros coords pts indices. simpl. unfold Ref.kd_brute.
  destruct coords; [discriminate|]. intros E; injection E as <-. apply length_map.
Qed.

Lemma no_neighbour_dropped_witness :
  exists supplement_indices,
    [0; 1; 3; 2]%nat = np_unique [0; 3; 3; 1]%nat ++ supplement_indices /\
    Z.of_nat (List.length supplement_indices) = 4 - 3.
Proof.
  destruct (no_neighbour_dropped Ref.env [0%nat] (valid_rows (cfg_of "lhs" None) square) 4
              [0; 1; 3; 2]%nat [] ref_lhs_random_sized ref_kd_one_per_point eq_refl)
    as (pts & indices & supp & El & Ek & _ & _ & Hf & Hlen & _).
  vm_compute in El. injection El as <-.
  vm_compute in Ek. injection Ek as <-.
  exists supp. split; [exact Hf|exact Hlen].
Defined.

(** *** X6 *)

(** X6: a sample count above the number of valid rows (the count derived
    from a ratio above 1 can be one) makes the Latin-hypercube strategy
    fail: the backfill asks [np.random.choice] for more distinct positions
    than are left, and the [ValueError] it raises escapes; no table is
    produced. *)
Theorem oversized_count_breaks_lhs (env : Env) (t : tape) (df_valid : DataFrame) (n : Z)
  (lhs_sample : list (float64 * float64)) (indices : list nat) :
  kd_in_range env ->
  lhs_random env n = Some lhs_sample ->
  kd_query env (map (fun r => (X r, Y r)) df_valid)
           (map (to_extent df_valid) lhs_sample) = Some indices ->
  Z.of_nat (List.length df_valid) < n ->
  sample_lhs env t df_valid n = Raise PopulationTooSmall.
Proof.
  intros Hkd El Ek Hn.
  unfold sample_lhs, lhs_final_indices. rewrite El. simpl. rewrite Ek. simpl.
  apply Hkd in Ek. rewrite length_map in Ek.
  assert (Hr : Forall (fun i => (i < List.length df_valid)%nat) (np_unique indices)).
  { rewrite Forall_forall in Ek |- *. intros x Hx. apply Ek. now apply np_unique_In. }
  pose proof (pool_size _ _ (np_unique_NoDup indices) Hr) as Hpool.
  unfold final_indices_of.
  destruct (Z.ltb_spec (Z.of_nat (List.length (np_unique indices))) n) as [_|Hge]; [|lia].
  unfold random_choice.
  destruct (Z.ltb_spec (n - Z.of_nat (List.length (np_unique indices))) 0); [lia|].
  destruct (Z.ltb_spec
              (Z.of_nat (List.length (filter (fun i => negb (mem i (np_unique indices)))
                                             (seq 0 (List.length df_valid)))))
              (n - Z.of_nat (List.length (np_unique indices)))); [reflexivity|lia].
Qed.

Lemma oversized_count_breaks_lhs_witness :
  sample_lhs Ref.env [] (valid_rows (cfg_of "lhs" None) square) 6 = Raise PopulationTooSmall.
Proof.
  eapply (oversized_count_breaks_lhs Ref.env [] (valid_rows (cfg_of "lhs" None) square) 6).
  - apply ref_kd_in_range.
  - reflexivity.
  - vm_compute. reflexivity.
  - vm_compute. reflexivity.
Defined.

(** *** A complete run of the Latin-hypercube strategy *)

(** the engine and the tree answer the calls of lines 50 and 58 that are
    made for the valid rows [df_valid] and the count [n] *)
Definition lhs_calls_answered (env : Env) (df_valid : DataFrame) (n : Z) : Prop :=
  exists lhs_sample indices,
    lhs_random env n = Some lhs_sample /\
    kd_query env (map (fun r => (X r, Y r)) df_valid)
             (map (to_extent df_valid) lhs_sample) = Some indices.

Lemma sample_lhs_returns (env : Env) (t : tape) (df_valid : DataFrame) (n : Z) :
  kd_in_range env -> lhs_calls_answered env df_valid n ->
  n <= Z.of_nat (List.length df_valid) ->
  exists out t', sample_lhs env t df_valid n = Ok (out, t').
Proof.
  intros Hrange (pts & indices & El & Ek) Hn.
  pose proof (Hrange _ _ _ Ek) as Hin. rewrite length_map in Hin.
  assert (Hr : Forall (fun i => (i < List.length df_valid)%nat) (np_unique indices)).
  { rewrite Forall_forall in Hin |- *. intros x Hx. apply Hin. now apply np_unique_In. }
  pose proof (pool_size _ _ (np_unique_NoDup indices) Hr) as Hpool.
  assert (Hf : exists final t', final_indices_of indices (List.length df_valid) n t
                                = Ok (final, t')).
  { unfold final_indices_of.
    destruct (Z.ltb_spec (Z.of_nat (List.length (np_unique indices))) n); [|now eexists; eexists].
    unfold random_choice.
    destruct (Z.ltb_spec (n - Z.of_nat (List.length (np_unique indices))) 0); [lia|].
    destruct (Z.ltb_spec
                (Z.of_nat (List.length (filter (fun i => negb (mem i (np_unique indices)))
                                               (seq 0 (List.length df_valid)))))
                (n - Z.of_nat (List.length (np_unique indices)))); [lia|].
    simpl. destruct (draw_distinct _ _ t) as [d t'']. now eexists; eexists. }
  destruct Hf as (final & t' & Ef).
  destruct (final_indices_of_spec _ _ _ _ _ _ Ef) as [_ [Hfr _]].
  destruct (iloc_total df_valid final (Hfr Hin)) as [out Hout].
  exists out, t'. unfold sample_lhs, lhs_final_indices.
  rewrite El. simpl. rewrite Ek. simpl. rewrite Ef. simpl. now rewrite Hout.
Qed.

Lemma run_loop_lhs_completes (env : Env) (cfg : config) (dir : directory) (k : Z)
  (files : list string) (t : tape) :
  kd_in_range env ->
  sample_strategy cfg = "lhs" -> sample_num cfg = Some k ->
  Forall (fun f => In f (map fst dir)) files ->
  Forall (fun f => forall df,
              read_csv dir f = Ok df -> valid_rows cfg df <> [] ->
              lhs_calls_answered env (valid_rows cfg df)
                (Z.min k (Z.of_nat (List.length (valid_rows cfg df))))) files ->
  snd (run_loop env cfg dir t files) = None /\
  map fst (written (fst (run_loop env cfg dir t files)))
  = map output_name (filter (has_valid_row cfg dir) files) /\
  warnings (fst (run_loop env cfg dir t files))
  = filter (fun f => negb (has_valid_row cfg dir f)) files.
Proof.
  intros Hrange Hs Hnum Hin Hans. revert t.
  induction Hin as [|f files Hf _ IH]; intros t; simpl; [auto|].
  apply Forall_cons_iff in Hans as [Hansf Hans]. specialize (IH Hans).
  destruct (read_csv_listed _ _ Hf) as [df Edf]. rewrite Edf.
  assert (Hv : has_valid_row cfg dir f = negb (List.length (valid_rows cfg df) =? 0)%nat)
    by (unfold has_valid_row; now rewrite Edf).
  rewrite Hv. specialize (Hansf df Edf). unfold process_snapshot.
  destruct (valid_rows cfg df) as [|r rs] eqn:Ev; simpl.
  - destruct (IH t) as [IH1 [IH2 IH3]].
    destruct (run_loop env cfg dir t files) as [evs' r']; simpl in *.
    rewrite IH2, IH3. auto.
  - unfold n_sample_of. rewrite Hnum. simpl. unfold select. rewrite Hs. simpl.
    destruct (sample_lhs_returns env t (r :: rs)
                (Z.min k (Z.pos (Pos.of_succ_nat (List.length rs)))) Hrange)
      as (out & t' & Eo).
    { apply Hansf. discriminate. }
    { simpl. lia. }
    rewrite Eo. unfold report_extent. rewrite Hs. simpl.
    destruct (extent (r :: rs)) as [[[x0 x1] y0] y1]. simpl.
    destruct (IH t') as [IH1 [IH2 IH3]].
    destruct (run_loop env cfg dir t' files) as [evs' r']; simpl in *.
    rewrite IH2, IH3. auto.
Qed.

(** *** X7 *)

(** X7: with the [lhs] strategy and a fixed count, in a run whose names all
    parse and in which, for every snapshot that has a valid row, the engine
    and the tree answer the two calls made for it (on its own valid rows and
    its own count), the tree giving positions of its points, the invocation
    runs to its end without an exception: every snapshot of the work list is
    read, each one with a valid row gets its table under its output name,
    in order, and each of the others gets its warning. *)
Theorem lhs_fixed_count_completes (env : Env) (t : tape) (dir : directory) (cfg : config)
  (k : Z) (files : list string) :
  kd_in_range env ->
  sample_strategy cfg = "lhs" -> sample_num cfg = Some k ->
  csv_files env dir = Ok files ->
  (forall f df,
      In f files -> read_csv dir f = Ok df -> valid_rows cfg df <> [] ->
      lhs_calls_answered env (valid_rows cfg df)
        (Z.min k (Z.of_nat (List.length (valid_rows cfg df))))) ->
  snd (sample_sparse_data env t dir cfg) = None /\
  reads (fst (sample_sparse_data env t dir cfg)) = files /\
  map fst (written (fst (sample_sparse_data env t dir cfg)))
  = map output_name (filter (has_valid_row cfg dir) files) /\
  warnings (fst (sample_sparse_data env t dir cfg))
  = filter (fun f => negb (has_valid_row cfg dir f)) files.
Proof.
  intros Hrange Hs Hnum Hfiles Hans.
  assert (Hans' : Forall (fun f => forall df,
                     read_csv dir f = Ok df -> valid_rows cfg df <> [] ->
                     lhs_calls_answered env (valid_rows cfg df)
                       (Z.min k (Z.of_nat (List.length (valid_rows cfg df))))) files).
  { apply Forall_forall. intros f Hf df. now apply Hans. }
  destruct (run_loop_lhs_completes env cfg dir k files t Hrange Hs Hnum
              (csv_files_listed _ _ _ Hfiles) Hans') as [Hr [Hw Hwarn]].
  destruct (run_loop_reads env cfg dir files t) as [_ Hall].
  unfold sample_sparse_data. rewrite Hfiles.
  destruct (run_loop env cfg dir t files) as [evs r]; simpl in *.
  repeat split; auto.
Qed.

(** the reference engine and tree answer on every table that is not empty
    and every count that is not negative *)
Lemma ref_lhs_calls_answered (df_valid : DataFrame) (n : Z) :
  df_valid <> [] -> 0 <= n -> lhs_calls_answered Ref.env df_valid n.
Proof.
  intros Hne Hn. unfold lhs_calls_answered. simpl.
  unfold Ref.lhs_diagonal, Ref.kd_brute.
  destruct (Z.ltb_spec n 0); [lia|].
  destruct df_valid as [|r rs]; [congruence|]. simpl. eauto.
Qed.

Lemma lhs_fixed_count_completes_witness :
  snd (sample_sparse_data Ref.env [] three_days (cfg_of "lhs" (Some 3))) = None /\
  map fst (written (fst (sample_sparse_data Ref.env [] three_days (cfg_of "lhs" (Some 3)))))
  = ["稀疏观测_1天.csv"; "稀疏观测_10天.csv"] /\
  warnings (fst (sample_sparse_data Ref.env [] three_days (cfg_of "lhs" (Some 3))))
  = ["全局浓度_2天.csv"].
Proof.
  destruct (lhs_fixed_count_completes Ref.env [] three_days (cfg_of "lhs" (Some 3)) 3
              ["全局浓度_1天.csv"; "全局浓度_2天.csv"; "全局浓度_10天.csv"]
              ref_kd_in_range eq_refl eq_refl eq_refl) as (Hr & _ & Hw & Hwarn).
  - intros f df _ _ Hne. apply ref_lhs_calls_answered; [exact Hne|lia].
  - split; [exact Hr|]. split; [exact Hw|exact Hwarn].
Defined.

(** *** The uniform strategy: as many rows as bins at most *)

(** the labels that are numbers *)
Definition numbered (l : list (option nat)) : list nat :=
  flat_map (fun o => match o with Some b => [b] | None => [] end) l.

Lemma numbered_In (b : nat) (l : list (option nat)) : In b (numbered l) <-> In (Some b) l.
Proof.
  unfold numbered. rewrite in_flat_map. split.
  - intros [[c|] [Hin Hb]]; simpl in Hb; [destruct Hb as [->|[]]; assumption|contradiction].
  - intros Hin. exists (Some b). split; [exact Hin|now left].
Qed.

Lemma numbered_NoDup (l : list (option nat)) : NoDup l -> NoDup (numbered l).
Proof.
  induction 1 as [|o l Ho _ IH]; simpl; [constructor|].
  destruct o as [b|]; simpl; [|exact IH].
  constructor; [|exact IH]. intros Hin. apply Ho. now apply numbered_In.
Qed.

Lemma unique_from_incl (seen l : list (option nat)) : incl (unique_from seen l) l.
Proof.
  revert seen; induction l as [|a l IH]; intros seen x; simpl; [auto|].
  destruct (existsb (label_eqb a) seen).
  - intros Hx. right. eapply IH; eauto.
  - intros [->|Hx]; [now left|]. right. eapply IH; eauto.
Qed.

(** [pd.cut] labels a value with a bin number below [bins], or with NaN *)
Definition cut_labels_below (env : Env) : Prop :=
  forall xs bins labels,
    cut env xs bins = Some labels ->
    Forall (fun l => match l with Some b => Z.of_nat b < bins | None => True end) labels.

Lemma numbered_unique_bounded (labels : list (option nat)) (bins : Z) :
  Forall (fun l => match l with Some b => Z.of_nat b < bins | None => True end) labels ->
  Z.of_nat (List.length (numbered (unique labels))) <= Z.max 0 bins.
Proof.
  intros Hl.
  assert (Hle : (List.length (numbered (unique labels)) <= Z.to_nat bins)%nat).
  { apply distinct_positions_bounded.
    - apply numbered_NoDup, unique_NoDup.
    - apply Forall_forall. intros b Hb. apply numbered_In in Hb.
      apply unique_from_incl in Hb. rewrite Forall_forall in Hl.
      specialize (Hl _ Hb). simpl in Hl. lia. }
  lia.
Qed.

Lemma empty_bin_of_nan_x (tagged : list binned) (yb : option nat) :
  filter (in_bin None yb) tagged = [].
Proof.
  induction tagged as [|b tagged IH]; simpl; [reflexivity|].
  unfold in_bin at 1. now destruct (fst (snd b)).
Qed.

Lemma empty_bin_of_nan_y (tagged : list binned) (xb : option nat) :
  filter (in_bin xb None) tagged = [].
Proof.
  induction tagged as [|b tagged IH]; simpl; [reflexivity|].
  unfold in_bin at 1. destruct (snd (snd b)); now rewrite andb_false_r.
Qed.

Lemma scan_y_one_per_label (n : Z) (tagged : list binned) (xb : option nat)
  (ybs : list (option nat)) (acc : list row) (t : tape) :
  (List.length (fst (scan_y n tagged xb ybs acc t))
   <= List.length acc
      + match xb with Some _ => List.length (numbered ybs) | None => 0 end)%nat.
Proof.
  revert acc t; induction ybs as [|yb ybs IH]; simpl; intros acc t; [lia|].
  pose proof (pick_in_bin_length (filter (in_bin xb yb) tagged) acc t) as [Hp1 Hp0].
  assert (Hadd : (List.length (fst (pick_in_bin (filter (in_bin xb yb) tagged) acc t))
                  <= List.length acc
                     + match xb, yb with Some _, Some _ => 1 | _, _ => 0 end)%nat).
  { destruct xb as [xv|]; [destruct yb as [yv|]|]; [exact Hp1| |].
    - rewrite empty_bin_of_nan_y. simpl. lia.
    - rewrite empty_bin_of_nan_x. simpl. lia. }
  destruct (pick_in_bin _ acc t) as [acc' t']; simpl in Hadd.
  specialize (IH acc' t').
  assert (Hnum : (match xb with Some _ => List.length (numbered (yb :: ybs)) | None => 0 end
                  = match xb, yb with Some _, Some _ => 1 | _, _ => 0 end
                    + match xb with Some _ => List.length (numbered ybs) | None => 0 end)%nat).
  { destruct xb; [|reflexivity]. now destruct yb. }
  unfold numbered in *. simpl flat_map in Hnum. rewrite length_app in *.
  destruct (Z.of_nat (List.length acc') >=? n); simpl; lia.
Qed.

Lemma scan_x_one_per_label (n : Z) (tagged : list binned) (xbs ybs : list (option nat))
  (acc : list row) (t : tape) :
  (List.length (fst (scan_x n tagged xbs ybs acc t))
   <= List.length acc + List.length (numbered xbs) * List.length (numbered ybs))%nat.
Proof.
  revert acc t; induction xbs as [|xb xbs IH]; simpl; intros acc t; [lia|].
  pose proof (scan_y_one_per_label n tagged xb ybs acc t) as Hp.
  destruct (scan_y n tagged xb ybs acc t) as [acc' t']; simpl in Hp.
  specialize (IH acc' t').
  unfold numbered in *. simpl flat_map. rewrite length_app.
  destruct xb as [xv|]; simpl List.length;
    destruct (Z.of_nat (List.length acc') >=? n); simpl; lia.
Qed.

(** *** X8 *)

(** X8: the uniform strategy never returns more rows than the grid of
    lines 81-83 has bins: with [n_bins = int(np.sqrt(n_sample))], the table
    it returns has [n_bins * n_bins] rows at most, so that a count that is
    not a perfect square is never reached. *)
Theorem uniform_rows_within_grid (env : Env) (t : tape) (df_valid : DataFrame) (n : Z)
  (out : DataFrame) (t' : tape) :
  cut_labels_below env ->
  sample_uniform env t df_valid n = Ok (out, t') ->
  exists n_bins,
    int_of_float (fsqrt (float_of_int n)) = Ok n_bins /\
    Z.of_nat (List.length out) <= Z.max 0 n_bins * Z.max 0 n_bins.
Proof.
  intros Hcut H. apply sample_uniform_inv in H
    as (n_bins & x_bin & y_bin & En & Ex & Ey & _ & _ & Hscan & _).
  exists n_bins. split; [exact En|].
  pose proof (scan_x_one_per_label n (combine df_valid (combine x_bin y_bin))
                (unique x_bin) (unique y_bin) [] t) as Hb.
  rewrite Hscan in Hb. simpl in Hb.
  pose proof (numbered_unique_bounded x_bin n_bins (Hcut _ _ _ Ex)) as Hx.
  pose proof (numbered_unique_bounded y_bin n_bins (Hcut _ _ _ Ey)) as Hy.
  nia.
Qed.

(** the reference binning labels within the bins *)
Lemma ref_cut_labels_below : cut_labels_below Ref.env.
Proof.
  intros xs bins labels. simpl. unfold Ref.cut_equal_width.
  destruct (Z.leb_spec bins 0); [discriminate|].
  intros E; injection E as <-.
  apply Forall_forall. intros l Hl. apply in_map_iff in Hl as [x [<- _]].
  destruct x; auto;
    match goal with
    | |- Z.of_nat (List.length (filter ?p ?l)) < _ =>
        pose proof (filter_length_le p l) as Hle;
        rewrite length_map, length_seq in Hle; lia
    end.
Qed.

Lemma uniform_rows_within_grid_witness :
  exists n_bins,
    int_of_float (fsqrt (float_of_int 3)) = Ok n_bins /\
    Z.of_nat (List.length [Ref.mk 0 0 5]) <= Z.max 0 n_bins * Z.max 0 n_bins.
Proof.
  apply (uniform_rows_within_grid Ref.env [] (valid_rows (cfg_of "uniform" (Some 3)) square) 3
           [Ref.mk 0 0 5] [] ref_cut_labels_below).
  vm_compute. reflexivity.
Defined.

(** * Further properties of the field generator *)

Section GeneratedTables.
Import Simulate.

Variable lib : Lib.

(** [np.linspace] returns as many points as asked for *)
Definition linspace_sized : Prop :=
  forall start stop num pts,
    linspace lib start stop num = Some pts -> Z.of_nat (List.length pts) = num.

(** the analytical solution returns an array of the shape of [x], on
    every grid *)
Definition point2_shaped : Prop :=
  forall x_grid y_grid, point2_keeps_shape lib x_grid y_grid.

(** *** The fields and the tables of a call *)

Lemma concentration_at_shape (sc : scenario) (x_grid y_grid : ndarray) (v : float64)
  (t : number) :
  point2_keeps_shape lib x_grid y_grid ->
  exists total_conc,
    concentration_at lib sc x_grid y_grid v t
    = ((if is_zero t then [] else map (evaluation t) (zip3 sc)), Ok total_conc) /\
    shape total_conc = shape x_grid.
Proof.
  intros Hp. unfold concentration_at. destruct (is_zero t).
  - exists (zeros_like x_grid). split; [reflexivity|apply shape_zeros_like].
  - destruct (superpose_spec lib sc x_grid y_grid v t (zip3 sc) (zeros_like x_grid) Hp
                (shape_zeros_like x_grid)) as [total [Hrun [Hs _]]].
    exists total. split; [exact Hrun|exact Hs].
Qed.

(** the field kept for an observation time *)
Definition field_of (sc : scenario) (x_grid y_grid : ndarray) (v : float64)
  (t : number) (f : ndarray) : Prop :=
  snd (concentration_at lib sc x_grid y_grid v t) = Ok f /\ shape f = shape x_grid.

Lemma all_concentrations_spec (sc : scenario) (x_grid y_grid : ndarray) (v : float64)
  (times : list number) :
  point2_keeps_shape lib x_grid y_grid ->
  exists fields,
    all_concentrations lib sc x_grid y_grid v times
    = (flat_map (fun t => if is_zero t then [] else map (evaluation t) (zip3 sc)) times,
       Ok fields) /\
    Forall2 (field_of sc x_grid y_grid v) times fields.
Proof.
  intros Hp. induction times as [|t times [fields [Hall Hf]]]; simpl.
  - exists []. split; [reflexivity|constructor].
  - destruct (concentration_at_shape sc x_grid y_grid v t Hp) as [f [Hc Hs]].
    rewrite Hc, Hall. simpl. exists (f :: fields). split; [reflexivity|].
    constructor; [|exact Hf]. split; [now rewrite Hc|exact Hs].
Qed.

Lemma save_all_inv (x_grid y_grid : ndarray) (times : list number) (fields : list ndarray)
  (t : number) (table : list (float64 * float64 * float64)) :
  In (WriteCsv t table) (save_all x_grid y_grid times fields) ->
  exists k f, nth_error times k = Some t /\ nth_error fields k = Some f /\
              table = table_of x_grid y_grid f.
Proof.
  revert fields; induction times as [|t0 times IH]; intros [|f0 fields]; simpl;
    try contradiction.
  intros [E|[E|Hin]]; [|discriminate|].
  - injection E as <- <-. now exists 0%nat, f0.
  - destruct (IH _ Hin) as (k & f & Ht & Hf & Htab). now exists (S k), f.
Qed.

Lemma Forall2_nth_error {A B : Type} (R : A -> B -> Prop) (l : list A) (m : list B)
  (k : nat) (a : A) (b : B) :
  Forall2 R l m -> nth_error l k = Some a -> nth_error m k = Some b -> R a b.
Proof.
  intros H. revert k. induction H as [|a0 b0 l m H0 _ IH]; intros [|k] Ha Hb; simpl in *;
    try discriminate; [congruence|eauto].
Qed.

(** what stands behind a table in the trace of a call: a call that passed
    the validation, a velocity, two axes, and the field of that time *)
Lemma written_table_inv (sc : scenario) (t : number)
  (table : list (float64 * float64 * float64)) :
  point2_shaped ->
  In (WriteCsv t table) (fst (create_contamination_scenario lib sc)) ->
  exists x_grid_arr y_grid_arr f,
    List.length (c0_list sc) = List.length (sources sc) /\
    List.length (Qa_list sc) = List.length (sources sc) /\
    feq (θ sc) fzero = false /\
    linspace lib (fst (x_range sc)) (snd (x_range sc)) (grid_num sc) = Some x_grid_arr /\
    linspace lib (fst (y_range sc)) (snd (y_range sc)) (grid_num sc) = Some y_grid_arr /\
    In t (obs_times sc) /\
    field_of sc (fst (meshgrid x_grid_arr y_grid_arr)) (snd (meshgrid x_grid_arr y_grid_arr))
             (fdiv (Kαα sc) (θ sc)) t f /\
    table = table_of (fst (meshgrid x_grid_arr y_grid_arr))
                     (snd (meshgrid x_grid_arr y_grid_arr)) f.
Proof.
  intros Hp. unfold create_contamination_scenario.
  destruct (Nat.eqb_spec (List.length (c0_list sc)) (List.length (sources sc))) as [Hc|];
    [|intros []].
  destruct (Nat.eqb_spec (List.length (Qa_list sc)) (List.length (sources sc))) as [Hq|];
    [|intros []].
  cbn [negb]. unfold py_div.
  destruct (feq (θ sc) fzero) eqn:Eθ; [simpl; intuition discriminate|].
  destruct (linspace lib (fst (x_range sc)) _ _) as [xs|];
    [|simpl; intuition discriminate].
  destruct (linspace lib (fst (y_range sc)) _ _) as [ys|];
    [|simpl; intuition discriminate].
  destruct (meshgrid xs ys) as [x_grid y_grid] eqn:Em.
  destruct (all_concentrations_spec sc x_grid y_grid (fdiv (Kαα sc) (θ sc)) (obs_times sc)
              (Hp _ _)) as [fields [Hall Hf]].
  rewrite Hall. set (evs := flat_map _ _).
  assert (Hevs : ~ In (WriteCsv t table) evs).
  { unfold evs. rewrite in_flat_map. intros [t0 [_ Hin]].
    destruct (is_zero t0); [contradiction|].
    apply in_map_iff in Hin as [[[[xc yc] c0] qa] [E _]]. discriminate. }
  assert (Hsave : In (WriteCsv t table) (save_all x_grid y_grid (obs_times sc) fields) ->
                  exists f, In t (obs_times sc) /\
                            field_of sc x_grid y_grid (fdiv (Kαα sc) (θ sc)) t f /\
                            table = table_of x_grid y_grid f).
  { intros Hin. apply save_all_inv in Hin as (k & f & Ht & Hk & Htab).
    exists f. split; [eapply nth_error_In; eauto|]. split; [|exact Htab].
    eapply Forall2_nth_error; eauto. }
  assert (Hdone : In (WriteCsv t table) (save_all x_grid y_grid (obs_times sc) fields) ->
                  exists x_grid_arr y_grid_arr f,
                    List.length (c0_list sc) = List.length (sources sc) /\
                    List.length (Qa_list sc) = List.length (sources sc) /\
                    false = false /\
                    Some xs = Some x_grid_arr /\ Some ys = Some y_grid_arr /\
                    In t (obs_times sc) /\
                    field_of sc (fst (meshgrid x_grid_arr y_grid_arr))
                             (snd (meshgrid x_grid_arr y_grid_arr))
                             (fdiv (Kαα sc) (θ sc)) t f /\
                    table = table_of (fst (meshgrid x_grid_arr y_grid_arr))
                                     (snd (meshgrid x_grid_arr y_grid_arr)) f).
  { intros Hin. destruct (Hsave Hin) as (f & Ht & Hfo & Htab).
    exists xs, ys, f. rewrite Em. simpl. repeat split; auto; apply Hfo. }
  destruct (max_defined fields); simpl; intros Hin.
  - repeat (destruct Hin as [E|Hin]; [discriminate|]).
    apply in_app_or in Hin as [Hin|Hin]; [contradiction|].
    apply in_app_or in Hin as [Hin|Hin]; [auto|].
    destruct Hin as [E|[]]. discriminate.
  - repeat (destruct Hin as [E|Hin]; [discriminate|]). contradiction.
Qed.

(** *** Arrays and their flattening *)

Lemma length_concat_shape (a : ndarray) : List.length (List.concat a) = list_sum (shape a).
Proof.
  induction a as [|r a IH]; simpl; [reflexivity|]. now rewrite length_app, IH.
Qed.

Lemma list_sum_constant {A : Type} (c : nat) (l : list A) :
  list_sum (map (fun _ => c) l) = (List.length l * c)%nat.
Proof. induction l as [|a l IH]; simpl; [reflexivity|now rewrite IH]. Qed.

Lemma meshgrid_shape (xs ys : list float64) :
  shape (fst (meshgrid xs ys)) = map (fun _ => List.length xs) ys /\
  shape (snd (meshgrid xs ys)) = map (fun _ => List.length xs) ys.
Proof.
  unfold meshgrid, shape. simpl. rewrite !map_map. split; [reflexivity|].
  apply map_ext. intros y. apply length_map.
Qed.

Lemma length_zip_with {A B D : Type} (g : A -> B -> D) (l : list A) (m : list B) :
  List.length (zip_with g l m) = Nat.min (List.length l) (List.length m).
Proof.
  revert m; induction l as [|a l IH]; intros [|b m]; simpl; auto.
Qed.

Lemma table_of_length (xs ys : list float64) (f : ndarray) :
  shape f = shape (fst (meshgrid xs ys)) ->
  List.length (table_of (fst (meshgrid xs ys)) (snd (meshgrid xs ys)) f)
  = (List.length ys * List.length xs)%nat.
Proof.
  intros Hf. destruct (meshgrid_shape xs ys) as [Hx Hy].
  unfold table_of. rewrite length_zip_with, length_combine, !length_concat_shape.
  rewrite Hf, Hx, Hy, list_sum_constant. lia.
Qed.

(** *** X9 *)

(** X9: every table that a call writes has [grid_num * grid_num] rows, one
    for each point of the grid. *)
Theorem tables_cover_the_grid (sc : scenario) (t : number)
  (table : list (float64 * float64 * float64)) :
  point2_shaped -> linspace_sized ->
  In (WriteCsv t table) (fst (create_contamination_scenario lib sc)) ->
  Z.of_nat (List.length table) = grid_num sc * grid_num sc.
Proof.
  intros Hp Hl Hin.
  destruct (written_table_inv sc t table Hp Hin)
    as (xs & ys & f & _ & _ & _ & Hxs & Hys & _ & [_ Hshape] & ->).
  rewrite table_of_length by exact Hshape.
  apply Hl in Hxs. apply Hl in Hys. lia.
Qed.

(** *** The rows of a table *)

Lemma nth_error_zip_with {A B D : Type} (g : A -> B -> D) (l : list A) (m : list B)
  (k : nat) (a : A) (b : B) :
  nth_error l k = Some a -> nth_error m k = Some b ->
  nth_error (zip_with g l m) k = Some (g a b).
Proof.
  revert m k; induction l as [|a0 l IH]; intros [|b0 m] [|k] Ha Hb; simpl in *;
    try discriminate; [congruence|auto].
Qed.

Lemma nth_error_combine {A B : Type} (l : list A) (m : list B) (k : nat) (a : A) (b : B) :
  nth_error l k = Some a -> nth_error m k = Some b ->
  nth_error (combine l m) k = Some (a, b).
Proof.
  revert m k; induction l as [|a0 l IH]; intros [|b0 m] [|k] Ha Hb; simpl in *;
    try discriminate; [congruence|auto].
Qed.

(** flattening an array whose rows all have [c] entries puts entry
    [(i, j)] at position [i * c + j] *)
Lemma nth_error_concat_rect {A : Type} (a : list (list A)) (c i j : nat) (r : list A) :
  Forall (fun r => List.length r = c) a ->
  nth_error a i = Some r -> (j < c)%nat ->
  nth_error (List.concat a) (i * c + j) = nth_error r j.
Proof.
  intros Ha. revert i. induction Ha as [|r0 a Hr0 _ IH]; intros [|i] Hi Hj; simpl in *;
    try discriminate.
  - injection Hi as ->. apply nth_error_app1. lia.
  - rewrite nth_error_app2 by lia.
    replace (c + i * c + j - List.length r0)%nat with (i * c + j)%nat by lia. auto.
Qed.

Lemma rows_of_shape (f : ndarray) (c : nat) (ys : list float64) :
  shape f = map (fun _ => c) ys ->
  Forall (fun r => List.length r = c) f /\ List.length f = List.length ys.
Proof.
  unfold shape. revert ys; induction f as [|r f IH]; intros [|y ys] H; simpl in *;
    try discriminate; [split; constructor|].
  injection H as Hr Hf. destruct (IH _ Hf) as [Hall Hlen]. split; [constructor; auto|lia].
Qed.

Lemma table_of_row (xs ys : list float64) (f : ndarray) (i j : nat) :
  shape f = shape (fst (meshgrid xs ys)) ->
  (i < List.length ys)%nat -> (j < List.length xs)%nat ->
  nth_error (table_of (fst (meshgrid xs ys)) (snd (meshgrid xs ys)) f)
            (i * List.length xs + j)
  = Some (nth j xs fzero, nth i ys fzero, entry f i j).
Proof.
  intros Hf Hi Hj. destruct (meshgrid_shape xs ys) as [Hx Hy].
  rewrite Hx in Hf.
  destruct (rows_of_shape _ _ _ Hx) as [Hxr _].
  destruct (rows_of_shape _ _ _ Hy) as [Hyr _].
  destruct (rows_of_shape _ _ _ Hf) as [Hfr Hfl].
  unfold table_of.
  apply (nth_error_zip_with (fun xy c => (fst xy, snd xy, c)) _ _ _
           (nth j xs fzero, nth i ys fzero) (entry f i j)).
  - apply nth_error_combine.
    + rewrite (nth_error_concat_rect _ _ i j xs Hxr); [now apply nth_error_nth'| |exact Hj].
      unfold meshgrid. simpl.
      apply (map_nth_error (fun _ => xs) i ys (nth_error_nth' ys fzero Hi)).
    + rewrite (nth_error_concat_rect _ _ i j (map (fun _ => nth i ys fzero) xs) Hyr);
        [| |exact Hj].
      * apply (map_nth_error (fun _ => nth i ys fzero) j xs (nth_error_nth' xs fzero Hj)).
      * unfold meshgrid. simpl.
        apply (map_nth_error (fun y => map (fun _ => y) xs) i ys (nth_error_nth' ys fzero Hi)).
  - assert (Hif : (i < List.length f)%nat) by lia.
    rewrite (nth_error_concat_rect _ _ i j (nth i f []) Hfr); [| |exact Hj].
    + unfold entry. apply nth_error_nth'.
      rewrite Forall_forall in Hfr. rewrite (Hfr (nth i f [])); [exact Hj|].
      now apply nth_In.
    + now apply nth_error_nth'.
Qed.

(** *** X10 *)

(** X10: a table written for an observation time lists the grid row by
    row: the row at position [i * n + j] holds the [j]-th abscissa, the
    [i]-th ordinate and the value of the field of that time at [(i, j)];
    that value is [0] when the time is zero and, when it is positive, the
    sum over the sources of the analytical solution evaluated with the
    velocity [Kαα / θ] and the parameters of each source. *)
Theorem table_rows_follow_the_grid (sc : scenario) (t : number)
  (table : list (float64 * float64 * float64)) :
  point2_shaped ->
  In (WriteCsv t table) (fst (create_contamination_scenario lib sc)) ->
  exists x_grid_arr y_grid_arr f,
    linspace lib (fst (x_range sc)) (snd (x_range sc)) (grid_num sc) = Some x_grid_arr /\
    linspace lib (fst (y_range sc)) (snd (y_range sc)) (grid_num sc) = Some y_grid_arr /\
    forall i j,
      (i < List.length y_grid_arr)%nat -> (j < List.length x_grid_arr)%nat ->
      nth_error table (i * List.length x_grid_arr + j)
      = Some (nth j x_grid_arr fzero, nth i y_grid_arr fzero, entry f i j) /\
      (is_zero t = true -> entry f i j = fzero) /\
      (is_positive t = true ->
       entry f i j
       = superposition lib sc (fst (meshgrid x_grid_arr y_grid_arr))
                       (snd (meshgrid x_grid_arr y_grid_arr))
                       (fdiv (Kαα sc) (θ sc)) t i j).
Proof.
  intros Hp Hin.
  destruct (written_table_inv sc t table Hp Hin)
    as (xs & ys & f & Hc & Hq & _ & Hxs & Hys & _ & [Hf Hshape] & ->).
  exists xs, ys, f. split; [exact Hxs|]. split; [exact Hys|].
  intros i j Hi Hj. split; [now apply table_of_row|]. split.
  - intros Hz. unfold concentration_at in Hf. rewrite Hz in Hf.
    injection Hf as <-. apply entry_zeros_like.
  - intros Hpos. unfold concentration_at in Hf.
    rewrite (positive_not_zero t Hpos), (zip3_sources sc Hc Hq) in Hf.
    destruct (superpose_spec lib sc (fst (meshgrid xs ys)) (snd (meshgrid xs ys))
                (fdiv (Kαα sc) (θ sc)) t
                (map (source sc) (seq 0 (List.length (sources sc))))
                (zeros_like (fst (meshgrid xs ys))) (Hp _ _) (shape_zeros_like _))
      as [total [Hrun [_ Hentry]]].
    rewrite Hrun in Hf. injection Hf as <-.
    rewrite Hentry, map_map, entry_zeros_like. reflexivity.
Qed.

(** *** The evaluations of a call *)

Definition is_evaluation (e : event) : bool :=
  match e with
  | Evaluate _ _ _ _ _ => true
  | _ => false
  end.

Lemma superpose_events (sc : scenario) (x_grid y_grid : ndarray) (v : float64) (t : number)
  (srcs : list (float64 * float64 * float64 * float64)) (total : ndarray) :
  Forall (fun e => is_evaluation e = true)
         (fst (superpose lib sc x_grid y_grid v t srcs total)).
Proof.
  revert total; induction srcs as [|[[[xc yc] c0] qa] srcs IH]; intros total; simpl;
    [constructor|].
  destruct (iadd _ _) as [total'|e]; [|repeat constructor].
  specialize (IH total'). destruct (superpose _ _ _ _ _ _ _ total') as [evs r].
  constructor; [reflexivity|exact IH].
Qed.

Lemma all_concentrations_events (sc : scenario) (x_grid y_grid : ndarray) (v : float64)
  (times : list number) :
  Forall (fun e => is_evaluation e = true)
         (fst (all_concentrations lib sc x_grid y_grid v times)).
Proof.
  induction times as [|t times IH]; simpl; [constructor|].
  assert (Ht : Forall (fun e => is_evaluation e = true)
                      (fst (concentration_at lib sc x_grid y_grid v t))).
  { unfold concentration_at. destruct (is_zero t); [constructor|apply superpose_events]. }
  destruct (concentration_at lib sc x_grid y_grid v t) as [evs [f|e]]; [|exact Ht].
  destruct (all_concentrations lib sc x_grid y_grid v times) as [evs' r]; simpl in *.
  apply Forall_app. auto.
Qed.

Lemma save_all_no_evaluation (x_grid y_grid : ndarray) (times : list number)
  (fields : list ndarray) :
  Forall (fun e => is_evaluation e = false) (save_all x_grid y_grid times fields).
Proof.
  revert fields; induction times as [|t times IH]; intros [|f fields]; simpl;
    repeat constructor. apply IH.
Qed.

(** *** X11 *)


(** *** X12 *)

(** The evaluations of a call that runs to its end: for each observation
    time other than zero, in the order of the times, one per source in the
    order of the sources, with that source's position, concentration and
    injection rate. *)
Definition evaluations_due (sc : scenario) : list event :=
  flat_map (fun t => if is_zero t then []
                     else map (fun k => evaluation t (source sc k))
                              (seq 0 (List.length (sources sc))))
           (obs_times sc).

Lemma superpose_calls (sc : scenario) (x_grid y_grid : ndarray) (v : float64) (t : number)
  (srcs : list (float64 * float64 * float64 * float64)) (total : ndarray) :
  exists rest,
    map (evaluation t) srcs = fst (superpose lib sc x_grid y_grid v t srcs total) ++ rest /\
    (forall f, snd (superpose lib sc x_grid y_grid v t srcs total) = Ok f -> rest = []).
Proof.
  revert total; induction srcs as [|[[[xc yc] c0] qa] srcs IH]; intros total; simpl.
  - exists []. auto.
  - destruct (iadd _ _) as [total'|e].
    + destruct (IH total') as [rest [Hpre Hall]].
      destruct (superpose _ _ _ _ _ _ _ total') as [evs r]; simpl in *.
      exists rest. rewrite Hpre. auto.
    + exists (map (evaluation t) srcs). simpl. split; [reflexivity|discriminate].
Qed.

Lemma all_concentrations_calls (sc : scenario) (x_grid y_grid : ndarray) (v : float64)
  (times : list number) :
  exists rest,
    flat_map (fun t => if is_zero t then [] else map (evaluation t) (zip3 sc)) times
    = fst (all_concentrations lib sc x_grid y_grid v times) ++ rest /\
    (forall fields, snd (all_concentrations lib sc x_grid y_grid v times) = Ok fields ->
                    rest = []).
Proof.
  induction times as [|t times [rest [Hpre Hall]]]; simpl.
  - exists []. auto.
  - assert (Ht : exists rest_t,
               (if is_zero t then [] else map (evaluation t) (zip3 sc))
               = fst (concentration_at lib sc x_grid y_grid v t) ++ rest_t /\
               (forall f, snd (concentration_at lib sc x_grid y_grid v t) = Ok f ->
                          rest_t = [])).
    { unfold concentration_at. destruct (is_zero t); [exists []; auto|].
      apply superpose_calls. }
    destruct Ht as [rest_t [Hpre_t Hall_t]].
    destruct (concentration_at lib sc x_grid y_grid v t) as [evs [f|e]]; simpl in *.
    + rewrite (Hall_t f eq_refl), app_nil_r in Hpre_t.
      destruct (all_concentrations lib sc x_grid y_grid v times) as [evs' r]; simpl in *.
      exists rest. rewrite Hpre_t, Hpre, app_assoc. split; [reflexivity|].
      intros fields Hr. destruct r as [cs|e]; [|discriminate]. now apply (Hall cs).
    + exists (rest_t ++ flat_map (fun t => if is_zero t then []
                                           else map (evaluation t) (zip3 sc)) times).
      rewrite Hpre_t, app_assoc. split; [reflexivity|discriminate].
Qed.

Lemma filter_all {A : Type} (p : A -> bool) (l : list A) :
  Forall (fun a => p a = true) l -> filter p l = l.
Proof. induction 1 as [|a l Ha _ IH]; simpl; [reflexivity|]. now rewrite Ha, IH. Qed.

Lemma filter_none {A : Type} (p : A -> bool) (l : list A) :
  Forall (fun a => p a = false) l -> filter p l = [].
Proof. induction 1 as [|a l Ha _ IH]; simpl; [reflexivity|]. now rewrite Ha. Qed.

(** X12: the evaluations of the analytical solution that a call makes are,
    in order, an initial segment of this sequence: for each observation
    time other than zero, in the order of the times, one evaluation per
    source in the order of the sources, with that source's position,
    concentration and injection rate; none is made for a time equal to
    zero; and a call that returns without an exception has made the whole
    sequence. *)
Theorem evaluations_per_time_and_source (sc : scenario) :
  (exists rest,
      evaluations_due sc
      = filter is_evaluation (fst (create_contamination_scenario lib sc)) ++ rest) /\
  (snd (create_contamination_scenario lib sc) = None ->
   filter is_evaluation (fst (create_contamination_scenario lib sc)) = evaluations_due sc).
Proof.
  assert (Hnothing : forall e : exn,
             (exists rest, evaluations_due sc = filter is_evaluation [] ++ rest) /\
             (@Some exn e = None -> filter is_evaluation [] = evaluations_due sc)).
  { intros e. split; [now exists (evaluations_due sc)|discriminate]. }
  unfold create_contamination_scenario.
  destruct (Nat.eqb_spec (List.length (c0_list sc)) (List.length (sources sc))) as [Hc|];
    [|apply Hnothing].
  destruct (Nat.eqb_spec (List.length (Qa_list sc)) (List.length (sources sc))) as [Hq|];
    [|apply Hnothing].
  cbn [negb].
  set (setup := [MakeDirs CSV_DIR; MakeDirs PLOT_DIR; OpenParamLog]).
  assert (Hsetup : forall e : exn,
             (exists rest, evaluations_due sc = filter is_evaluation setup ++ rest) /\
             (@Some exn e = None -> filter is_evaluation setup = evaluations_due sc)).
  { intros e. split; [now exists (evaluations_due sc)|discriminate]. }
  destruct (py_div _ _) as [v|e]; [|apply Hsetup].
  destruct (linspace lib (fst (x_range sc)) _ _) as [xs|]; [|apply Hsetup].
  destruct (linspace lib (fst (y_range sc)) _ _) as [ys|]; [|apply Hsetup].
  destruct (meshgrid xs ys) as [x_grid y_grid].
  assert (Hdue : evaluations_due sc
                 = flat_map (fun t => if is_zero t then []
                                      else map (evaluation t) (zip3 sc)) (obs_times sc)).
  { unfold evaluations_due. rewrite (zip3_sources sc Hc Hq).
    apply flat_map_ext. intros t. destruct (is_zero t); [reflexivity|].
    now rewrite map_map. }
  destruct (all_concentrations_calls sc x_grid y_grid v (obs_times sc)) as [rest [Hpre Hall]].
  pose proof (all_concentrations_events sc x_grid y_grid v (obs_times sc)) as Hevs.
  apply filter_all in Hevs.
  pose proof (fun fields => filter_none _ _
                (save_all_no_evaluation x_grid y_grid (obs_times sc) fields)) as Hsave.
  destruct (all_concentrations lib sc x_grid y_grid v (obs_times sc)) as [evs [fields|e]];
    simpl in Hpre, Hall, Hevs.
  - rewrite (Hall fields eq_refl), app_nil_r in Hpre.
    destruct (max_defined fields); cbn [fst snd].
    + rewrite !filter_app, Hevs, Hsave. cbn [filter is_evaluation app].
      rewrite app_nil_r, Hdue, Hpre. split; [now exists []; rewrite app_nil_r|reflexivity].
    + rewrite filter_app, Hevs. cbn [filter is_evaluation app].
      rewrite Hdue, Hpre. split; [now exists []; rewrite app_nil_r|reflexivity].
  - cbn [fst snd]. rewrite filter_app, Hevs. cbn [filter is_evaluation app].
    rewrite Hdue, Hpre. split; [now exists rest|discriminate].
Qed.

End GeneratedTables.

Lemma demo_point2_shaped : point2_shaped Demo.lib.
Proof. intros x_grid y_grid. apply demo_point2_keeps_shape. Qed.

Lemma demo_linspace_sized : linspace_sized Demo.lib.
Proof.
  intros start stop num pts. simpl. unfold Demo.linspace_even.
  destruct (Z.ltb_spec num 0); [discriminate|].
  intros E; injection E as <-. rewrite length_map, length_seq. lia.
Qed.

Lemma demo_first_table :
  exists table,
    In (Simulate.WriteCsv (Simulate.Int 0) table)
       (fst (Simulate.create_contamination_scenario Demo.lib Demo.two_sources)).
Proof.
  eexists. vm_compute. do 7 right. left. reflexivity.
Defined.

Lemma tables_cover_the_grid_witness :
  exists table,
    In (Simulate.WriteCsv (Simulate.Int 0) table)
       (fst (Simulate.create_contamination_scenario Demo.lib Demo.two_sources)) /\
    Z.of_nat (List.length table) = 3 * 3.
Proof.
  destruct demo_first_table as [table Hin]. exists table. split; [exact Hin|].
  exact (tables_cover_the_grid Demo.lib Demo.two_sources (Simulate.Int 0) table
           demo_point2_shaped demo_linspace_sized Hin).
Defined.

Lemma table_rows_follow_the_grid_witness :
  exists table x_grid_arr y_grid_arr f,
    In (Simulate.WriteCsv (Simulate.Int 0) table)
       (fst (Simulate.create_contamination_scenario Demo.lib Demo.two_sources)) /\
    nth_error table (1 * List.length x_grid_arr + 2)
    = Some (nth 2 x_grid_arr fzero, nth 1 y_grid_arr fzero, Simulate.entry f 1 2) /\
    Simulate.entry f 1 2 = fzero.
Proof.
  destruct demo_first_table as [table Hin].
  destruct (table_rows_follow_the_grid Demo.lib Demo.two_sources (Simulate.Int 0) table
              demo_point2_shaped Hin) as (xs & ys & f & Hxs & Hys & Hrows).
  exists table, xs, ys, f. split; [exact Hin|].
  vm_compute in Hxs. injection Hxs as <-. vm_compute in Hys. injection Hys as <-.
  destruct (Hrows 1%nat 2%nat) as (Hrow & Hzero & _); [simpl; lia|simpl; lia|].
  split; [exact Hrow|exact (Hzero eq_refl)].
Defined.

Lemma evaluations_per_time_and_source_witness :
  filter is_evaluation
    (fst (Simulate.create_contamination_scenario Demo.lib Demo.two_sources))
  = evaluations_due Demo.two_sources /\
  List.length (evaluations_due Demo.two_sources) = 4%nat.
Proof.
  split; [|reflexivity].
  apply (proj2 (evaluations_per_time_and_source Demo.lib Demo.two_sources)).
  vm_compute. reflexivity.
Defined.

(** * The single-source scenarios, simulation.py *)

Module Batch.
Import Py.

Definition ndarray : Type := Simulate.ndarray.

(** A Python [dict] from [str] to [str], in insertion order. *)
Definition pydict : Type := list (string * string).

(** [d.get(k, default)] *)
Fixpoint get (d : pydict) (k default : string) : string :=
  match d with
  | [] => default
  | (k', v) :: d' => if String.eqb k' k then v else get d' k default
  end.

(** [d[k] = v] on a dict of any values: the value of an existing key is
    replaced where it stands, a new key goes last *)
Fixpoint set_item {V : Type} (d : list (string * V)) (k : string) (v : V) : list (string * V) :=
  match d with
  | [] => [(k, v)]
  | (k', v') :: d' => if String.eqb k' k then (k, v) :: d' else (k', v') :: set_item d' k v
  end.

(** What the libraries compute for the script.  A raised exception is the
    text that [str(e)] gives for it; [Some msg] is a call that raises.
    - [point2 c0 X Y t v n al ah Q xc yc Dm lamb R] is the call of lines
      47-51 and 253-257, [Dm] being [None] where the keyword is not given;
    - [open_figure] stands for the calls that create a figure (lines 38-39
      and 235-236), [add_subplot i] for line 44;
    - [draw_panel X Y C] stands for the matplotlib calls on one subplot
      (lines 54-70), [draw_comparison x y C] for those of lines 259-270;
    - [finish_figure] stands for the calls between the loop and
      [datetime.now()] (lines 72-82 and 272-276), [savefig name] for
      [plt.savefig] and [plt.close];
    - [strftime fmt now] is [now.strftime(fmt)];
    - [str_float] is the text of a float in an f-string. *)
Record Env : Type := {
  linspace : float64 -> float64 -> Z -> list float64;
  point2 : float64 -> ndarray -> ndarray -> Z ->
           float64 -> float64 -> float64 -> float64 -> float64 -> float64 -> float64 ->
           option float64 -> float64 -> float64 -> string + ndarray;
  open_figure : option string;
  add_subplot : nat -> option string;
  draw_panel : ndarray -> ndarray -> ndarray -> option string;
  draw_comparison : list float64 -> list float64 -> ndarray -> option string;
  finish_figure : option string;
  savefig : string -> option string;
  strftime : string -> Z -> string;
  str_float : float64 -> string
}.

(** the successive values of [datetime.now()] *)
Definition clock : Type := list Z.

Inductive event : Type :=
| Print (line : string)
| Evaluate (t : Z) (v n al ah : float64) (Dm : option float64) (lamb R : float64)
| SaveFig (filename : string)
| WriteReport (path : string) (lines : list string).

Definition output_dir : string := "single_source_scenarios".

(** [os.path.join] of two relative parts *)
Definition path_join (dir name : string) : string := (dir ++ "/" ++ name)%string.

(** An instance of a subclass of [SingleSourceConfig]; an attribute that
    the class does not set is [None]. *)
Record Config : Type := {
  X : ndarray;
  Y : ndarray;
  c0 : float64;
  Q : float64;
  xc : float64;
  yc : float64;
  v : float64;
  n : float64;
  al : float64;
  ah : float64;
  lamb : option float64;
  R : option float64;
  Dm : option float64
}.

(** [getattr(config, name, default)] *)
Definition getattr (a : option float64) (default : float64) : float64 :=
  match a with
  | Some x => x
  | None => default
  end.

Definition f (num den : Z) : float64 := fdiv (float_of_int num) (float_of_int den).

(** lines 24-33 and the [__init__] of a subclass *)
Definition make_config (env : Env) (v n al ah : float64) (lamb R : option float64) : Config :=
  let x := linspace env (float_of_int (-10)) (float_of_int 100) 200 in
  let y := linspace env (float_of_int (-20)) (float_of_int 20) 150 in
  {| X := fst (Simulate.meshgrid x y);
     Y := snd (Simulate.meshgrid x y);
     c0 := float_of_int 1000;
     Q := f 5 10;
     xc := float_of_int 0;
     yc := float_of_int 0;
     v := v; n := n; al := al; ah := ah;
     lamb := lamb; R := R; Dm := None |}.

(** lines 43-70: the subplots, one for each time; [i] is the index that
    [enumerate] gives to the first of [times] *)
Fixpoint panels (env : Env) (config : Config) (i : nat) (times : list Z)
  : list event * option string :=
  match times with
  | [] => ([], None)
  | t :: times' =>
      match add_subplot env i with
      | Some msg => ([], Some msg)
      | None =>
          let Dm := getattr (Dm config) fzero in
          let lamb := getattr (lamb config) fzero in
          let R := getattr (R config) (float_of_int 1) in
          let ev := Evaluate t (v config) (n config) (al config) (ah config)
                             (Some Dm) lamb R in
          match point2 env (c0 config) (X config) (Y config) t (v config) (n config)
                       (al config) (ah config) (Q config) (xc config) (yc config)
                       (Some Dm) lamb R with
          | inl msg => ([ev], Some msg)
          | inr C =>
              match draw_panel env (X config) (Y config) C with
              | Some msg => ([ev], Some msg)
              | None =>
                  let '(evs, r) := panels env config (S i) times' in
                  (ev :: evs, r)
              end
          end
      end
  end.

(** lines 36-90: the events, the clock left, and the file name or the
    exception *)
Definition create_scenario_plot (env : Env) (now : clock) (config : Config)
  (scenario_name params_description : string) : list event * clock * (string + string) :=
  match open_figure env with
  | Some msg => ([], now, inl msg)
  | None =>
      match panels env config 0 [30; 90; 180; 365] with
      | (evs, Some msg) => (evs, now, inl msg)
      | (evs, None) =>
          match finish_figure env with
          | Some msg => (evs, now, inl msg)
          | None =>
              let timestamp := strftime env "%Y%m%d_%H%M%S" (hd 0 now) in
              let filename :=
                path_join output_dir
                  (replace scenario_name " " "_" ++ "_" ++ timestamp ++ ".png")%string in
              match savefig env filename with
              | Some msg => (evs, tl now, inl msg)
              | None => (evs ++ [SaveFig filename], tl now, inr filename)
              end
          end
      end
  end.

(** What the five scenario functions differ in. *)
Record scenario : Type := {
  banner : string;
  config_of : Env -> Config;
  scenario_name : string;
  params_description : string;
  use_case : string;
  main_params : Env -> Config -> string
}.

(** lines 93-227: the body that the five functions share *)
Definition run_scenario (s : scenario) (env : Env) (now : clock)
  : list event * clock * (string + pydict) :=
  let config := config_of s env in
  let '(evs, now', r) :=
    create_scenario_plot env now config (scenario_name s) (params_description s) in
  match r with
  | inl msg => (Print (banner s) :: evs, now', inl msg)
  | inr filename =>
      (Print (banner s) :: evs, now',
       inr [("场景名称", scenario_name s);
            ("污染源类型", "连续点源");
            ("适用情况", use_case s);
            ("主要参数", main_params s env config);
            ("输出文件", filename)])
  end.

Definition base_params (env : Env) (c : Config) (v_note al_note ah_note : string) : string :=
  ("v=" ++ str_float env (v c) ++ " m/d" ++ v_note
   ++ ", αL=" ++ str_float env (al c) ++ " m" ++ al_note
   ++ ", αT=" ++ str_float env (ah c) ++ " m" ++ ah_note)%string.

Definition scenario_standard_industrial : scenario := {|
  banner := "运行场景1：标准工业点源泄漏...";
  config_of := fun env => make_config env (f 1 10) (f 25 100) (f 2 1) (f 5 10) None None;
  scenario_name := "场景1：标准工业点源泄漏";
  params_description := "中等流速、典型弥散度 - 一般工业废水泄漏场景";
  use_case := "典型工业废水泄漏、一般含水层条件";
  main_params := fun env c => base_params env c "" "" ""
|}.

Definition scenario_high_velocity : scenario := {|
  banner := "运行场景2：高速水流条件...";
  config_of := fun env => make_config env (f 5 10) (f 25 100) (f 2 1) (f 5 10) None None;
  scenario_name := "场景2：高速水流污染迁移";
  params_description := "高流速条件 - 高渗透性含水层、陡峭水力梯度";
  use_case := "高渗透性含水层、陡峭水力梯度区域";
  main_params := fun env c => base_params env c " (5倍基准)" "" ""
|}.

Definition scenario_strong_dispersion : scenario := {|
  banner := "运行场景3：强弥散条件...";
  config_of := fun env => make_config env (f 1 10) (f 25 100) (f 10 1) (f 25 10) None None;
  scenario_name := "场景3：强弥散污染羽扩展";
  params_description := "强弥散作用 - 非均质性强、裂隙发育含水层";
  use_case := "非均质性强、裂隙发育的含水层";
  main_params := fun env c => base_params env c "" " (5倍基准)" " (5倍基准)"
|}.

Definition scenario_decaying_contaminant : scenario := {|
  banner := "运行场景4：衰减污染物...";
  config_of :=
    fun env => make_config env (f 1 10) (f 25 100) (f 2 1) (f 5 10) (Some (f 1 100)) None;
  scenario_name := "场景4：衰减污染物迁移";
  params_description := "包含生物降解 - 可生物降解污染物自然衰减";
  use_case := "可生物降解污染物（石油烃、苯系物等）";
  main_params :=
    fun env c => (base_params env c "" "" ""
                  ++ ", λ=" ++ str_float env (getattr (lamb c) fzero) ++ " d⁻^{-1}")%string
|}.

Definition scenario_retarded_contaminant : scenario := {|
  banner := "运行场景5：吸附性污染物...";
  config_of :=
    fun env => make_config env (f 1 10) (f 25 100) (f 2 1) (f 5 10) None (Some (f 2 1));
  scenario_name := "场景5：吸附性污染物阻滞迁移";
  params_description := "吸附阻滞作用 - 重金属、有机氯等强吸附性污染物";
  use_case := "重金属、有机氯等吸附性强的污染物";
  main_params :=
    fun env c => (base_params env c "" "" ""
                  ++ ", R=" ++ str_float env (getattr (R c) fzero))%string
|}.

(** lines 293-299 *)
Definition scenarios : list (string * scenario) :=
  [("场景1", scenario_standard_industrial);
   ("场景2", scenario_high_velocity);
   ("场景3", scenario_strong_dispersion);
   ("场景4", scenario_decaying_contaminant);
   ("场景5", scenario_retarded_contaminant)].

(** lines 304-310: the loop with its [try] *)
Fixpoint run_each (env : Env) (now : clock) (todo : list (string * scenario))
  (results : list (string * pydict)) : list event * clock * list (string * pydict) :=
  match todo with
  | [] => ([], now, results)
  | (name, s) :: todo' =>
      let '(evs, now', r) := run_scenario s env now in
      let '(line, value) :=
        match r with
        | inr result => (("✓ " ++ name ++ " 完成")%string, result)
        | inl msg => (("✗ " ++ name ++ " 失败: " ++ msg)%string, [("错误", msg)])
        end in
      let '(evs', now'', results') := run_each env now' todo' (set_item results name value) in
      (evs ++ Print line :: evs', now'', results')
  end.

(** lines 343-351: the section of one entry of [results] *)
Definition section (scenario_key : string) (result : pydict) : list string :=
  [(String (ascii_of_nat 10) "" ++ get result "场景名称" scenario_key ++ ":")%string;
   ("  污染源类型: " ++ get result "污染源类型" "N/A")%string;
   ("  适用情况: " ++ get result "适用情况" "N/A")%string;
   ("  主要参数: " ++ get result "主要参数" "N/A")%string;
   ("  输出文件: " ++ get result "输出文件" "N/A")%string].

Fixpoint sections (results : list (string * pydict)) : list string :=
  match results with
  | [] => []
  | (scenario_key, result) :: results' =>
      if String.eqb scenario_key "对比分析" then sections results'
      else section scenario_key result ++ sections results'
  end.

Definition report_file : string := path_join output_dir "single_source_scenarios_summary.txt".

(** lines 331-341, without the line ends *)
Definition report_head (env : Env) (now : clock) : list string :=
  ["单污染源多参数地下水污染实验场景总结报告";
   "============================================================";
   ("生成时间: " ++ strftime env "%Y-%m-%d %H:%M:%S" (hd 0 now))%string;
   "";
   "实验设计概述:";
   "- 所有场景均基于单一点污染源";
   "- 通过调整物理参数模拟不同污染迁移特征";
   "- 每个场景针对特定的水文地质条件或污染物类型";
   "";
   "场景详细信息:";
   "--------------------------------------------------------------------------------"].

(** lines 326-353 *)
Definition generate_summary_report (env : Env) (now : clock)
  (results : list (string * pydict)) : list event * clock :=
  ([WriteReport report_file (report_head env now ++ sections results);
    Print (String (ascii_of_nat 10) "" ++ "详细总结报告已保存至: " ++ report_file)%string],
   tl now).

(** lines 249-257: the five evaluations of the comparison, at [t = 180] *)
Definition compared : list (float64 * float64 * float64 * float64 * float64) :=
  [(f 1 10, f 2 1, f 5 10, fzero, float_of_int 1);
   (f 5 10, f 2 1, f 5 10, fzero, float_of_int 1);
   (f 1 10, f 10 1, f 25 10, fzero, float_of_int 1);
   (f 1 10, f 2 1, f 5 10, f 1 100, float_of_int 1);
   (f 1 10, f 2 1, f 5 10, fzero, f 2 1)].

Fixpoint compare_panels (env : Env)
  (todo : list (float64 * float64 * float64 * float64 * float64)) : list event * option string :=
  match todo with
  | [] => ([], None)
  | (v, al, ah, lamb, R) :: todo' =>
      let x := linspace env (float_of_int (-10)) (float_of_int 100) 150 in
      let y := linspace env (float_of_int (-20)) (float_of_int 20) 100 in
      let XY := Simulate.meshgrid x y in
      let ev := Evaluate 180 v (f 25 100) al ah None lamb R in
      match point2 env (float_of_int 1000) (fst XY) (snd XY) 180 v (f 25 100) al ah
                   (f 5 10) (float_of_int 0) (float_of_int 0) None lamb R with
      | inl msg => ([ev], Some msg)
      | inr C =>
          match draw_comparison env x y C with
          | Some msg => ([ev], Some msg)
          | None =>
              let '(evs, r) := compare_panels env todo' in
              (ev :: evs, r)
          end
      end
  end.

(** lines 230-283 *)
Definition comparative_analysis (env : Env) (now : clock)
  : list event * clock * (string + string) :=
  let start := Print "进行参数对比分析..." in
  match open_figure env with
  | Some msg => ([start], now, inl msg)
  | None =>
      match compare_panels env compared with
      | (evs, Some msg) => (start :: evs, now, inl msg)
      | (evs, None) =>
          match finish_figure env with
          | Some msg => (start :: evs, now, inl msg)
          | None =>
              let timestamp := strftime env "%Y%m%d_%H%M%S" (hd 0 now) in
              let filename :=
                path_join output_dir ("comparative_analysis_" ++ timestamp ++ ".png")%string in
              match savefig env filename with
              | Some msg => (start :: evs, tl now, inl msg)
              | None => (start :: evs ++ [SaveFig filename], tl now, inr filename)
              end
          end
      end
  end.

Definition rule (k : nat) : string := String.concat "" (repeat "=" k).

(** lines 286-323: the events and the [results] returned *)
Definition run_all_single_source_scenarios (env : Env) (now : clock)
  : list event * list (string * pydict) :=
  let head :=
    [Print (rule 70); Print "单污染源多参数地下水污染实验场景模拟"; Print (rule 70);
     Print ("结果将保存到目录: " ++ output_dir)%string] in
  let '(evs1, now1, results1) := run_each env now scenarios [] in
  let '(evs2, now2, r) := comparative_analysis env now1 in
  let '(evs2', results2) :=
    match r with
    | inr comparative_file =>
        (evs2 ++ [Print "✓ 对比分析完成"],
         set_item results1 "对比分析" [("输出文件", comparative_file)])
    | inl msg => (evs2 ++ [Print ("✗ 对比分析失败: " ++ msg)%string], results1)
    end in
  let '(evs3, _) := generate_summary_report env now2 results2 in
  (head ++ evs1 ++ evs2' ++ evs3, results2).

End Batch.

(** * Properties of the batch of scenarios *)

Section BatchRun.
Import Batch.

Variable env : Env.

Definition result_fields : list string :=
  ["场景名称"; "污染源类型"; "适用情况"; "主要参数"; "输出文件"].

Lemma set_item_absent {V : Type} (d : list (string * V)) (k : string) (v : V) :
  ~ In k (map fst d) -> set_item d k v = d ++ [(k, v)].
Proof.
  induction d as [|[k' v'] d IH]; simpl; intros Hk; [reflexivity|].
  destruct (String.eqb_spec k' k) as [->|_]; [exfalso; auto|].
  rewrite IH; auto.
Qed.

Lemma create_scenario_plot_saves (now : clock) (config : Config)
  (name description filename : string) :
  snd (create_scenario_plot env now config name description) = inr filename ->
  In (SaveFig filename) (fst (fst (create_scenario_plot env now config name description))).
Proof.
  unfold create_scenario_plot.
  destruct (open_figure env); [discriminate|].
  destruct (panels env config 0 _) as [evs [msg|]]; [discriminate|].
  destruct (finish_figure env); [discriminate|].
  destruct (savefig env _); [discriminate|]. simpl.
  intros E; injection E as <-. apply in_or_app. right. now left.
Qed.

(** what a scenario leaves in [results] and in the trace *)
Definition recorded (evs : list event) (name : string) (s : scenario) (d : pydict) : Prop :=
  In (Print (banner s)) evs /\
  ((exists msg, d = [("错误", msg)] /\
                In (Print ("✗ " ++ name ++ " 失败: " ++ msg)%string) evs) \/
   (map fst d = result_fields /\
    get d "场景名称" "" = scenario_name s /\
    In (SaveFig (get d "输出文件" "")) evs /\
    In (Print ("✓ " ++ name ++ " 完成")%string) evs)).

Lemma recorded_more (evs before after : list event) (name : string) (s : scenario)
  (d : pydict) :
  recorded evs name s d -> recorded (before ++ evs ++ after) name s d.
Proof.
  assert (Hin : forall e, In e evs -> In e (before ++ evs ++ after)).
  { intros e He. apply in_or_app. right. apply in_or_app. now left. }
  intros [Hb [[msg [Hd Hp]]|(Hf & Hn & Hs & Hp)]]; split; auto.
  - left. exists msg. auto.
  - right. auto.
Qed.

Lemma run_each_spec (todo : list (string * scenario)) :
  NoDup (map fst todo) ->
  forall now results,
    (forall k, In k (map fst todo) -> ~ In k (map fst results)) ->
    exists entries,
      snd (run_each env now todo results) = results ++ entries /\
      Forall2 (fun job entry =>
                 fst entry = fst job /\
                 recorded (fst (fst (run_each env now todo results)))
                          (fst job) (snd job) (snd entry))
              todo entries.
Proof.
  induction todo as [|[name s] todo IH]; intros Hnd now results Hfresh.
  - exists []. simpl. rewrite app_nil_r. split; [reflexivity|constructor].
  - simpl in Hnd. apply NoDup_cons_iff in Hnd as [Hname Hnd].
    cbn [run_each].
    assert (Hs : exists evs now' r,
               run_scenario s env now = (evs, now', r) /\
               In (Print (banner s)) evs /\
               match r with
               | inl _ => True
               | inr d => map fst d = result_fields /\
                          get d "场景名称" "" = scenario_name s /\
                          In (SaveFig (get d "输出文件" "")) evs
               end).
    { unfold run_scenario.
      pose proof (create_scenario_plot_saves now (config_of s env) (scenario_name s)
                    (params_description s)) as Hsave.
      destruct (create_scenario_plot env now _ _ _) as [[evs now'] [msg|filename]];
        simpl in Hsave.
      - do 3 eexists. split; [reflexivity|]. split; [now left|exact I].
      - do 3 eexists. split; [reflexivity|]. split; [now left|].
        split; [reflexivity|]. split; [reflexivity|].
        right. change (get _ "输出文件" "") with filename. now apply Hsave. }
    destruct Hs as (evs & now' & r & -> & Hbanner & Hr).
    set (line := match r with
                 | inr _ => ("✓ " ++ name ++ " 完成")%string
                 | inl msg => ("✗ " ++ name ++ " 失败: " ++ msg)%string
                 end).
    set (value := match r with inr result => result | inl msg => [("错误", msg)] end).
    assert (Hpair : match r with
                    | inr result => (("✓ " ++ name ++ " 完成")%string, result)
                    | inl msg => (("✗ " ++ name ++ " 失败: " ++ msg)%string, [("错误", msg)])
                    end = (line, value)) by (unfold line, value; now destruct r).
    rewrite Hpair.
    rewrite set_item_absent by (apply Hfresh; now left).
    unfold pydict in *.
    destruct (IH Hnd now' (results ++ [(name, value)])) as [entries [Hres Hall]].
    { intros k Hk. rewrite map_app, in_app_iff. simpl. intros [Hin|[<-|[]]].
      - revert Hin. apply Hfresh. now right.
      - contradiction. }
    destruct (run_each env now' todo (results ++ [(name, value)])) as [[evs' now''] results'].
    simpl in Hres, Hall. exists ((name, value) :: entries). simpl. split.
    + now rewrite Hres, <- app_assoc.
    + constructor.
      * simpl. split; [reflexivity|]. split; [apply in_or_app; now left|].
        unfold value, line. destruct r as [msg|d].
        -- left. exists msg. split; [reflexivity|]. apply in_or_app. right. now left.
        -- right. destruct Hr as (Hf & Hn & Hsv). repeat split; auto.
           ++ apply in_or_app. now left.
           ++ apply in_or_app. right. now left.
      * eapply Forall2_impl; [|exact Hall]. intros job entry [Hk Hrec]. split; [exact Hk|].
        apply (recorded_more evs' (evs ++ [Print line]) [] ) in Hrec.
        rewrite app_nil_r, <- app_assoc in Hrec. exact Hrec.
Qed.

(** the shape of a run: the entries of the five scenarios, then that of the
    comparison when it succeeds, and the report written from them *)
Lemma run_all_inv (now : clock) :
  exists entries tail evs1 evs2 stamp,
    snd (run_all_single_source_scenarios env now) = entries ++ tail /\
    fst (run_all_single_source_scenarios env now)
    = [Print (rule 70); Print "单污染源多参数地下水污染实验场景模拟"; Print (rule 70);
       Print ("结果将保存到目录: " ++ output_dir)%string]
        ++ evs1 ++ evs2
        ++ fst (generate_summary_report env stamp (entries ++ tail)) /\
    Forall2 (fun job entry =>
               fst entry = fst job /\ recorded evs1 (fst job) (snd job) (snd entry))
            scenarios entries /\
    (tail = [] \/ exists file, tail = [("对比分析", [("输出文件", file)])]).
Proof.
  unfold run_all_single_source_scenarios.
  destruct (run_each_spec scenarios) with (now := now) (results := @nil (string * pydict))
    as [entries [Hres Hall]].
  { repeat constructor; simpl; intuition discriminate. }
  { intros k _ []. }
  destruct (run_each env now scenarios []) as [[evs1 now1] results1].
  simpl in Hres, Hall. subst results1.
  destruct (comparative_analysis env now1) as [[evs2 now2] [msg|file]].
  - exists entries, [], evs1, (evs2 ++ [Print ("✗ 对比分析失败: " ++ msg)%string]), now2.
    rewrite app_nil_r.
    destruct (generate_summary_report env now2 entries) as [evs3 now3] eqn:E3.
    simpl. repeat split; auto.
  - assert (Hfresh : ~ In "对比分析" (map fst entries)).
    { assert (Hk : map fst entries = map fst scenarios).
      { clear -Hall. induction Hall as [|job entry ? ? [Hk _] _ IH]; simpl;
          [reflexivity|now rewrite Hk, IH]. }
      rewrite Hk. simpl. intuition discriminate. }
    unfold pydict in *. rewrite (set_item_absent entries _ _ Hfresh).
    exists entries, [("对比分析", [("输出文件", file)])], evs1,
      (evs2 ++ [Print "✓ 对比分析完成"]), now2.
    destruct (generate_summary_report env now2 _) as [evs3 now3] eqn:E3.
    simpl. repeat split; auto. right. now exists file.
Qed.

(** *** X13 *)


(** *** The report *)

Lemma sections_length (results : list (string * pydict)) :
  List.length (sections results)
  = (5 * List.length (filter (fun k => negb (String.eqb k "对比分析")) (map fst results)))%nat.
Proof.
  induction results as [|[k d] results IH]; simpl; [reflexivity|].
  destruct (String.eqb k "对比分析"); simpl; [exact IH|]. rewrite IH. lia.
Qed.

Lemma sections_block (results : list (string * pydict)) (k : string) (d : pydict) :
  In (k, d) results -> String.eqb k "对比分析" = false ->
  exists pre post, sections results = pre ++ section k d ++ post.
Proof.
  intros Hin Hk. induction results as [|[k' d'] results IH]; [contradiction|].
  destruct Hin as [E|Hin].
  - injection E as -> ->. exists [], (sections results). cbn [sections]. now rewrite Hk.
  - destruct (IH Hin) as (pre & post & E). cbn [sections].
    destruct (String.eqb k' "对比分析").
    + now exists pre, post.
    + exists (section k' d' ++ pre), post. now rewrite E, <- app_assoc.
Qed.

(** the five lines that the report gives to a scenario that failed *)
Definition failed_section (scenario_key : string) : list string :=
  [(String (ascii_of_nat 10) "" ++ scenario_key ++ ":")%string;
   "  污染源类型: N/A"; "  适用情况: N/A"; "  主要参数: N/A"; "  输出文件: N/A"].

(** *** X14 *)

(** X14: the report written at the end of a batch has one section of five
    lines for each of the five scenarios and none for the comparison; the
    section of a scenario that failed is headed by its key and shows [N/A]
    in its four fields, whatever the exception was: the text of the
    exception, kept in [results], does not reach the report. *)
Theorem report_shows_failures_as_missing (now : clock) :
  exists stamp,
    In (WriteReport report_file
          (report_head env stamp
             ++ sections (snd (run_all_single_source_scenarios env now))))
       (fst (run_all_single_source_scenarios env now)) /\
    List.length (sections (snd (run_all_single_source_scenarios env now))) = 25%nat /\
    forall name msg,
      In (name, [("错误", msg)]) (snd (run_all_single_source_scenarios env now)) ->
      exists pre post,
        sections (snd (run_all_single_source_scenarios env now))
        = pre ++ failed_section name ++ post.
Proof.
  destruct (run_all_inv now) as (entries & tail & evs1 & evs2 & stamp & Hres & Htrace & Hall & Htail).
  assert (Hkeys : map fst entries = map fst scenarios).
  { clear -Hall. induction Hall as [|job entry ? ? [Hk _] _ IH]; simpl;
      [reflexivity|now rewrite Hk, IH]. }
  exists stamp. rewrite Hres, Htrace. split; [|split].
  - apply in_or_app. right. apply in_or_app. right. apply in_or_app. right.
    unfold generate_summary_report. simpl. now left.
  - rewrite sections_length, map_app, Hkeys.
    destruct Htail as [->|[file ->]]; reflexivity.
  - intros name msg Hin.
    assert (Hname : String.eqb name "对比分析" = false).
    { apply in_app_or in Hin as [Hin|Hin].
      - apply (in_map fst) in Hin. rewrite Hkeys in Hin. simpl in Hin.
        destruct Hin as [<-|[<-|[<-|[<-|[<-|[]]]]]]; reflexivity.
      - destruct Htail as [->|[file ->]]; [contradiction|].
        destruct Hin as [E|[]]. discriminate. }
    destruct (sections_block _ _ _ Hin Hname) as (pre & post & E).
    exists pre, post. exact E.
Qed.

End BatchRun.

(** *** Example: a batch in which the second scenario fails *)

Module BatchDemo.
Import Batch.

(** a small grid, a solver that refuses the velocity 0.5, a plain clock *)
Definition env : Env := {|
  linspace := fun start stop num => [start; stop];
  point2 := fun c0 X Y t v n al ah Q xc yc Dm lamb R =>
              if feq v (f 5 10) then inl "velocity out of range"
              else inr (Simulate.zeros_like X);
  open_figure := None;
  add_subplot := fun _ => None;
  draw_panel := fun _ _ _ => None;
  draw_comparison := fun _ _ _ => None;
  finish_figure := None;
  savefig := fun _ => None;
  strftime := fun fmt now => "t";
  str_float := fun _ => "x"
|}.

End BatchDemo.


Lemma report_shows_failures_as_missing_witness :
  exists pre post,
    Batch.sections (snd (Batch.run_all_single_source_scenarios BatchDemo.env []))
    = pre ++ failed_section "场景2" ++ post.
Proof.
  destruct (report_shows_failures_as_missing BatchDemo.env []) as [stamp [_ [_ Hfail]]].
  apply (Hfail "场景2" "velocity out of range").
  vm_compute. right. left. reflexivity.
Defined.

(** *** One scenario figure *)

Section ScenarioPlot.
Import Batch.

Variable env : Env.

(** the evaluation of one subplot: the attributes of the configuration,
    with no diffusion, no decay and no retardation where the configuration
    has no such attribute *)
Definition panel_evaluation (config : Config) (t : Z) : event :=
  Evaluate t (v config) (n config) (al config) (ah config)
           (Some (getattr (Dm config) fzero))
           (getattr (lamb config) fzero)
           (getattr (R config) (float_of_int 1)).

Lemma panels_spec (config : Config) (times : list Z) (i : nat) :
  exists k,
    fst (panels env config i times) = map (panel_evaluation config) (firstn k times) /\
    (snd (panels env config i times) = None -> k = List.length times).
Proof.
  revert i; induction times as [|t times IH]; intros i; simpl.
  - exists 0%nat. auto.
  - destruct (add_subplot env i); [exists 0%nat; split; [reflexivity|discriminate]|].
    destruct (point2 env _ _ _ _ _ _ _ _ _ _ _ _ _ _) as [msg|C];
      [exists 1%nat; split; [reflexivity|discriminate]|].
    destruct (draw_panel env _ _ C);
      [exists 1%nat; split; [reflexivity|discriminate]|].
    destruct (IH (S i)) as [k [Hevs Hk]].
    destruct (panels env config (S i) times) as [evs r]; simpl in *.
    exists (S k). split; [now rewrite Hevs|]. intros Hr. now rewrite (Hk Hr).
Qed.

(** *** X15 *)

(** X15: the figure of a scenario is built from evaluations of the
    analytical solution at days 30, 90, 180 and 365, in this order, each
    with the attributes of the configuration and with [Dm = 0.0],
    [lamb = 0.0], [R = 1.0] where the configuration sets none; the first
    step that raises ends the function with the evaluations made so far
    and no figure saved; otherwise the four evaluations are followed by
    the one figure saved, whose name is returned, and one value of the
    clock has been read. *)
Theorem scenario_plot_in_order (now : clock) (config : Config) (name description : string) :
  exists k,
    (k <= 4)%nat /\
    match snd (create_scenario_plot env now config name description) with
    | inl _ =>
        fst (fst (create_scenario_plot env now config name description))
        = map (panel_evaluation config) (firstn k [30; 90; 180; 365])
    | inr filename =>
        k = 4%nat /\
        fst (fst (create_scenario_plot env now config name description))
        = map (panel_evaluation config) [30; 90; 180; 365] ++ [SaveFig filename] /\
        snd (fst (create_scenario_plot env now config name description)) = tl now /\
        filename
        = path_join output_dir
            (replace name " " "_" ++ "_" ++ strftime env "%Y%m%d_%H%M%S" (hd 0 now)
                     ++ ".png")%string
    end.
Proof.
  unfold create_scenario_plot.
  destruct (open_figure env); [exists 0%nat; split; [lia|reflexivity]|].
  destruct (panels_spec config [30; 90; 180; 365] 0) as [k [Hevs Hk]].
  assert (Hle : (k <= 4)%nat \/ fst (panels env config 0 [30; 90; 180; 365])
                                = map (panel_evaluation config) [30; 90; 180; 365]).
  { destruct (le_lt_dec k 4); [now left|right].
    rewrite Hevs. do 5 (destruct k as [|k]; [lia|]). reflexivity. }
  destruct (panels env config 0 [30; 90; 180; 365]) as [evs [msg|]]; simpl in *.
  - destruct Hle as [Hle|Hall]; [now exists k|].
    exists 4%nat. split; [lia|exact Hall].
  - specialize (Hk eq_refl). subst k. simpl in Hevs.
    exists 4%nat. split; [lia|].
    destruct (finish_figure env); [exact Hevs|].
    destruct (savefig env _); simpl; [exact Hevs|].
    rewrite Hevs. repeat split; reflexivity.
Qed.

End ScenarioPlot.
